(** * Mesh snapping and the "Shader Test" node: a shallow embedding

    The development follows two source files of the repository:

    - [source/blender/editors/transform/transform_snap_object_mesh.cc]
      (module [SnapMesh]): ray casts and projected nearest-element searches
      on a mesh and the fallback between snap targets;
    - [source/blender/nodes/shader/nodes/test_shader.cc]
      (module [ShaderTest]): the declaration and the GPU code generation of
      one shader node.

    C++ [int] values are [Z]; bit masks use [Z.land] and [Z.lor]; arrays are
    lists read with a default outside their range (the C++ behaviour there
    is undefined); [float] is the comparison model of module [F32]. *)

From Stdlib Require Import ZArith List Bool Lia String.
Import ListNotations.
Open Scope Z_scope.

(* ------------------------------------------------------------------ *)
(** ** Single precision values, as far as comparisons see them *)

Module F32.

(** Every finite binary32 value is an integral multiple of [2^-149];
    [Fin m] stands for [m * 2^-149] (both zeros are [Fin 0]).  Comparisons
    follow IEEE 754: anything compared with [NaN] is [false].  Arithmetic
    is not defined here: the functions that do arithmetic take it from the
    environment. *)
Inductive float : Type :=
| NaN
| NInf
| Fin (m : Z)
| PInf.

Definition ltb (a b : float) : bool :=
  match a, b with
  | NaN, _ | _, NaN => false
  | NInf, NInf => false
  | NInf, _ => true
  | Fin _, NInf => false
  | Fin x, Fin y => x <? y
  | Fin _, PInf => true
  | PInf, _ => false
  end.

Definition eqb (a b : float) : bool :=
  match a, b with
  | NInf, NInf | PInf, PInf => true
  | Fin x, Fin y => x =? y
  | _, _ => false
  end.

Definition leb (a b : float) : bool := ltb a b || eqb a b.

Definition zero : float := Fin 0.
Definition of_int (n : Z) : float := Fin (n * 2 ^ 149).

(** [a] is not above [b]: the outcome of an update that only ever stores a
    strictly smaller value. *)
Definition noninc (a b : float) : Prop := a = b \/ ltb a b = true.

End F32.

Definition float : Type := F32.float.
Definition float3 : Type := (float * float * float)%type.
Definition float4x4 : Type := list (list float).

Definition zero_v3 : float3 := (F32.zero, F32.zero, F32.zero).

(** Array read [a[i]] for a C++ [int] index. *)
Definition at_ {A : Type} (d : A) (a : list A) (i : Z) : A :=
  if i <? 0 then d else nth (Z.to_nat i) a d.

(* ------------------------------------------------------------------ *)
(** ** eSnapMode *)

(** Modelled from the spec: the enumerators of [eSnapMode] are declared in
    [DNA_scene_types.h], which is not among the sources.  Each named mode is
    a distinct single bit and [SCE_SNAP_TO_NONE] is zero; the theorems use
    nothing else about the values. *)
Definition eSnapMode := Z.
Definition SCE_SNAP_TO_NONE : eSnapMode := 0.
Definition SCE_SNAP_TO_VERTEX : eSnapMode := 1.
Definition SCE_SNAP_TO_EDGE : eSnapMode := 2.
Definition SCE_SNAP_TO_FACE : eSnapMode := 4.
Definition SCE_SNAP_TO_EDGE_MIDPOINT : eSnapMode := 16.
Definition SCE_SNAP_TO_EDGE_PERPENDICULAR : eSnapMode := 32.
Definition SCE_SNAP_INDIVIDUAL_NEAREST : eSnapMode := 256.

(** [a & b] as a C++ condition. *)
Definition has (a b : Z) : bool := negb (Z.land a b =? 0).

(** Every bit of [m] is in [s]. *)
Definition includes (s m : eSnapMode) : Prop := Z.land s m = m.

(* ------------------------------------------------------------------ *)
(** ** Mesh snapping *)

Module SnapMesh.

(** *** Data *)

Definition float2 : Type := (float * float)%type.
Definition float4 : Type := (float * float * float * float)%type.

(** [MLoopTri::tri]: the three corners of a triangle. *)
Definition MLoopTri : Type := (Z * Z * Z)%type.

(** The parts of [Mesh] that this file reads.  [me_id] stands for the
    address of the data-block, which the code compares with
    [Object::data]. *)
Record Mesh : Type := {
  me_id : Z;
  totvert : Z;
  totedge : Z;
  totpoly : Z;
  me_vert_positions : list float3;
  me_vert_normals : list float3;
  me_edges : list (Z * Z);
  me_corner_verts : list Z;
  me_corner_edges : list Z;
  me_looptris : list MLoopTri;
  me_looptri_polys : list Z
}.

Record BoundBox : Type := { bb_vec : list float3 }.

Record Object : Type := { ob_data : Z }.

Record BVHTreeRay : Type := {
  ray_origin : float3;
  ray_direction : float3
}.

Record BVHTreeRayHit : Type := {
  hit_index : Z;
  hit_co : float3;
  hit_no : float3;
  hit_dist : float
}.

Record BVHTreeNearest : Type := {
  nr_index : Z;
  nr_co : float3;
  nr_no : float3;
  nr_dist_sq : float
}.

(** Modelled from the spec: [BVHTree] and its queries live in
    [BLI_kdopbvh.c], which is not among the sources.  A tree is the
    sequence of leaf indices a query hands to its callback, in the order
    of the visit; leaves a real query prunes are leaves it does not
    test, so they are not part of the sequence. *)
Record BVHTree : Type := { leaves : list Z }.

Inductive BVHCacheType : Type :=
| BVHTREE_FROM_LOOPTRI
| BVHTREE_FROM_LOOPTRI_NO_HIDDEN
| BVHTREE_FROM_LOOSEEDGES
| BVHTREE_FROM_LOOSEVERTS.

Definition RayCallback : Type :=
  Z -> BVHTreeRay -> BVHTreeRayHit -> BVHTreeRayHit.

Definition NearestCallback : Type :=
  Z -> float3 -> BVHTreeNearest -> BVHTreeNearest.

(** [BVHTreeFromMesh].  The two callbacks are stored already applied to
    their [userdata], which at every call of this file is the tree data
    itself. *)
Record BVHTreeFromMesh : Type := {
  tree : option BVHTree;
  td_vert_positions : list float3;
  td_corner_verts : list Z;
  td_looptri : list MLoopTri;
  raycast_callback : RayCallback;
  nearest_callback : NearestCallback
}.

(** One entry of the list filled by a ray cast that keeps every hit. *)
Record SnapObjectHitDepth : Type := {
  hd_co : float3;
  hd_no : float3;
  hd_index : Z;
  hd_depth : float;
  hd_ob_uuid : Z
}.

Record SnapObjectParams : Type := { use_backface_culling : bool }.

Record SnapRuntime : Type := {
  ray_start : float3;
  ray_dir : float3;
  snap_to_flag : eSnapMode;
  params : SnapObjectParams;
  object_index : Z;
  win_size : float2;
  mval : float2
}.

Record SnapRet : Type := {
  loc : float3;
  no : float3;
  index : Z;
  ray_depth_max : float;
  dist_px_sq : float;
  hit_list : option (list SnapObjectHitDepth)
}.

Record SnapObjectContext : Type := {
  runtime : SnapRuntime;
  ret : SnapRet
}.

Record DistProjectedAABBPrecalc : Type := {
  pc_ray_origin : float3;
  pc_ray_direction : float3;
  pc_pmat : float4x4;
  pc_mval : float2
}.

(** The members of the base class [Nearest2dUserData] (declared in
    [transform_snap_object.hh]) that this file touches. *)
Record Nearest2dUserData : Type := {
  is_persp : bool;
  nd_use_backface_culling : bool;
  pmat_local : float4x4;
  nearest_precalc : DistProjectedAABBPrecalc;
  clip_planes : list float4;
  nearest_point : BVHTreeNearest
}.

(** [class Nearest2dUserData_Mesh : public Nearest2dUserData]. *)
Record Nearest2dUserData_Mesh : Type := {
  nd_base : Nearest2dUserData;
  vert_positions : list float3;
  vert_normals : list float3;
  edges : list (Z * Z);
  corner_verts : list Z;
  corner_edges : list Z;
  looptris : list MLoopTri
}.

Record RayCastAll_Data : Type := {
  bvhdata : BVHTreeFromMesh;
  rc_raycast_callback : RayCallback;
  rc_obmat : float4x4;
  rc_len_diff : float;
  rc_local_scale : float;
  rc_ob_uuid : Z;
  rc_hit_list : list SnapObjectHitDepth
}.

(** *** Ghost trace

    The model records which functions are entered, which tree queries run
    and which elements the projected callbacks test, with the value of
    [nearest->dist_sq] at that point.  The code has no such list; it is
    what the statements about "tried", "tested" and "immediately" are read
    from. *)

Inductive Elem : Type :=
| Vert (i : Z)
| Edge (i : Z).

Definition elem_index (e : Elem) : Z :=
  match e with Vert i | Edge i => i end.

Inductive Fn : Type := FnSnapMesh | FnRaycastMesh | FnNearestWorldMesh.

Inductive Event : Type :=
| EvEnter (f : Fn)
| EvTreeGet (t : BVHCacheType)
| EvFindNearest (dist_sq : float)
| EvTest (e : Elem) (dist_sq : float)
| EvRayCast
| EvRayCastAll
| EvNearestWorldTree.

Definition Trace : Type := list Event.

(** The elements tested, oldest first. *)
Fixpoint tested (t : Trace) : list Elem :=
  match t with
  | [] => []
  | EvTest e _ :: t' => e :: tested t'
  | _ :: t' => tested t'
  end.

(** The successive values of [nearest->dist_sq]: at the start of every
    tree query and after every test. *)
Fixpoint dists (t : Trace) : list float :=
  match t with
  | [] => []
  | EvFindNearest d :: t' | EvTest _ d :: t' => d :: dists t'
  | _ :: t' => dists t'
  end.

(** [l] never goes up, starting from [prev]. *)
Fixpoint never_increases (prev : float) (l : list float) : Prop :=
  match l with
  | [] => True
  | d :: l' => F32.noninc d prev /\ never_increases d l'
  end.

(** The functions entered, oldest first. *)
Fixpoint entered (t : Trace) : list Fn :=
  match t with
  | [] => []
  | EvEnter f :: t' => f :: entered t'
  | _ :: t' => entered t'
  end.

(** *** What the file takes from the rest of the program

    Functions, methods and constants that this file calls and that are
    defined in other files of the repository.  They are parameters of the
    development: every theorem holds whatever they compute. *)
Class Externals : Type := {
  (* float arithmetic *)
  fadd : float -> float -> float;
  fsub : float -> float -> float;
  fmul : float -> float -> float;
  fdiv : float -> float -> float;
  BVH_RAYCAST_DIST_MAX : float;
  (* BLI_math *)
  invert_m4_m4 : float4x4 -> float4x4;
  mul_m4_v3 : float4x4 -> float3 -> float3;
  mul_mat3_m4_v3 : float4x4 -> float3 -> float3;
  mul_transposed_mat3_m4_v3 : float4x4 -> float3 -> float3;
  normalize_v3 : float3 -> float * float3;
  madd_v3_v3fl : float3 -> float3 -> float -> float3;
  madd_v3_v3v3fl : float3 -> float3 -> float -> float3;
  sub_v3_v3v3 : float3 -> float3 -> float3;
  isect_ray_aabb_v3_simple : float3 -> float3 -> float3 -> float3 -> option float;
  isect_point_planes_v3_negated : list float4 -> float3 -> bool;
  dist_squared_to_projected_aabb_precalc :
    float4x4 -> float2 -> float2 -> DistProjectedAABBPrecalc;
  (* the projection and the closest point of transform_snap_object.cc *)
  projected_dist_sq : DistProjectedAABBPrecalc -> bool -> float3 -> float;
  ray_edge_near_co : DistProjectedAABBPrecalc -> float3 -> float3 -> float3;
  (* BKE *)
  BKE_object_boundbox_get : Object -> option BoundBox;
  BKE_mesh_boundbox_get : Object -> BoundBox;
  BKE_bvhtree_from_mesh_get : Mesh -> BVHCacheType -> Z -> BVHTreeFromMesh;
  bvhtree_ray_tri_intersection :
    BVHTreeRay -> float -> float3 -> float3 -> float3 -> float;
  (* transform_snap_object.cc *)
  raycast_tri_backface_culling_test :
    float3 -> float3 -> float3 -> float3 -> bool * float3;
  raycast_all_cb :
    RayCastAll_Data -> Z -> BVHTreeRay -> BVHTreeRayHit ->
    BVHTreeRayHit * RayCastAll_Data;
  nearest_world_tree :
    SnapObjectContext -> BVHTree -> NearestCallback -> BVHTreeFromMesh ->
    float4x4 -> bool * SnapObjectContext;
  (* the base class Nearest2dUserData *)
  Nearest2dUserData_init :
    SnapObjectContext -> Object -> float4x4 -> Nearest2dUserData;
  snap_boundbox : Nearest2dUserData -> float3 -> float3 -> bool;
  clip_planes_enable : Nearest2dUserData -> Nearest2dUserData;
  Nearest2dUserData_release :
    Nearest2dUserData -> SnapObjectContext -> SnapObjectContext
}.

Section Code.

Context {X : Externals}.

(** *** Snap Object Data *)

Definition snap_object_data_mesh_get (me_eval : Mesh) (use_hide : bool)
  (tr : Trace) : BVHTreeFromMesh * Trace :=
  let t := if use_hide then BVHTREE_FROM_LOOPTRI_NO_HIDDEN
           else BVHTREE_FROM_LOOPTRI in
  (BKE_bvhtree_from_mesh_get me_eval t 4, tr ++ [EvTreeGet t]).

(** *** Ray Cast Functions *)

(** Modelled from the spec: [BLI_bvhtree_ray_cast] ([BLI_kdopbvh.c], not
    among the sources) hands the leaves of the tree to the callback, which
    updates the hit, and returns the index of the final hit. *)
Definition BLI_bvhtree_ray_cast (t : BVHTree) (co dir : float3)
  (radius : float) (hit : BVHTreeRayHit) (callback : RayCallback)
  : Z * BVHTreeRayHit :=
  let ray := {| ray_origin := co; ray_direction := dir |} in
  let hit' := fold_left (fun h i => callback i ray h) (leaves t) hit in
  (hit_index hit', hit').

(** Modelled from the spec: [BLI_bvhtree_ray_cast_all] starts every leaf
    from a fresh hit of distance [hit_dist] and leaves the bookkeeping to
    the callback, which keeps its own data. *)
Definition BLI_bvhtree_ray_cast_all {D : Type} (t : BVHTree)
  (co dir : float3) (radius hit_dist : float)
  (callback : D -> Z -> BVHTreeRay -> BVHTreeRayHit -> BVHTreeRayHit * D)
  (userdata : D) : D :=
  let ray := {| ray_origin := co; ray_direction := dir |} in
  let fresh := {| hit_index := -1; hit_co := zero_v3; hit_no := zero_v3;
                  hit_dist := hit_dist |} in
  fold_left (fun d i => snd (callback d i ray fresh)) (leaves t) userdata.

(** The three corner positions of triangle [index]. *)
Definition vtri_co (data : BVHTreeFromMesh) (index : Z)
  : float3 * float3 * float3 :=
  let '(c0, c1, c2) := at_ (0, 0, 0) (td_looptri data) index in
  let vp := td_vert_positions data in
  let cv := td_corner_verts data in
  (at_ zero_v3 vp (at_ 0 cv c0),
   at_ zero_v3 vp (at_ 0 cv c1),
   at_ zero_v3 vp (at_ 0 cv c2)).

(** Callback to ray-cast with back-face culling. *)
Definition mesh_looptri_raycast_backface_culling_cb
  (data : BVHTreeFromMesh) (index : Z) (ray : BVHTreeRay)
  (hit : BVHTreeRayHit) : BVHTreeRayHit :=
  let '(v0, v1, v2) := vtri_co data index in
  let dist := bvhtree_ray_tri_intersection ray (hit_dist hit) v0 v1 v2 in
  if F32.leb F32.zero dist && F32.ltb dist (hit_dist hit) then
    let '(ok, no) :=
      raycast_tri_backface_culling_test (ray_direction ray) v0 v1 v2 in
    if ok then
      {| hit_index := index;
         hit_co := madd_v3_v3v3fl (ray_origin ray) (ray_direction ray) dist;
         (* normalize_v3_v3(hit->no, no) *)
         hit_no := snd (normalize_v3 no);
         hit_dist := dist |}
    else hit
  else hit.

Definition set_hit_list (sctx : SnapObjectContext)
  (l : list SnapObjectHitDepth) : SnapObjectContext :=
  let r := ret sctx in
  {| runtime := runtime sctx;
     ret := {| loc := loc r; no := no r; index := index r;
               ray_depth_max := ray_depth_max r;
               dist_px_sq := dist_px_sq r;
               hit_list := Some l |} |}.

Definition set_ray_result (sctx : SnapObjectContext)
  (l n : float3) (depth : float) (i : Z) : SnapObjectContext :=
  let r := ret sctx in
  {| runtime := runtime sctx;
     ret := {| loc := l; no := n; index := i;
               ray_depth_max := depth;
               dist_px_sq := dist_px_sq r;
               hit_list := hit_list r |} |}.

(** The test of the bounding box in [raycastMesh]: [None] when the ray
    misses the box, otherwise the value left in [len_diff]. *)
Definition raycast_boundbox (ob_eval : Object) (me_eval : Mesh)
  (ray_start_local ray_normal_local : float3) : option float :=
  if ob_data ob_eval =? me_id me_eval then
    match BKE_object_boundbox_get ob_eval with
    | Some bb =>
        isect_ray_aabb_v3_simple ray_start_local ray_normal_local
          (at_ zero_v3 (bb_vec bb) 0) (at_ zero_v3 (bb_vec bb) 6)
    | None => Some F32.zero
    end
  else Some F32.zero.

(** The local ray of [raycastMesh], as it stands just before the tree is
    fetched: start, direction, [local_scale], [local_depth], [len_diff].
    [None] when the bounding box is missed. *)
Definition raycast_local_ray (sctx : SnapObjectContext) (ob_eval : Object)
  (me_eval : Mesh) (obmat : float4x4)
  : option (float3 * float3 * float * float * float) :=
  let imat := invert_m4_m4 obmat in
  let ray_start_local := mul_m4_v3 imat (ray_start (runtime sctx)) in
  let '(local_scale, ray_normal_local) :=
    normalize_v3 (mul_mat3_m4_v3 imat (ray_dir (runtime sctx))) in
  let local_depth := ray_depth_max (ret sctx) in
  let local_depth :=
    if negb (F32.eqb local_depth BVH_RAYCAST_DIST_MAX)
    then fmul local_depth local_scale else local_depth in
  match raycast_boundbox ob_eval me_eval ray_start_local ray_normal_local with
  | None => None
  | Some len_diff =>
      if F32.ltb (F32.of_int 400) len_diff then
        let len_diff := fsub len_diff local_scale in
        Some (madd_v3_v3fl ray_start_local ray_normal_local len_diff,
              ray_normal_local, local_scale,
              fsub local_depth len_diff, len_diff)
      else
        Some (ray_start_local, ray_normal_local, local_scale,
              local_depth, F32.zero)
  end.

(** The hit distance in world units: [hit.dist += len_diff;
    hit.dist /= local_scale]. *)
Definition world_depth (hit : BVHTreeRayHit) (len_diff local_scale : float)
  : float :=
  fdiv (fadd (hit_dist hit) len_diff) local_scale.

(** The callback of the single-hit ray cast. *)
Definition raycast_single_cb (sctx : SnapObjectContext)
  (treedata : BVHTreeFromMesh) : RayCallback :=
  if use_backface_culling (params (runtime sctx))
  then mesh_looptri_raycast_backface_culling_cb treedata
  else raycast_callback treedata.

Definition raycastMesh (sctx : SnapObjectContext) (tr : Trace)
  (ob_eval : Object) (me_eval : Mesh) (obmat : float4x4) (ob_index : Z)
  (use_hide : bool) : bool * SnapObjectContext * Trace :=
  let tr := tr ++ [EvEnter FnRaycastMesh] in
  if totpoly me_eval =? 0 then (false, sctx, tr) else
  match raycast_local_ray sctx ob_eval me_eval obmat with
  | None => (false, sctx, tr)
  | Some (ray_start_local, ray_normal_local, local_scale,
          local_depth, len_diff) =>
      let imat := invert_m4_m4 obmat in
      let '(treedata, tr) := snap_object_data_mesh_get me_eval use_hide tr in
      let looptri_polys := me_looptri_polys me_eval in
      match tree treedata with
      | None => (false, sctx, tr)
      | Some t =>
          match hit_list (ret sctx) with
          | Some hl =>
              let data :=
                {| bvhdata := treedata;
                   rc_raycast_callback := raycast_callback treedata;
                   rc_obmat := obmat;
                   rc_len_diff := len_diff;
                   rc_local_scale := local_scale;
                   rc_ob_uuid := ob_index;
                   rc_hit_list := hl |} in
              let data' :=
                BLI_bvhtree_ray_cast_all t ray_start_local ray_normal_local
                  F32.zero (ray_depth_max (ret sctx)) raycast_all_cb data in
              (* hit_last_prev != data.hit_list->last: the list only grows
                 at its tail, so its last node changed when it grew *)
              (negb (Nat.eqb (List.length hl) (List.length (rc_hit_list data'))),
               set_hit_list sctx (rc_hit_list data'),
               tr ++ [EvRayCastAll])
          | None =>
              let hit := {| hit_index := -1; hit_co := zero_v3;
                            hit_no := zero_v3; hit_dist := local_depth |} in
              let '(found, hit) :=
                BLI_bvhtree_ray_cast t ray_start_local ray_normal_local
                  F32.zero hit (raycast_single_cb sctx treedata) in
              let tr := tr ++ [EvRayCast] in
              if negb (found =? -1) then
                let dist := world_depth hit len_diff local_scale in
                if F32.leb dist (ray_depth_max (ret sctx)) then
                  (true,
                   set_ray_result sctx
                     (mul_m4_v3 obmat (hit_co hit))
                     (snd (normalize_v3
                             (mul_transposed_mat3_m4_v3 imat (hit_no hit))))
                     dist
                     (at_ 0 looptri_polys (hit_index hit)),
                   tr)
                else (false, sctx, tr)
              else (false, sctx, tr)
          end
      end
  end.

(** *** Surface Snap Functions *)

Definition nearest_world_mesh (sctx : SnapObjectContext) (tr : Trace)
  (me_eval : Mesh) (obmat : float4x4) (use_hide : bool)
  : bool * SnapObjectContext * Trace :=
  let tr := tr ++ [EvEnter FnNearestWorldMesh] in
  let '(treedata, tr) := snap_object_data_mesh_get me_eval use_hide tr in
  match tree treedata with
  | None => (false, sctx, tr)
  | Some t =>
      let '(r, sctx') :=
        nearest_world_tree sctx t (nearest_callback treedata) treedata obmat in
      (r, sctx', tr ++ [EvNearestWorldTree])
  end.

(** *** Subclass for Snapping to Edges or Points of a Mesh *)

Definition Nearest2dUserData_Mesh_new (sctx : SnapObjectContext)
  (ob_eval : Object) (mesh_eval : Mesh) (obmat : float4x4)
  : Nearest2dUserData_Mesh :=
  {| nd_base := Nearest2dUserData_init sctx ob_eval obmat;
     vert_positions := me_vert_positions mesh_eval;
     vert_normals := me_vert_normals mesh_eval;
     edges := me_edges mesh_eval;
     corner_verts := me_corner_verts mesh_eval;
     corner_edges := me_corner_edges mesh_eval;
     looptris := me_looptris mesh_eval |}.

Definition set_base (d : Nearest2dUserData_Mesh) (b : Nearest2dUserData)
  : Nearest2dUserData_Mesh :=
  {| nd_base := b;
     vert_positions := vert_positions d;
     vert_normals := vert_normals d;
     edges := edges d;
     corner_verts := corner_verts d;
     corner_edges := corner_edges d;
     looptris := looptris d |}.

Definition set_nearest_point (b : Nearest2dUserData) (n : BVHTreeNearest)
  : Nearest2dUserData :=
  {| is_persp := is_persp b;
     nd_use_backface_culling := nd_use_backface_culling b;
     pmat_local := pmat_local b;
     nearest_precalc := nearest_precalc b;
     clip_planes := clip_planes b;
     nearest_point := n |}.

Definition get_vert_co (data : Nearest2dUserData_Mesh) (index : Z) : float3 :=
  at_ zero_v3 (vert_positions data) index.

Definition get_edge_verts_index (data : Nearest2dUserData_Mesh) (index : Z)
  : Z * Z :=
  at_ (0, 0) (edges data) index.

(** [looptri->tri[j]]. *)
Definition tri (lt : MLoopTri) (j : Z) : Z :=
  let '(c0, c1, c2) := lt in
  if j =? 0 then c0 else if j =? 1 then c1 else c2.

(** [r[j]] and [r[j] = v] for an [int r[3]]. *)
Definition get3 (r : Z * Z * Z) (j : Z) : Z := tri r j.

Definition set3 (r : Z * Z * Z) (j v : Z) : Z * Z * Z :=
  let '(r0, r1, r2) := r in
  if j =? 0 then (v, r1, r2) else if j =? 1 then (r0, v, r2) else (r0, r1, v).

Definition get_tri_verts_index (data : Nearest2dUserData_Mesh) (index : Z)
  : Z * Z * Z :=
  let looptri := at_ (0, 0, 0) (looptris data) index in
  (at_ 0 (corner_verts data) (tri looptri 0),
   at_ 0 (corner_verts data) (tri looptri 1),
   at_ 0 (corner_verts data) (tri looptri 2)).

(** The macro [ELEM(v, a, b)]. *)
Definition ELEM (v a b : Z) : bool := (v =? a) || (v =? b).

(** One turn of the loop of [get_tri_edges_index]: the value stored in
    [r_e_index[j]]. *)
Definition tri_side_edge (data : Nearest2dUserData_Mesh) (lt : MLoopTri)
  (j j_next : Z) : Z :=
  let edge := at_ (0, 0) (edges data) (at_ 0 (corner_edges data) (tri lt j)) in
  let tri_edge :=
    (at_ 0 (corner_verts data) (tri lt j),
     at_ 0 (corner_verts data) (tri lt j_next)) in
  if ELEM (fst edge) (fst tri_edge) (snd tri_edge)
     && ELEM (snd edge) (fst tri_edge) (snd tri_edge)
  then at_ 0 (corner_edges data) (tri lt j)
  else -1.

(** [for (int j = 2, j_next = 0; j_next < 3; j = j_next++)] runs with
    [(j, j_next)] equal to [(2, 0)], [(0, 1)] and [(1, 2)]. *)
Definition tri_sides : list (Z * Z) := [(2, 0); (0, 1); (1, 2)].

Definition get_tri_edges_index (data : Nearest2dUserData_Mesh) (index : Z)
  : Z * Z * Z :=
  let lt := at_ (0, 0, 0) (looptris data) index in
  fold_left
    (fun r jj => set3 r (fst jj) (tri_side_edge data lt (fst jj) (snd jj)))
    tri_sides (0, 0, 0).

Definition copy_vert_no (data : Nearest2dUserData_Mesh) (index : Z) : float3 :=
  at_ zero_v3 (vert_normals data) index.

(** *** The projected callbacks *)

(** A search in progress: the [BVHTreeNearest] and the trace. *)
Definition SearchState : Type := (BVHTreeNearest * Trace)%type.

Definition ProjectedCallback : Type :=
  Z -> DistProjectedAABBPrecalc -> list float4 -> SearchState -> SearchState.

(** Modelled from the spec: [test_projected_vert_dist]
    ([transform_snap_object.cc], not among the sources).  A point behind a
    clip plane is rejected; otherwise its squared distance to the cursor,
    in pixels, replaces [*dist_px_sq] when it is strictly smaller. *)
Definition test_projected_vert_dist (precalc : DistProjectedAABBPrecalc)
  (clip_plane : list float4) (persp : bool) (co : float3)
  (dist_px_sq : float) (r_co : float3) : bool * float * float3 :=
  if negb (isect_point_planes_v3_negated clip_plane co) then
    (false, dist_px_sq, r_co)
  else
    let dist_sq := projected_dist_sq precalc persp co in
    if F32.ltb dist_sq dist_px_sq then (true, dist_sq, co)
    else (false, dist_px_sq, r_co).

(** Modelled from the spec: [test_projected_edge_dist] tests the point of
    the edge that is closest to the cursor ray. *)
Definition test_projected_edge_dist (precalc : DistProjectedAABBPrecalc)
  (clip_plane : list float4) (persp : bool) (va vb : float3)
  (dist_px_sq : float) (r_co : float3) : bool * float * float3 :=
  test_projected_vert_dist precalc clip_plane persp
    (ray_edge_near_co precalc va vb) dist_px_sq r_co.

(** Modelled from the spec: [cb_snap_vert] ([transform_snap_object.cc]). *)
Definition cb_snap_vert (data : Nearest2dUserData_Mesh) : ProjectedCallback :=
  fun index precalc clip_plane st =>
  let '(nearest, tr) := st in
  let co := get_vert_co data index in
  let '(ok, dist_sq, r_co) :=
    test_projected_vert_dist precalc clip_plane (is_persp (nd_base data)) co
      (nr_dist_sq nearest) (nr_co nearest) in
  let tr := tr ++ [EvTest (Vert index) dist_sq] in
  if ok then
    ({| nr_index := index; nr_co := r_co;
        nr_no := copy_vert_no data index; nr_dist_sq := dist_sq |}, tr)
  else (nearest, tr).

(** Modelled from the spec: [cb_snap_edge] ([transform_snap_object.cc]). *)
Definition cb_snap_edge (data : Nearest2dUserData_Mesh) : ProjectedCallback :=
  fun index precalc clip_plane st =>
  let '(nearest, tr) := st in
  let vindex := get_edge_verts_index data index in
  let v0 := get_vert_co data (fst vindex) in
  let v1 := get_vert_co data (snd vindex) in
  let '(ok, dist_sq, r_co) :=
    test_projected_edge_dist precalc clip_plane (is_persp (nd_base data))
      v0 v1 (nr_dist_sq nearest) (nr_co nearest) in
  let tr := tr ++ [EvTest (Edge index) dist_sq] in
  if ok then
    ({| nr_index := index; nr_co := r_co;
        nr_no := sub_v3_v3v3 v0 v1; nr_dist_sq := dist_sq |}, tr)
  else (nearest, tr).

(** [for (int i = n; i--;)] over an index array: the body runs for
    [i = n-1] down to [0]; [continue] skips an index equal to the current
    [nearest->index]. *)
Definition snap_each (cb : ProjectedCallback) (idx : list Z)
  (precalc : DistProjectedAABBPrecalc) (clip_plane : list float4)
  (st : SearchState) : SearchState :=
  fold_left
    (fun st i =>
       if i =? nr_index (fst st) then st else cb i precalc clip_plane st)
    (rev idx) st.

Definition cb_snap_edge_verts (data : Nearest2dUserData_Mesh)
  : ProjectedCallback :=
  fun index precalc clip_plane st =>
  let vindex := get_edge_verts_index data index in
  snap_each (cb_snap_vert data) [fst vindex; snd vindex] precalc clip_plane st.

(** The test both triangle callbacks make first: [true] when the callback
    returns at once. *)
Definition tri_culled (data : Nearest2dUserData_Mesh) (index : Z)
  (precalc : DistProjectedAABBPrecalc) : bool :=
  if nd_use_backface_culling (nd_base data) then
    let '(v0, v1, v2) := get_tri_verts_index data index in
    fst (raycast_tri_backface_culling_test (pc_ray_direction precalc)
           (get_vert_co data v0) (get_vert_co data v1) (get_vert_co data v2))
  else false.

Definition cb_snap_tri_verts (data : Nearest2dUserData_Mesh)
  : ProjectedCallback :=
  fun index precalc clip_plane st =>
  let '(v0, v1, v2) := get_tri_verts_index data index in
  if tri_culled data index precalc then st
  else snap_each (cb_snap_vert data) [v0; v1; v2] precalc clip_plane st.

Definition cb_snap_tri_edges (data : Nearest2dUserData_Mesh)
  : ProjectedCallback :=
  fun index precalc clip_plane st =>
  if tri_culled data index precalc then st
  else
    let '(e0, e1, e2) := get_tri_edges_index data index in
    fold_left
      (fun st e =>
         if negb (e =? -1) then
           if e =? nr_index (fst st) then st
           else cb_snap_edge data e precalc clip_plane st
         else st)
      (rev [e0; e1; e2]) st.

(** Modelled from the spec: [BLI_bvhtree_find_nearest_projected]
    ([BLI_kdopbvh.c]) prepares the projection of the cursor and hands the
    leaves of the tree to the callback, which updates [nearest]. *)
Definition BLI_bvhtree_find_nearest_projected (t : BVHTree)
  (projmat : float4x4) (winsize mval : float2) (clip_plane : list float4)
  (st : SearchState) (callback : ProjectedCallback) : SearchState :=
  let precalc := dist_squared_to_projected_aabb_precalc projmat winsize mval in
  fold_left (fun st i => callback i precalc clip_plane st) (leaves t)
    (fst st, snd st ++ [EvFindNearest (nr_dist_sq (fst st))]).

(** *** Internal Object Snapping API *)

(** The result of [snapMesh]: the returned mode, the context, the trace and
    the local [nearest2d] as it is when the function returns ([None] when
    the function returns before constructing it). *)
Definition SnapMeshResult : Type :=
  (eSnapMode * SnapObjectContext * Trace * option Nearest2dUserData_Mesh)%type.

(** One call of [BLI_bvhtree_find_nearest_projected] as [snapMesh] makes
    it; a null tree is skipped. *)
Definition snap_tree (sctx : SnapObjectContext)
  (nearest2d : Nearest2dUserData_Mesh) (t : option BVHTree)
  (callback : ProjectedCallback) (st : SearchState) : SearchState :=
  match t with
  | Some t =>
      BLI_bvhtree_find_nearest_projected t
        (pmat_local (nd_base nearest2d))
        (win_size (runtime sctx)) (mval (runtime sctx))
        (clip_planes (nd_base nearest2d)) st callback
  | None => st
  end.

(** The searches of [snapMesh], from the initial [nearest] to the final
    one, and the element kind chosen. *)
Definition snapMesh_search (sctx : SnapObjectContext)
  (nearest2d : Nearest2dUserData_Mesh)
  (treedata : BVHTreeFromMesh) (bvhtree0 bvhtree1 : option BVHTree)
  (st : SearchState) : SearchState * eSnapMode :=
  let last_index := nr_index (fst st) in
  let elem := SCE_SNAP_TO_VERTEX in
  (* snap to loose verts *)
  let st := snap_tree sctx nearest2d bvhtree1 (cb_snap_vert nearest2d) st in
  let last_index :=
    match bvhtree1 with
    | Some _ => nr_index (fst st)
    | None => last_index
    end in
  if has (snap_to_flag (runtime sctx)) SCE_SNAP_TO_EDGE then
    (* snap to loose edges, then to looptris *)
    let st := snap_tree sctx nearest2d bvhtree0 (cb_snap_edge nearest2d) st in
    let st :=
      snap_tree sctx nearest2d (tree treedata)
        (cb_snap_tri_edges nearest2d) st in
    (st, if negb (last_index =? nr_index (fst st))
         then SCE_SNAP_TO_EDGE else elem)
  else
    (* snap to loose edge verts, then to looptri verts *)
    let st :=
      snap_tree sctx nearest2d bvhtree0 (cb_snap_edge_verts nearest2d) st in
    let st :=
      snap_tree sctx nearest2d (tree treedata)
        (cb_snap_tri_verts nearest2d) st in
    (st, elem).

(** [snapMesh] as a build without assertions runs it: the [BLI_assert]s of
    the source are left out. *)
Definition snapMesh (sctx : SnapObjectContext) (tr : Trace)
  (ob_eval : Object) (me_eval : Mesh) (obmat : float4x4) (use_hide : bool)
  : SnapMeshResult :=
  let tr := tr ++ [EvEnter FnSnapMesh] in
  if totvert me_eval =? 0 then (SCE_SNAP_TO_NONE, sctx, tr, None) else
  if (totedge me_eval =? 0)
     && negb (has (snap_to_flag (runtime sctx)) SCE_SNAP_TO_VERTEX)
  then (SCE_SNAP_TO_NONE, sctx, tr, None) else
  let nearest2d := Nearest2dUserData_Mesh_new sctx ob_eval me_eval obmat in
  let bb := BKE_mesh_boundbox_get ob_eval in
  if (ob_data ob_eval =? me_id me_eval)
     && negb (snap_boundbox (nd_base nearest2d)
                (at_ zero_v3 (bb_vec bb) 0) (at_ zero_v3 (bb_vec bb) 6))
  then (SCE_SNAP_TO_NONE,
        Nearest2dUserData_release (nd_base nearest2d) sctx, tr,
        Some nearest2d)
  else
  let '(treedata, tr) := snap_object_data_mesh_get me_eval use_hide tr in
  let bvhtree0 :=
    tree (BKE_bvhtree_from_mesh_get me_eval BVHTREE_FROM_LOOSEEDGES 2) in
  let tr := tr ++ [EvTreeGet BVHTREE_FROM_LOOSEEDGES] in
  let '(bvhtree1, tr) :=
    if has (snap_to_flag (runtime sctx)) SCE_SNAP_TO_VERTEX then
      (tree (BKE_bvhtree_from_mesh_get me_eval BVHTREE_FROM_LOOSEVERTS 2),
       tr ++ [EvTreeGet BVHTREE_FROM_LOOSEVERTS])
    else (None, tr) in
  let nearest2d :=
    set_base nearest2d (clip_planes_enable (nd_base nearest2d)) in
  let nearest :=
    {| nr_index := -1; nr_co := zero_v3; nr_no := zero_v3;
       nr_dist_sq := dist_px_sq (ret sctx) |} in
  let '(nearest, tr, elem) :=
    snapMesh_search sctx nearest2d treedata bvhtree0 bvhtree1 (nearest, tr) in
  if negb (nr_index nearest =? -1) then
    let nearest2d :=
      set_base nearest2d (set_nearest_point (nd_base nearest2d) nearest) in
    (elem, Nearest2dUserData_release (nd_base nearest2d) sctx, tr,
     Some nearest2d)
  else
    (SCE_SNAP_TO_NONE,
     Nearest2dUserData_release (nd_base nearest2d) sctx, tr,
     Some nearest2d).

Definition mesh_snap_mode_supported (mesh : Mesh) : eSnapMode :=
  let snap_mode_supported := SCE_SNAP_TO_NONE in
  let snap_mode_supported :=
    if negb (totpoly mesh =? 0) then
      Z.lor snap_mode_supported
        (Z.lor SCE_SNAP_TO_FACE SCE_SNAP_INDIVIDUAL_NEAREST)
    else snap_mode_supported in
  let snap_mode_supported :=
    if negb (totedge mesh =? 0) then
      Z.lor snap_mode_supported
        (Z.lor (Z.lor SCE_SNAP_TO_EDGE SCE_SNAP_TO_EDGE_MIDPOINT)
           SCE_SNAP_TO_EDGE_PERPENDICULAR)
    else snap_mode_supported in
  let snap_mode_supported :=
    if negb (totvert mesh =? 0) then
      Z.lor snap_mode_supported SCE_SNAP_TO_VERTEX
    else snap_mode_supported in
  snap_mode_supported.

(** [sctx->runtime.object_index++]; the index is handed on as a [uint]. *)
Definition bump_object_index (sctx : SnapObjectContext) : SnapObjectContext :=
  let r := runtime sctx in
  {| runtime :=
       {| ray_start := ray_start r; ray_dir := ray_dir r;
          snap_to_flag := snap_to_flag r; params := params r;
          object_index := (object_index r + 1) mod 2 ^ 32;
          win_size := win_size r; mval := mval r |};
     ret := ret sctx |}.

(** The modes of the first stage of [snap_object_mesh]. *)
Definition edge_or_vertex_modes : eSnapMode :=
  Z.lor (Z.lor (Z.lor SCE_SNAP_TO_EDGE SCE_SNAP_TO_EDGE_MIDPOINT)
           SCE_SNAP_TO_EDGE_PERPENDICULAR) SCE_SNAP_TO_VERTEX.

(** The last two stages of [snap_object_mesh]. *)
Definition snap_object_mesh_faces (sctx : SnapObjectContext) (tr : Trace)
  (ob_eval : Object) (mesh_eval : Mesh) (obmat : float4x4)
  (snap_mode_used : eSnapMode) (use_hide : bool)
  : eSnapMode * SnapObjectContext * Trace :=
  let '(hit, sctx, tr) :=
    if has snap_mode_used SCE_SNAP_TO_FACE then
      raycastMesh (bump_object_index sctx) tr ob_eval mesh_eval obmat
        (object_index (runtime sctx)) use_hide
    else (false, sctx, tr) in
  if hit then (SCE_SNAP_TO_FACE, sctx, tr) else
  let '(near, sctx, tr) :=
    if has snap_mode_used SCE_SNAP_INDIVIDUAL_NEAREST then
      nearest_world_mesh sctx tr mesh_eval obmat use_hide
    else (false, sctx, tr) in
  if near then (SCE_SNAP_INDIVIDUAL_NEAREST, sctx, tr)
  else (SCE_SNAP_TO_NONE, sctx, tr).

Definition snap_object_mesh (sctx : SnapObjectContext) (tr : Trace)
  (ob_eval : Object) (mesh_eval : Mesh) (obmat : float4x4)
  (snap_to_flag : eSnapMode) (use_hide : bool)
  : eSnapMode * SnapObjectContext * Trace :=
  let snap_mode_used :=
    Z.land snap_to_flag (mesh_snap_mode_supported mesh_eval) in
  let '(elem, sctx, tr) :=
    if has snap_mode_used edge_or_vertex_modes then
      let '(elem, sctx, tr, _) :=
        snapMesh sctx tr ob_eval mesh_eval obmat use_hide in
      (elem, sctx, tr)
    else (SCE_SNAP_TO_NONE, sctx, tr) in
  if negb (elem =? 0) then (elem, sctx, tr)
  else
    snap_object_mesh_faces sctx tr ob_eval mesh_eval obmat snap_mode_used
      use_hide.

(** *** Vocabulary of the statements *)

(** The squared distance, in pixels, that the test of element [e]
    computes; [None] when the tested point is behind a clip plane. *)
Definition elem_dist (data : Nearest2dUserData_Mesh)
  (precalc : DistProjectedAABBPrecalc) (clip_plane : list float4) (e : Elem)
  : option float :=
  let co :=
    match e with
    | Vert i => get_vert_co data i
    | Edge i =>
        let vindex := get_edge_verts_index data i in
        ray_edge_near_co precalc (get_vert_co data (fst vindex))
          (get_vert_co data (snd vindex))
    end in
  if isect_point_planes_v3_negated clip_plane co
  then Some (projected_dist_sq precalc (is_persp (nd_base data)) co)
  else None.

(** [elem_dist] with the projection and the clip planes of the searches of
    [snapMesh]. *)
Definition snap_dist (sctx : SnapObjectContext)
  (nearest2d : Nearest2dUserData_Mesh) (e : Elem) : option float :=
  elem_dist nearest2d
    (dist_squared_to_projected_aabb_precalc (pmat_local (nd_base nearest2d))
       (win_size (runtime sctx)) (mval (runtime sctx)))
    (clip_planes (nd_base nearest2d)) e.

(** The progress of a search from [st] to [st']: the events added are
    tests and tree queries only; the tested elements satisfy [Q]; the
    distance never goes up; no tested element is strictly closer than the
    element kept; and the element kept is the initial one or a tested one
    that is strictly closer than the initial distance. *)
Definition search_step (data : Nearest2dUserData_Mesh)
  (precalc : DistProjectedAABBPrecalc) (clip_plane : list float4)
  (Q : Elem -> Prop) (st st' : SearchState) : Prop :=
  exists ev,
    snd st' = snd st ++ ev /\
    entered ev = [] /\
    Forall Q (tested ev) /\
    never_increases (nr_dist_sq (fst st)) (dists ev) /\
    last (dists ev) (nr_dist_sq (fst st)) = nr_dist_sq (fst st') /\
    (forall e d, In e (tested ev) ->
       elem_dist data precalc clip_plane e = Some d ->
       F32.ltb d (nr_dist_sq (fst st')) = false) /\
    (fst st' = fst st \/
     exists e, In e (tested ev) /\
       elem_index e = nr_index (fst st') /\
       elem_dist data precalc clip_plane e = Some (nr_dist_sq (fst st')) /\
       F32.ltb (nr_dist_sq (fst st')) (nr_dist_sq (fst st)) = true).

(** A stretch of a search whose first recorded distance, if it records
    any, is the distance it starts with, and whose last one is the distance
    it ends with. *)
Definition search_starts (st st' : SearchState) : Prop :=
  exists ev,
    snd st' = snd st ++ ev /\
    hd (nr_dist_sq (fst st)) (dists ev) = nr_dist_sq (fst st) /\
    last (dists ev) (nr_dist_sq (fst st)) = nr_dist_sq (fst st').

(** An element whose index can be told from the initial [-1]. *)
Definition real_elem (e : Elem) : Prop := elem_index e <> -1.

(** The vertex indices stored in the mesh are not negative. *)
Definition mesh_indices_ok (me : Mesh) : Prop :=
  Forall (fun e => 0 <= fst e /\ 0 <= snd e) (me_edges me) /\
  Forall (fun v => 0 <= v) (me_corner_verts me).

(** The leaves of the trees built for the mesh are not negative. *)
Definition trees_ok (me : Mesh) : Prop :=
  forall (t : BVHCacheType) (n : Z) (b : BVHTree),
    tree (BKE_bvhtree_from_mesh_get me t n) = Some b ->
    Forall (fun i => 0 <= i) (leaves b).

(** The element counts of a mesh are not negative. *)
Definition mesh_counts_ok (me : Mesh) : Prop :=
  0 <= totvert me /\ 0 <= totedge me /\ 0 <= totpoly me.

(** Side [j] of a triangle goes from corner [j] to corner [j + 1]. *)
Definition next_corner (j : Z) : Z := (j + 1) mod 3.

(** The mesh edge stored at corner [j] of the triangle, and its two
    vertices. *)
Definition side_edge (data : Nearest2dUserData_Mesh) (lt : MLoopTri) (j : Z)
  : Z := at_ 0 (corner_edges data) (tri lt j).

Definition side_edge_verts (data : Nearest2dUserData_Mesh) (lt : MLoopTri)
  (j : Z) : Z * Z := at_ (0, 0) (edges data) (side_edge data lt j).

(** The two vertices of that mesh edge are exactly the two ends of side
    [j] of the triangle, in either order. *)
Definition side_is_mesh_edge (data : Nearest2dUserData_Mesh) (lt : MLoopTri)
  (j : Z) : Prop :=
  let '(a, b) := side_edge_verts data lt j in
  let v := at_ 0 (corner_verts data) (tri lt j) in
  let w := at_ 0 (corner_verts data) (tri lt (next_corner j)) in
  (a = v /\ b = w) \/ (a = w /\ b = v).

(** Each of the two vertices of that mesh edge is one of the two ends of
    side [j] of the triangle: the test [get_tri_edges_index] makes. *)
Definition side_within_ends (data : Nearest2dUserData_Mesh) (lt : MLoopTri)
  (j : Z) : Prop :=
  let '(a, b) := side_edge_verts data lt j in
  let v := at_ 0 (corner_verts data) (tri lt j) in
  let w := at_ 0 (corner_verts data) (tri lt (next_corner j)) in
  (a = v \/ a = w) /\ (b = v \/ b = w).

(** The stages entered by one call of [snap_object_mesh]. *)
Definition stages (b1 b2 b3 : bool) : list Fn :=
  (if b1 then [FnSnapMesh] else []) ++
  (if b2 then [FnRaycastMesh] else []) ++
  (if b3 then [FnNearestWorldMesh] else []).

(** The outcome of each stage of [snap_object_mesh], in the state the
    stage before it leaves; a stage whose mode is not used leaves the
    state as it is and fails. *)
Definition stage_snap (sctx : SnapObjectContext) (tr : Trace)
  (ob_eval : Object) (mesh_eval : Mesh) (obmat : float4x4)
  (used : eSnapMode) (use_hide : bool)
  : eSnapMode * SnapObjectContext * Trace :=
  if has used edge_or_vertex_modes
  then fst (snapMesh sctx tr ob_eval mesh_eval obmat use_hide)
  else (SCE_SNAP_TO_NONE, sctx, tr).

Definition stage_ray (s1 : eSnapMode * SnapObjectContext * Trace)
  (ob_eval : Object) (mesh_eval : Mesh) (obmat : float4x4)
  (used : eSnapMode) (use_hide : bool) : bool * SnapObjectContext * Trace :=
  if has used SCE_SNAP_TO_FACE
  then raycastMesh (bump_object_index (snd (fst s1))) (snd s1) ob_eval
         mesh_eval obmat (object_index (runtime (snd (fst s1)))) use_hide
  else (false, snd (fst s1), snd s1).

Definition stage_near (s2 : bool * SnapObjectContext * Trace)
  (mesh_eval : Mesh) (obmat : float4x4) (used : eSnapMode) (use_hide : bool)
  : bool * SnapObjectContext * Trace :=
  if has used SCE_SNAP_INDIVIDUAL_NEAREST
  then nearest_world_mesh (snd (fst s2)) (snd s2) mesh_eval obmat use_hide
  else (false, snd (fst s2), snd s2).

(** What the single-hit ray cast of [raycastMesh] finds: the hit and its
    distance in world units; [None] when the function returns before the
    cast or the cast finds no triangle. *)
Definition raycast_found (sctx : SnapObjectContext) (ob_eval : Object)
  (me_eval : Mesh) (obmat : float4x4) (use_hide : bool)
  : option (BVHTreeRayHit * float) :=
  if totpoly me_eval =? 0 then None else
  match raycast_local_ray sctx ob_eval me_eval obmat with
  | None => None
  | Some (ray_start_local, ray_normal_local, local_scale,
          local_depth, len_diff) =>
      let treedata := fst (snap_object_data_mesh_get me_eval use_hide []) in
      match tree treedata with
      | None => None
      | Some t =>
          let hit := {| hit_index := -1; hit_co := zero_v3;
                        hit_no := zero_v3; hit_dist := local_depth |} in
          let '(found, hit) :=
            BLI_bvhtree_ray_cast t ray_start_local ray_normal_local
              F32.zero hit (raycast_single_cb sctx treedata) in
          if found =? -1 then None
          else Some (hit, world_depth hit len_diff local_scale)
      end
  end.

(** [use_backface_culling] set to [b]. *)
Definition with_culling (sctx : SnapObjectContext) (b : bool)
  : SnapObjectContext :=
  let r := runtime sctx in
  {| runtime :=
       {| ray_start := ray_start r; ray_dir := ray_dir r;
          snap_to_flag := snap_to_flag r;
          params := {| use_backface_culling := b |};
          object_index := object_index r;
          win_size := win_size r; mval := mval r |};
     ret := ret sctx |}.

(** *** snap_polygon_mesh *)

(** [poly_edges[i]] (or [poly_verts[i]]) for [i] from [0] to
    [poly.size() - 1], where [poly] is an [IndexRange] given as its start
    and its size and [arr] is the corner array the pointer is taken in. *)
Definition poly_corners (arr : list Z) (poly : Z * Z) : list Z :=
  map (fun i => at_ 0 arr (fst poly + Z.of_nat i))
    (seq 0 (Z.to_nat (snd poly))).

(** [for (int i = poly.size(); i--;)] calling [cb] on every corner, the
    last corner first. *)
Definition snap_poly_corners (cb : ProjectedCallback) (corners : list Z)
  (precalc : DistProjectedAABBPrecalc) (clip_plane : list float4)
  (st : SearchState) : SearchState :=
  fold_left (fun st i => cb i precalc clip_plane st) (rev corners) st.

(** [snap_polygon_mesh].  [polys] is [mesh_eval->polys()], the accessor
    from a polygon to its range of corners, which [BKE_mesh.hh] declares. *)
Definition snap_polygon_mesh (sctx : SnapObjectContext) (tr : Trace)
  (ob_eval : Object) (mesh_eval : Mesh) (polys : Z -> Z * Z)
  (obmat : float4x4) (snap_to_flag : eSnapMode) (polygon : Z)
  : SnapMeshResult :=
  let nearest2d := Nearest2dUserData_Mesh_new sctx ob_eval mesh_eval obmat in
  let nearest2d :=
    set_base nearest2d (clip_planes_enable (nd_base nearest2d)) in
  let nearest :=
    {| nr_index := -1; nr_co := zero_v3; nr_no := zero_v3;
       nr_dist_sq := dist_px_sq (ret sctx) |} in
  let poly := polys polygon in
  let precalc := nearest_precalc (nd_base nearest2d) in
  let clip_plane := clip_planes (nd_base nearest2d) in
  let '(elem, (nearest, tr)) :=
    if has snap_to_flag SCE_SNAP_TO_EDGE then
      (SCE_SNAP_TO_EDGE,
       snap_poly_corners (cb_snap_edge nearest2d)
         (poly_corners (corner_edges nearest2d) poly) precalc clip_plane
         (nearest, tr))
    else
      (SCE_SNAP_TO_VERTEX,
       snap_poly_corners (cb_snap_vert nearest2d)
         (poly_corners (corner_verts nearest2d) poly) precalc clip_plane
         (nearest, tr)) in
  if negb (nr_index nearest =? -1) then
    let nearest2d :=
      set_base nearest2d (set_nearest_point (nd_base nearest2d) nearest) in
    (elem, Nearest2dUserData_release (nd_base nearest2d) sctx, tr,
     Some nearest2d)
  else
    (SCE_SNAP_TO_NONE,
     Nearest2dUserData_release (nd_base nearest2d) sctx, tr,
     Some nearest2d).

(** *** More vocabulary *)

Definition is_vert (e : Elem) : Prop :=
  match e with Vert _ => True | Edge _ => False end.

Definition is_edge (e : Elem) : Prop :=
  match e with Edge _ => True | Vert _ => False end.

(** The trees fetched, oldest first. *)
Fixpoint tree_gets (t : Trace) : list BVHCacheType :=
  match t with
  | [] => []
  | EvTreeGet c :: t' => c :: tree_gets t'
  | _ :: t' => tree_gets t'
  end.

(** The tree of the triangles that [use_hide] selects. *)
Definition looptri_tree_type (use_hide : bool) : BVHCacheType :=
  if use_hide then BVHTREE_FROM_LOOPTRI_NO_HIDDEN else BVHTREE_FROM_LOOPTRI.

(** [elem_dist] with the projection and the clip planes that
    [snap_polygon_mesh] hands to the callbacks. *)
Definition poly_dist (nearest2d : Nearest2dUserData_Mesh) (e : Elem)
  : option float :=
  elem_dist nearest2d (nearest_precalc (nd_base nearest2d))
    (clip_planes (nd_base nearest2d)) e.

(** A stretch of a search that fetches no tree. *)
Definition fetches_no_tree (st st' : SearchState) : Prop :=
  exists ev, snd st' = snd st ++ ev /\ tree_gets ev = [].

(** The events of [snapMesh] before its searches. *)
Definition snapMesh_prelude (sctx : SnapObjectContext) (use_hide : bool)
  : Trace :=
  [EvEnter FnSnapMesh; EvTreeGet (looptri_tree_type use_hide);
   EvTreeGet BVHTREE_FROM_LOOSEEDGES] ++
  (if has (snap_to_flag (runtime sctx)) SCE_SNAP_TO_VERTEX
   then [EvTreeGet BVHTREE_FROM_LOOSEVERTS] else []).

(** [snapMesh] returns before it constructs [nearest2d]. *)
Definition snapMesh_empty (sctx : SnapObjectContext) (me_eval : Mesh) : bool :=
  (totvert me_eval =? 0)
  || ((totedge me_eval =? 0)
      && negb (has (snap_to_flag (runtime sctx)) SCE_SNAP_TO_VERTEX)).

(** [snapMesh] returns because the cursor misses the bounding box. *)
Definition snapMesh_outside (sctx : SnapObjectContext) (ob_eval : Object)
  (me_eval : Mesh) (obmat : float4x4) : bool :=
  let bb := BKE_mesh_boundbox_get ob_eval in
  (ob_data ob_eval =? me_id me_eval)
  && negb (snap_boundbox
             (nd_base (Nearest2dUserData_Mesh_new sctx ob_eval me_eval obmat))
             (at_ zero_v3 (bb_vec bb) 0) (at_ zero_v3 (bb_vec bb) 6)).

(** The [nearest2d] of [snapMesh] during its searches. *)
Definition snapMesh_data (sctx : SnapObjectContext) (ob_eval : Object)
  (me_eval : Mesh) (obmat : float4x4) : Nearest2dUserData_Mesh :=
  let nearest2d := Nearest2dUserData_Mesh_new sctx ob_eval me_eval obmat in
  set_base nearest2d (clip_planes_enable (nd_base nearest2d)).

(** The searches of [snapMesh] on the trees of the mesh, from the initial
    [nearest]. *)
Definition snapMesh_run (sctx : SnapObjectContext) (tr : Trace)
  (ob_eval : Object) (me_eval : Mesh) (obmat : float4x4) (use_hide : bool)
  : SearchState * eSnapMode :=
  snapMesh_search sctx (snapMesh_data sctx ob_eval me_eval obmat)
    (BKE_bvhtree_from_mesh_get me_eval (looptri_tree_type use_hide) 4)
    (tree (BKE_bvhtree_from_mesh_get me_eval BVHTREE_FROM_LOOSEEDGES 2))
    (if has (snap_to_flag (runtime sctx)) SCE_SNAP_TO_VERTEX
     then tree (BKE_bvhtree_from_mesh_get me_eval BVHTREE_FROM_LOOSEVERTS 2)
     else None)
    ({| nr_index := -1; nr_co := zero_v3; nr_no := zero_v3;
        nr_dist_sq := dist_px_sq (ret sctx) |},
     tr ++ snapMesh_prelude sctx use_hide).

(** The corner arrays of the mesh hold no negative index. *)
Definition mesh_corners_ok (me : Mesh) : Prop :=
  Forall (fun v => 0 <= v) (me_corner_verts me) /\
  Forall (fun e => 0 <= e) (me_corner_edges me).

End Code.

(** *** A small world to run the definitions in

    One square face in the plane [z = 1], triangulated along the diagonal
    from vertex 0 to vertex 2, and a loose vertex.  The externals are
    exact on the integral values used here. *)

Module Demo.

Definition unit : Z := 2 ^ 149.
Definition fl (n : Z) : float := F32.of_int n.

Definition lift2 (f : Z -> Z -> Z) (a b : float) : float :=
  match a, b with
  | F32.Fin x, F32.Fin y => F32.Fin (f x y)
  | _, _ => F32.NaN
  end.

Definition zof (a : float) : Z :=
  match a with F32.Fin x => x / unit | _ => 0 end.

Definition zof3 (v : float3) : Z * Z * Z :=
  let '(x, y, z) := v in (zof x, zof y, zof z).

Definition sub3 (a b : Z * Z * Z) : Z * Z * Z :=
  let '(ax, ay, az) := a in let '(bx, b_y, bz) := b in
  (ax - bx, ay - b_y, az - bz).

Definition cross3 (a b : Z * Z * Z) : Z * Z * Z :=
  let '(ax, ay, az) := a in let '(bx, b_y, bz) := b in
  (ay * bz - az * b_y, az * bx - ax * bz, ax * b_y - ay * bx).

Definition dot3 (a b : Z * Z * Z) : Z :=
  let '(ax, ay, az) := a in let '(bx, b_y, bz) := b in
  ax * bx + ay * b_y + az * bz.

Definition fl3 (v : Z * Z * Z) : float3 :=
  let '(x, y, z) := v in (fl x, fl y, fl z).

(** The normal of the triangle and whether it looks against [dir]. *)
Definition culling_test (dir v0 v1 v2 : float3) : bool * float3 :=
  let n := cross3 (sub3 (zof3 v1) (zof3 v0)) (sub3 (zof3 v2) (zof3 v0)) in
  (dot3 n (zof3 dir) <? 0, fl3 n).

(** The distance along the axis [z] from the origin of the ray to the
    plane of the triangle. *)
Definition tri_intersection (ray : BVHTreeRay) (dist : float)
  (v0 v1 v2 : float3) : float :=
  let '(_, _, oz) := zof3 (ray_origin ray) in
  let '(_, _, vz) := zof3 v0 in
  fl (Z.abs (vz - oz)).

Definition px_dist_sq (p : DistProjectedAABBPrecalc) (persp : bool)
  (co : float3) : float :=
  let '(x, y, _) := zof3 co in
  let '(mx, my) := pc_mval p in
  fl ((x - zof mx) * (x - zof mx) + (y - zof my) * (y - zof my)).

Definition mesh_tri_co (me : Mesh) (index : Z) : float3 * float3 * float3 :=
  let '(c0, c1, c2) := at_ (0, 0, 0) (me_looptris me) index in
  let vp := me_vert_positions me in
  let cv := me_corner_verts me in
  (at_ zero_v3 vp (at_ 0 cv c0), at_ zero_v3 vp (at_ 0 cv c1),
   at_ zero_v3 vp (at_ 0 cv c2)).

(** The ray-cast callback without culling. *)
Definition plain_raycast_cb (me : Mesh) : RayCallback :=
  fun index ray hit =>
  let '(v0, v1, v2) := mesh_tri_co me index in
  let dist := tri_intersection ray (hit_dist hit) v0 v1 v2 in
  if F32.leb F32.zero dist && F32.ltb dist (hit_dist hit) then
    {| hit_index := index; hit_co := v0;
       hit_no := snd (culling_test (ray_direction ray) v0 v1 v2);
       hit_dist := dist |}
  else hit.

Definition seqZ (n : nat) : list Z := map Z.of_nat (seq 0 n).

Definition tree_get (me : Mesh) (t : BVHCacheType) (n : Z) : BVHTreeFromMesh :=
  {| tree :=
       match t with
       | BVHTREE_FROM_LOOPTRI | BVHTREE_FROM_LOOPTRI_NO_HIDDEN =>
           match me_looptris me with
           | [] => None
           | l => Some {| leaves := seqZ (List.length l) |}
           end
       | BVHTREE_FROM_LOOSEEDGES => None
       | BVHTREE_FROM_LOOSEVERTS =>
           if 4 <? totvert me then Some {| leaves := [4] |} else None
       end;
     td_vert_positions := me_vert_positions me;
     td_corner_verts := me_corner_verts me;
     td_looptri := me_looptris me;
     raycast_callback := plain_raycast_cb me;
     nearest_callback := fun _ _ n => n |}.

Definition all_cb (data : RayCastAll_Data) (index : Z) (ray : BVHTreeRay)
  (hit : BVHTreeRayHit) : BVHTreeRayHit * RayCastAll_Data :=
  let hit' := rc_raycast_callback data index ray hit in
  if negb (hit_index hit' =? -1) then
    (hit',
     {| bvhdata := bvhdata data;
        rc_raycast_callback := rc_raycast_callback data;
        rc_obmat := rc_obmat data;
        rc_len_diff := rc_len_diff data;
        rc_local_scale := rc_local_scale data;
        rc_ob_uuid := rc_ob_uuid data;
        rc_hit_list :=
          rc_hit_list data ++
          [{| hd_co := hit_co hit'; hd_no := hit_no hit';
              hd_index := hit_index hit'; hd_depth := hit_dist hit';
              hd_ob_uuid := rc_ob_uuid data |}] |})
  else (hit', data).

Definition world : Externals :=
  {| fadd := lift2 Z.add;
     fsub := lift2 Z.sub;
     fmul := lift2 (fun x y => x * y / unit);
     fdiv := lift2 (fun x y => x * unit / y);
     BVH_RAYCAST_DIST_MAX := F32.Fin ((2 ^ 24 - 1) * 2 ^ 252);
     invert_m4_m4 := fun m => m;
     mul_m4_v3 := fun _ v => v;
     mul_mat3_m4_v3 := fun _ v => v;
     mul_transposed_mat3_m4_v3 := fun _ v => v;
     normalize_v3 := fun v => (fl 1, v);
     madd_v3_v3fl := fun r _ _ => r;
     madd_v3_v3v3fl := fun a _ _ => a;
     sub_v3_v3v3 := fun a b => fl3 (sub3 (zof3 a) (zof3 b));
     isect_ray_aabb_v3_simple := fun _ _ _ _ => Some F32.zero;
     isect_point_planes_v3_negated := fun _ _ => true;
     dist_squared_to_projected_aabb_precalc := fun pm _ mv =>
       {| pc_ray_origin := zero_v3; pc_ray_direction := fl3 (0, 0, 1);
          pc_pmat := pm; pc_mval := mv |};
     projected_dist_sq := px_dist_sq;
     ray_edge_near_co := fun _ va _ => va;
     BKE_object_boundbox_get := fun _ => None;
     BKE_mesh_boundbox_get := fun _ => {| bb_vec := [] |};
     BKE_bvhtree_from_mesh_get := tree_get;
     bvhtree_ray_tri_intersection := tri_intersection;
     raycast_tri_backface_culling_test := culling_test;
     raycast_all_cb := all_cb;
     nearest_world_tree := fun sctx _ _ _ _ => (false, sctx);
     Nearest2dUserData_init := fun sctx _ obmat =>
       {| is_persp := false;
          nd_use_backface_culling :=
            use_backface_culling (params (runtime sctx));
          pmat_local := obmat;
          nearest_precalc :=
            {| pc_ray_origin := zero_v3; pc_ray_direction := fl3 (0, 0, 1);
               pc_pmat := obmat; pc_mval := mval (runtime sctx) |};
          clip_planes := [];
          nearest_point :=
            {| nr_index := -2; nr_co := zero_v3; nr_no := zero_v3;
               nr_dist_sq := F32.zero |} |};
     snap_boundbox := fun _ _ _ => true;
     clip_planes_enable := fun b => b;
     Nearest2dUserData_release := fun _ sctx => sctx |}.

Definition quad : Mesh :=
  {| me_id := 7;
     totvert := 5; totedge := 4; totpoly := 1;
     me_vert_positions :=
       [fl3 (0, 0, 1); fl3 (10, 0, 1); fl3 (10, 10, 1); fl3 (0, 10, 1);
        fl3 (20, 20, 1)];
     me_vert_normals :=
       [fl3 (0, 0, 1); fl3 (0, 0, 1); fl3 (0, 0, 1); fl3 (0, 0, 1);
        fl3 (0, 0, 1)];
     me_edges := [(0, 1); (1, 2); (2, 3); (3, 0)];
     me_corner_verts := [0; 1; 2; 3];
     me_corner_edges := [0; 1; 2; 3];
     me_looptris := [(0, 1, 2); (0, 2, 3)];
     me_looptri_polys := [0; 0] |}.

(** A mesh without geometry. *)
Definition empty_mesh : Mesh :=
  {| me_id := 8;
     totvert := 0; totedge := 0; totpoly := 0;
     me_vert_positions := []; me_vert_normals := []; me_edges := [];
     me_corner_verts := []; me_corner_edges := []; me_looptris := [];
     me_looptri_polys := [] |}.

Definition ob : Object := {| ob_data := 7 |}.

(** A context looking along [dir] from [start], the cursor at pixel
    [(mx, my)], with a snap radius of [radius_sq] (squared) pixels. *)
Definition context (start dir : Z * Z * Z) (mx my radius_sq : Z)
  (flag : eSnapMode) (culling : bool)
  (hits : option (list SnapObjectHitDepth)) : SnapObjectContext :=
  {| runtime :=
       {| ray_start := fl3 start; ray_dir := fl3 dir;
          snap_to_flag := flag;
          params := {| use_backface_culling := culling |};
          object_index := 0;
          win_size := (fl 100, fl 100);
          mval := (fl mx, fl my) |};
     ret :=
       {| loc := zero_v3; no := zero_v3; index := -1;
          ray_depth_max := fl 1000;
          dist_px_sq := fl radius_sq;
          hit_list := hits |} |}.

(** The cursor at pixel (9, 1), next to vertex 1, seen from above. *)
Definition above : SnapObjectContext :=
  context (0, 0, 5) (0, 0, -1) 9 1 16
    (Z.lor SCE_SNAP_TO_VERTEX SCE_SNAP_TO_EDGE) true None.

(** The same cursor seen from below, keeping every hit. *)
Definition below_all : SnapObjectContext :=
  context (0, 0, 0) (0, 0, 1) 9 1 16 SCE_SNAP_TO_FACE true (Some []).

Definition quad_data : Nearest2dUserData_Mesh :=
  Nearest2dUserData_Mesh_new (X := world) above ob quad [].

(** The projection of a search that looks down on the square. *)
Definition looking_down : DistProjectedAABBPrecalc :=
  {| pc_ray_origin := fl3 (0, 0, 5); pc_ray_direction := fl3 (0, 0, -1);
     pc_pmat := []; pc_mval := (fl 9, fl 1) |}.

Definition start_of_search : SearchState :=
  ({| nr_index := -1; nr_co := zero_v3; nr_no := zero_v3;
      nr_dist_sq := fl 16 |}, []).

(** The cursor next to vertex 1, only [SCE_SNAP_TO_EDGE_MIDPOINT]
    requested. *)
Definition midpoint_only : SnapObjectContext :=
  context (0, 0, 5) (0, 0, -1) 9 1 16 SCE_SNAP_TO_EDGE_MIDPOINT false None.

(** The square with its third edge pinched: both ends on vertex 2. *)
Definition pinched : Nearest2dUserData_Mesh :=
  {| nd_base := nd_base quad_data;
     vert_positions := vert_positions quad_data;
     vert_normals := vert_normals quad_data;
     edges := [(0, 1); (1, 2); (2, 2); (3, 0)];
     corner_verts := corner_verts quad_data;
     corner_edges := corner_edges quad_data;
     looptris := looptris quad_data |}.

(** The small world again, with a bounding box that every ray and every
    cursor misses. *)
Definition world_outside : Externals :=
  {| fadd := @fadd world;
     fsub := @fsub world;
     fmul := @fmul world;
     fdiv := @fdiv world;
     BVH_RAYCAST_DIST_MAX := @BVH_RAYCAST_DIST_MAX world;
     invert_m4_m4 := @invert_m4_m4 world;
     mul_m4_v3 := @mul_m4_v3 world;
     mul_mat3_m4_v3 := @mul_mat3_m4_v3 world;
     mul_transposed_mat3_m4_v3 := @mul_transposed_mat3_m4_v3 world;
     normalize_v3 := @normalize_v3 world;
     madd_v3_v3fl := @madd_v3_v3fl world;
     madd_v3_v3v3fl := @madd_v3_v3v3fl world;
     sub_v3_v3v3 := @sub_v3_v3v3 world;
     isect_ray_aabb_v3_simple := fun _ _ _ _ => None;
     isect_point_planes_v3_negated := @isect_point_planes_v3_negated world;
     dist_squared_to_projected_aabb_precalc :=
       @dist_squared_to_projected_aabb_precalc world;
     projected_dist_sq := @projected_dist_sq world;
     ray_edge_near_co := @ray_edge_near_co world;
     BKE_object_boundbox_get := fun _ => Some {| bb_vec := [] |};
     BKE_mesh_boundbox_get := @BKE_mesh_boundbox_get world;
     BKE_bvhtree_from_mesh_get := @BKE_bvhtree_from_mesh_get world;
     bvhtree_ray_tri_intersection := @bvhtree_ray_tri_intersection world;
     raycast_tri_backface_culling_test :=
       @raycast_tri_backface_culling_test world;
     raycast_all_cb := @raycast_all_cb world;
     nearest_world_tree := @nearest_world_tree world;
     Nearest2dUserData_init := @Nearest2dUserData_init world;
     snap_boundbox := fun _ _ _ => false;
     clip_planes_enable := @clip_planes_enable world;
     Nearest2dUserData_release := @Nearest2dUserData_release world |}.

(** The corner that follows a corner around the square. *)
Definition quad_succ (c : Z) : Z := (c + 1) mod 4.

(** The square is the only polygon: corners 0 to 3. *)
Definition quad_polys (polygon : Z) : Z * Z :=
  if polygon =? 0 then (0, 4) else (4, 0).

End Demo.

End SnapMesh.

(* ------------------------------------------------------------------ *)
(** ** The "Shader Test" node *)

Module ShaderTest.

(** *** Node declaration *)

(** The socket declarations [decl::Color], [decl::Float], [decl::Vector]
    and [decl::Shader]. *)
Inductive SocketType : Type := Color | Float | Vector | Shader.

Inductive PropertySubType : Type := PROP_FACTOR.

Inductive SocketValue : Type :=
| FloatValue (v : float)
| ColorValue (r g b a : float).

(** Modelled from the spec: the socket declaration that
    [NodeDeclarationBuilder] ([NOD_node_declaration.hh], not among the
    sources) fills in.  A member the node does not set is [None] or
    [false]. *)
Record SocketDeclaration : Type := {
  socket_type : SocketType;
  name : string;
  default_value_ : option SocketValue;
  min_ : option float;
  max_ : option float;
  subtype_ : option PropertySubType;
  hide_value_ : bool;
  unavailable_ : bool
}.

Record NodeDeclaration : Type := {
  inputs : list SocketDeclaration;
  outputs : list SocketDeclaration
}.

Definition empty_declaration : NodeDeclaration :=
  {| inputs := []; outputs := [] |}.

Definition new_socket (t : SocketType) (n : string) : SocketDeclaration :=
  {| socket_type := t; name := n; default_value_ := None; min_ := None;
     max_ := None; subtype_ := None; hide_value_ := false;
     unavailable_ := false |}.

(** Modelled from the spec: [add_input] and [add_output] append a socket
    and return a builder for it; the methods of that builder change the
    socket just added. *)
Definition add_input (t : SocketType) (n : string) (b : NodeDeclaration)
  : NodeDeclaration :=
  {| inputs := inputs b ++ [new_socket t n]; outputs := outputs b |}.

Definition add_output (t : SocketType) (n : string) (b : NodeDeclaration)
  : NodeDeclaration :=
  {| inputs := inputs b; outputs := outputs b ++ [new_socket t n] |}.

(** Apply [f] to the input added last. *)
Definition on_last_input (f : SocketDeclaration -> SocketDeclaration)
  (b : NodeDeclaration) : NodeDeclaration :=
  match rev (inputs b) with
  | [] => b
  | s :: before =>
      {| inputs := rev before ++ [f s]; outputs := outputs b |}
  end.

Definition default_value (v : SocketValue) : NodeDeclaration -> NodeDeclaration :=
  on_last_input (fun s =>
    {| socket_type := socket_type s; name := name s;
       default_value_ := Some v; min_ := min_ s; max_ := max_ s;
       subtype_ := subtype_ s; hide_value_ := hide_value_ s;
       unavailable_ := unavailable_ s |}).

Definition min (v : float) : NodeDeclaration -> NodeDeclaration :=
  on_last_input (fun s =>
    {| socket_type := socket_type s; name := name s;
       default_value_ := default_value_ s; min_ := Some v; max_ := max_ s;
       subtype_ := subtype_ s; hide_value_ := hide_value_ s;
       unavailable_ := unavailable_ s |}).

Definition max (v : float) : NodeDeclaration -> NodeDeclaration :=
  on_last_input (fun s =>
    {| socket_type := socket_type s; name := name s;
       default_value_ := default_value_ s; min_ := min_ s; max_ := Some v;
       subtype_ := subtype_ s; hide_value_ := hide_value_ s;
       unavailable_ := unavailable_ s |}).

Definition subtype (v : PropertySubType) : NodeDeclaration -> NodeDeclaration :=
  on_last_input (fun s =>
    {| socket_type := socket_type s; name := name s;
       default_value_ := default_value_ s; min_ := min_ s; max_ := max_ s;
       subtype_ := Some v; hide_value_ := hide_value_ s;
       unavailable_ := unavailable_ s |}).

Definition hide_value : NodeDeclaration -> NodeDeclaration :=
  on_last_input (fun s =>
    {| socket_type := socket_type s; name := name s;
       default_value_ := default_value_ s; min_ := min_ s; max_ := max_ s;
       subtype_ := subtype_ s; hide_value_ := true;
       unavailable_ := unavailable_ s |}).

Definition unavailable : NodeDeclaration -> NodeDeclaration :=
  on_last_input (fun s =>
    {| socket_type := socket_type s; name := name s;
       default_value_ := default_value_ s; min_ := min_ s; max_ := max_ s;
       subtype_ := subtype_ s; hide_value_ := hide_value_ s;
       unavailable_ := true |}).

(** The literals of the file.  [0.8f] is the binary32 value
    [13421773 * 2^-24]. *)
Definition f0_8 : float := F32.Fin (13421773 * 2 ^ 125).
Definition f0_0 : float := F32.zero.
Definition f1_0 : float := F32.of_int 1.

Definition node_declare (b : NodeDeclaration) : NodeDeclaration :=
  let b := default_value (ColorValue f0_8 f0_8 f0_8 f1_0)
             (add_input Color "Color" b) in
  let b := subtype PROP_FACTOR
             (max f1_0 (min f0_0 (default_value (FloatValue f0_0)
                (add_input Float "Roughness" b)))) in
  let b := hide_value (add_input Vector "Normal" b) in
  let b := unavailable (add_input Float "Weight" b) in
  let b := add_output Shader "BSDF" b in
  b.

(** *** GPU code generation *)

Record GPUNodeLink : Type := { link_id : Z }.

Record GPUNodeStack : Type := {
  link : option GPUNodeLink;
  vec : list float
}.

Record GPUMaterial : Type := {
  flag : Z;
  graph : list (string * list GPUNodeLink)
}.

Record bNode : Type := { node_identifier : Z }.

(** Functions and constants of the GPU module and of the node registry
    that the file uses and that other files define. *)
Class GPUExternals : Type := {
  GPU_MATFLAG_DIFFUSE : Z;
  (* [GPU_link(mat, name, &link)]: the material afterwards and the value
     left in [link], which was null before the call *)
  GPU_link : GPUMaterial -> string -> GPUMaterial * option GPUNodeLink;
  GPU_stack_link :
    GPUMaterial -> bNode -> string -> list GPUNodeStack -> list GPUNodeStack ->
    Z * GPUMaterial * list GPUNodeStack
}.

(** Modelled from the spec: [GPU_material_flag_set] ([gpu_material.c]) adds
    the flag to the flags of the material. *)
Definition GPU_material_flag_set (mat : GPUMaterial) (f : Z) : GPUMaterial :=
  {| flag := Z.lor (flag mat) f; graph := graph mat |}.

Definition no_stack : GPUNodeStack := {| link := None; vec := [] |}.

(** [in[i].link = l]. *)
Fixpoint set_link (i : nat) (l : option GPUNodeLink)
  (stack : list GPUNodeStack) {struct stack} : list GPUNodeStack :=
  match stack, i with
  | [], _ => []
  | s :: rest, O => {| link := l; vec := vec s |} :: rest
  | s :: rest, S i' => s :: set_link i' l rest
  end.

Section Gpu.

Context {G : GPUExternals}.

(** The first statement of [node_shader_gpu_shader_test]. *)
Definition link_normal (mat : GPUMaterial) (in_ : list GPUNodeStack)
  : GPUMaterial * list GPUNodeStack :=
  match link (nth 2 in_ no_stack) with
  | None =>
      let '(mat, l) := GPU_link mat "world_normals_get" in
      (mat, set_link 2 l in_)
  | Some _ => (mat, in_)
  end.

Definition node_shader_gpu_shader_test (mat : GPUMaterial) (node : bNode)
  (in_ out : list GPUNodeStack) : Z * GPUMaterial * list GPUNodeStack :=
  let '(mat, in_) := link_normal mat in_ in
  let mat := GPU_material_flag_set mat GPU_MATFLAG_DIFFUSE in
  GPU_stack_link mat node "node_shader_test" in_ out.

End Gpu.

(** *** Node type definition *)

Inductive NodeTypeId : Type := SH_NODE_SHADER_TEST.
Inductive NodeClass : Type := NODE_CLASS_SHADER.
Inductive NodeSizePreset : Type := NODE_SIZE_MIDDLE.

Record bNodeType : Type := {
  type : option NodeTypeId;
  ui_name : string;
  nclass : option NodeClass;
  declare : option (NodeDeclaration -> NodeDeclaration);
  size_preset : option NodeSizePreset;
  gpu_fn :
    option (GPUMaterial -> bNode -> list GPUNodeStack -> list GPUNodeStack ->
            Z * GPUMaterial * list GPUNodeStack)
}.

(** [static bNodeType ntype;] is zero-initialised. *)
Definition zero_ntype : bNodeType :=
  {| type := None; ui_name := ""; nclass := None; declare := None;
     size_preset := None; gpu_fn := None |}.

(** Modelled from the spec: [sh_node_type_base] ([node_shader_util.cc])
    stores the type, the name shown to the user and the class. *)
Definition sh_node_type_base (ntype : bNodeType) (t : NodeTypeId)
  (n : string) (c : NodeClass) : bNodeType :=
  {| type := Some t; ui_name := n; nclass := Some c;
     declare := declare ntype; size_preset := size_preset ntype;
     gpu_fn := gpu_fn ntype |}.

Definition set_declare (ntype : bNodeType)
  (d : NodeDeclaration -> NodeDeclaration) : bNodeType :=
  {| type := type ntype; ui_name := ui_name ntype; nclass := nclass ntype;
     declare := Some d; size_preset := size_preset ntype;
     gpu_fn := gpu_fn ntype |}.

(** Modelled from the spec: [node_type_size_preset] ([node.cc]). *)
Definition node_type_size_preset (ntype : bNodeType) (p : NodeSizePreset)
  : bNodeType :=
  {| type := type ntype; ui_name := ui_name ntype; nclass := nclass ntype;
     declare := declare ntype; size_preset := Some p;
     gpu_fn := gpu_fn ntype |}.

Definition set_gpu_fn (ntype : bNodeType)
  (f : GPUMaterial -> bNode -> list GPUNodeStack -> list GPUNodeStack ->
       Z * GPUMaterial * list GPUNodeStack) : bNodeType :=
  {| type := type ntype; ui_name := ui_name ntype; nclass := nclass ntype;
     declare := declare ntype; size_preset := size_preset ntype;
     gpu_fn := Some f |}.

(** Modelled from the spec: [nodeRegisterType] ([node.cc]) adds the type to
    the registered node types. *)
Definition nodeRegisterType (registry : list bNodeType) (ntype : bNodeType)
  : list bNodeType :=
  registry ++ [ntype].

Definition register_node_type_sh_test {G : GPUExternals}
  (registry : list bNodeType) : list bNodeType :=
  let ntype := zero_ntype in
  let ntype :=
    sh_node_type_base ntype SH_NODE_SHADER_TEST "Shader Test"
      NODE_CLASS_SHADER in
  let ntype := set_declare ntype node_declare in
  let ntype := node_type_size_preset ntype NODE_SIZE_MIDDLE in
  let ntype := set_gpu_fn ntype node_shader_gpu_shader_test in
  nodeRegisterType registry ntype.

(** The declaration a registered type builds. *)
Definition declaration_of (ntype : bNodeType) : NodeDeclaration :=
  match declare ntype with
  | Some d => d empty_declaration
  | None => empty_declaration
  end.

(** A GPU module to run the definitions with: links are numbered by the
    length of the graph. *)
Definition demo_gpu : GPUExternals :=
  {| GPU_MATFLAG_DIFFUSE := 1;
     GPU_link := fun mat n =>
       let l := {| link_id := Z.of_nat (List.length (graph mat)) |} in
       ({| flag := flag mat; graph := graph mat ++ [(n, [])] |}, Some l);
     GPU_stack_link := fun mat _ n in_ out =>
       let l := {| link_id := Z.of_nat (List.length (graph mat)) |} in
       (1,
        {| flag := flag mat;
           graph := graph mat ++
                    [(n, flat_map (fun s => match link s with
                                            | Some k => [k]
                                            | None => []
                                            end) in_)] |},
        map (fun s => {| link := Some l; vec := vec s |}) out) |}.

Definition four_inputs : list GPUNodeStack :=
  [no_stack; no_stack; no_stack; no_stack].

Definition empty_material : GPUMaterial := {| flag := 0; graph := [] |}.

End ShaderTest.

(* ------------------------------------------------------------------ *)
(** ** Properties of the comparisons *)

Module F32Facts.

Import F32.

Lemma ltb_irrefl (a : float) : ltb a a = false.
Proof. destruct a; simpl; auto using Z.ltb_irrefl. Qed.

Lemma ltb_trans (a b c : float) :
  ltb a b = true -> ltb b c = true -> ltb a c = true.
Proof.
  destruct a, b, c; simpl; try congruence.
  rewrite !Z.ltb_lt. lia.
Qed.

Lemma eqb_eq (a b : float) : eqb a b = true -> a = b.
Proof.
  destruct a, b; simpl; try congruence.
  rewrite Z.eqb_eq. congruence.
Qed.

Lemma leb_noninc (a b : float) : leb a b = true -> noninc a b.
Proof.
  unfold leb, noninc. rewrite orb_true_iff.
  intros [H | H]; [right | left]; auto using eqb_eq.
Qed.

Lemma noninc_refl (a : float) : noninc a a.
Proof. now left. Qed.

Lemma noninc_trans (a b c : float) : noninc a b -> noninc b c -> noninc a c.
Proof.
  intros [-> | H1] [-> | H2]; unfold noninc; auto.
  right. eauto using ltb_trans.
Qed.

Lemma ltb_noninc (a b c : float) :
  ltb a b = true -> noninc b c -> ltb a c = true.
Proof. intros H [<- | H']; eauto using ltb_trans. Qed.

(** Nothing strictly below [b] once nothing is strictly below a value
    that [b] does not exceed. *)
Lemma not_below_noninc (d a b : float) :
  ltb d a = false -> noninc b a -> ltb d b = false.
Proof.
  intros H Hn. destruct (ltb d b) eqn:E; auto.
  rewrite (ltb_noninc _ _ _ E Hn) in H. discriminate.
Qed.

End F32Facts.

(* ------------------------------------------------------------------ *)
(** ** Properties of mesh snapping *)

Module SnapMeshFacts.

Import SnapMesh.

(** *** Traces *)

Lemma tested_app (t u : Trace) : tested (t ++ u) = tested t ++ tested u.
Proof.
  induction t as [| [] t IH]; simpl; auto. now rewrite IH.
Qed.

Lemma entered_app (t u : Trace) : entered (t ++ u) = entered t ++ entered u.
Proof.
  induction t as [| [] t IH]; simpl; auto. now rewrite IH.
Qed.

Lemma dists_app (t u : Trace) : dists (t ++ u) = dists t ++ dists u.
Proof.
  induction t as [| [] t IH]; simpl; auto; now rewrite IH.
Qed.

Lemma last_cons_default {A : Type} (a : A) (l : list A) (p q : A) :
  last (a :: l) p = last (a :: l) q.
Proof.
  revert a. induction l as [| b l IH]; intros a; auto.
  change (last (b :: l) p = last (b :: l) q). apply IH.
Qed.

Lemma last_app_default {A : Type} (l1 l2 : list A) (p : A) :
  last (l1 ++ l2) p = last l2 (last l1 p).
Proof.
  revert p. induction l1 as [| a l1 IH]; intros p; auto.
  destruct l1 as [| b l1].
  - destruct l2 as [| c l2]; auto. apply (last_cons_default c l2 p a).
  - change (last ((b :: l1) ++ l2) p = last l2 (last (b :: l1) p)).
    apply IH.
Qed.

Lemma never_increases_last (p : float) (l : list float) :
  never_increases p l -> F32.noninc (last l p) p.
Proof.
  revert p. induction l as [| d l IH]; intros p H.
  - apply F32Facts.noninc_refl.
  - destruct H as [H1 H2]. specialize (IH d H2).
    destruct l as [| d' l]; [exact H1 |].
    change (F32.noninc (last (d' :: l) p) p).
    rewrite (last_cons_default d' l p d).
    eauto using F32Facts.noninc_trans.
Qed.

Lemma never_increases_app (p : float) (l1 l2 : list float) :
  never_increases p l1 -> never_increases (last l1 p) l2 ->
  never_increases p (l1 ++ l2).
Proof.
  revert p. induction l1 as [| d l1 IH]; intros p H1 H2; auto.
  destruct H1 as [Hd H1]. split; auto. apply IH; auto.
  destruct l1 as [| d' l1]; auto.
  rewrite (last_cons_default d' l1 d p). exact H2.
Qed.

(** *** Searches *)

Section Searching.

Context {X : Externals}.
Variable data : Nearest2dUserData_Mesh.
Variable precalc : DistProjectedAABBPrecalc.
Variable clip : list float4.
Variable Q : Elem -> Prop.

Local Abbreviation step := (search_step data precalc clip Q).

Lemma search_step_refl (st : SearchState) : step st st.
Proof.
  exists []. rewrite app_nil_r. simpl. repeat split; auto.
  intros e d [].
Qed.

Lemma search_step_trans (st1 st2 st3 : SearchState) :
  step st1 st2 -> step st2 st3 -> step st1 st3.
Proof.
  intros (ev1 & T1 & E1 & Q1 & N1 & L1 & M1 & P1)
         (ev2 & T2 & E2 & Q2 & N2 & L2 & M2 & P2).
  assert (D23 : F32.noninc (nr_dist_sq (fst st3)) (nr_dist_sq (fst st2))).
  { rewrite <- L2. now apply never_increases_last. }
  assert (D12 : F32.noninc (nr_dist_sq (fst st2)) (nr_dist_sq (fst st1))).
  { rewrite <- L1. now apply never_increases_last. }
  exists (ev1 ++ ev2).
  rewrite entered_app, tested_app, dists_app, E1, E2, T2, T1, app_assoc.
  repeat split; auto.
  - apply Forall_app; auto.
  - apply never_increases_app; auto. now rewrite L1.
  - now rewrite last_app_default, L1.
  - intros e d Hin Hd. apply in_app_or in Hin as [Hin | Hin]; eauto.
    eapply F32Facts.not_below_noninc; eauto.
  - destruct P2 as [P2 | (e & Hin & Hi & Hd & Hl)].
    + rewrite P2. destruct P1 as [P1 | (e & Hin & Hi & Hd & Hl)]; auto.
      right. exists e. rewrite in_app_iff. auto.
    + right. exists e. rewrite in_app_iff. repeat split; auto.
      eapply F32Facts.ltb_noninc; eauto.
Qed.

Lemma fold_step {A : Type} (f : SearchState -> A -> SearchState)
  (l : list A) :
  (forall st a, In a l -> step st (f st a)) ->
  forall st, step st (fold_left f l st).
Proof.
  induction l as [| a l IH]; intros H st; simpl.
  - apply search_step_refl.
  - eapply search_step_trans.
    + apply H. now left.
    + apply IH. intros st' a' Hin. apply H. now right.
Qed.

(** One test: the shared part of [cb_snap_vert] and [cb_snap_edge]. *)
Lemma test_step (e : Elem) (co r_no : float3) (n : BVHTreeNearest)
  (tr : Trace) :
  Q e ->
  elem_dist data precalc clip e =
    (if isect_point_planes_v3_negated clip co
     then Some (projected_dist_sq precalc (is_persp (nd_base data)) co)
     else None) ->
  let '(ok, dist_sq, r_co) :=
    test_projected_vert_dist precalc clip (is_persp (nd_base data)) co
      (nr_dist_sq n) (nr_co n) in
  step (n, tr)
    (if ok
     then ({| nr_index := elem_index e; nr_co := r_co; nr_no := r_no;
              nr_dist_sq := dist_sq |}, tr ++ [EvTest e dist_sq])
     else (n, tr ++ [EvTest e dist_sq])).
Proof.
  intros HQ Hd. unfold test_projected_vert_dist.
  destruct (isect_point_planes_v3_negated clip co); simpl.
  - destruct (F32.ltb _ (nr_dist_sq n)) eqn:E.
    + exists [EvTest e (projected_dist_sq precalc (is_persp (nd_base data)) co)].
      simpl. repeat split; auto.
      * now right.
      * intros e' d [<- | []] H. rewrite Hd in H. injection H as <-.
        apply F32Facts.ltb_irrefl.
      * right. exists e. auto.
    + exists [EvTest e (nr_dist_sq n)]. simpl. repeat split; auto.
      * now left.
      * intros e' d [<- | []] H. rewrite Hd in H. now injection H as <-.
  - exists [EvTest e (nr_dist_sq n)]. simpl. repeat split; auto.
    + now left.
    + intros e' d [<- | []] H. rewrite Hd in H. discriminate.
Qed.

Lemma cb_snap_vert_step (i : Z) (st : SearchState) :
  Q (Vert i) -> step st (cb_snap_vert data i precalc clip st).
Proof.
  intros HQ. destruct st as [n tr]. unfold cb_snap_vert.
  pose proof (test_step (Vert i) (get_vert_co data i) (copy_vert_no data i)
                n tr HQ eq_refl) as H.
  destruct (test_projected_vert_dist _ _ _ _ _ _) as [[ok d] rco].
  destruct ok; exact H.
Qed.

Lemma cb_snap_edge_step (i : Z) (st : SearchState) :
  Q (Edge i) -> step st (cb_snap_edge data i precalc clip st).
Proof.
  intros HQ. destruct st as [n tr]. unfold cb_snap_edge.
  unfold test_projected_edge_dist.
  pose proof (test_step (Edge i)
                (ray_edge_near_co precalc
                   (get_vert_co data (fst (get_edge_verts_index data i)))
                   (get_vert_co data (snd (get_edge_verts_index data i))))
                (sub_v3_v3v3
                   (get_vert_co data (fst (get_edge_verts_index data i)))
                   (get_vert_co data (snd (get_edge_verts_index data i))))
                n tr HQ eq_refl) as H.
  destruct (test_projected_vert_dist _ _ _ _ _ _) as [[ok d] rco].
  destruct ok; exact H.
Qed.

Lemma snap_each_step (idx : list Z) (st : SearchState) :
  (forall i, In i idx -> Q (Vert i)) ->
  step st (snap_each (cb_snap_vert data) idx precalc clip st).
Proof.
  intros H. unfold snap_each. apply fold_step.
  intros st' i Hin. apply in_rev in Hin.
  destruct (i =? nr_index (fst st')).
  - apply search_step_refl.
  - apply cb_snap_vert_step; auto.
Qed.

Lemma cb_snap_edge_verts_step (i : Z) (st : SearchState) :
  Q (Vert (fst (get_edge_verts_index data i))) ->
  Q (Vert (snd (get_edge_verts_index data i))) ->
  step st (cb_snap_edge_verts data i precalc clip st).
Proof.
  intros H1 H2. unfold cb_snap_edge_verts. apply snap_each_step.
  intros j [<- | [<- | []]]; auto.
Qed.

Lemma cb_snap_tri_verts_step (i : Z) (st : SearchState) :
  (forall j, In j [0; 1; 2] -> Q (Vert (get3 (get_tri_verts_index data i) j))) ->
  step st (cb_snap_tri_verts data i precalc clip st).
Proof.
  intros H. unfold cb_snap_tri_verts.
  destruct (get_tri_verts_index data i) as [[v0 v1] v2] eqn:E.
  destruct (tri_culled data i precalc); [apply search_step_refl |].
  apply snap_each_step.
  intros j [<- | [<- | [<- | []]]].
  - apply (H 0). simpl; auto.
  - apply (H 1). simpl; auto.
  - apply (H 2). simpl; auto.
Qed.

Lemma cb_snap_tri_edges_step (i : Z) (st : SearchState) :
  (forall j, In j [0; 1; 2] ->
     get3 (get_tri_edges_index data i) j <> -1 ->
     Q (Edge (get3 (get_tri_edges_index data i) j))) ->
  step st (cb_snap_tri_edges data i precalc clip st).
Proof.
  intros H. unfold cb_snap_tri_edges.
  destruct (tri_culled data i precalc); [apply search_step_refl |].
  destruct (get_tri_edges_index data i) as [[e0 e1] e2] eqn:E.
  apply fold_step. intros st' e Hin.
  destruct (e =? -1) eqn:Ee; simpl; [apply search_step_refl |].
  destruct (e =? nr_index (fst st')); [apply search_step_refl |].
  apply cb_snap_edge_step. apply Z.eqb_neq in Ee.
  simpl in Hin. destruct Hin as [<- | [<- | [<- | []]]].
  - apply (H 2); simpl; auto.
  - apply (H 1); simpl; auto.
  - apply (H 0); simpl; auto.
Qed.

Lemma find_nearest_step (t : BVHTree) (projmat : float4x4)
  (winsize mv : float2) (cb : ProjectedCallback) (st : SearchState) :
  dist_squared_to_projected_aabb_precalc projmat winsize mv = precalc ->
  (forall i st', In i (leaves t) -> step st' (cb i precalc clip st')) ->
  step st (BLI_bvhtree_find_nearest_projected t projmat winsize mv clip st cb).
Proof.
  intros Hp H. unfold BLI_bvhtree_find_nearest_projected. rewrite Hp.
  eapply search_step_trans.
  2: { apply fold_step. intros st' i Hin. now apply H. }
  exists [EvFindNearest (nr_dist_sq (fst st))]. simpl.
  repeat split; auto.
  - now left.
  - intros e d [].
Qed.

Lemma search_starts_refl (st : SearchState) : search_starts st st.
Proof. exists []. now rewrite app_nil_r. Qed.

Lemma search_starts_trans (st1 st2 st3 : SearchState) :
  search_starts st1 st2 -> search_starts st2 st3 -> search_starts st1 st3.
Proof.
  intros (ev1 & T1 & H1 & L1) (ev2 & T2 & H2 & L2).
  exists (ev1 ++ ev2).
  rewrite T2, T1, app_assoc, dists_app, last_app_default, L1.
  repeat split; auto.
  destruct (dists ev1) as [| d l]; simpl in *; auto.
  now rewrite L1.
Qed.

Lemma find_nearest_starts (t : BVHTree) (projmat : float4x4)
  (winsize mv : float2) (cb : ProjectedCallback) (st : SearchState) :
  dist_squared_to_projected_aabb_precalc projmat winsize mv = precalc ->
  (forall i st', step st' (cb i precalc clip st')) ->
  search_starts st
    (BLI_bvhtree_find_nearest_projected t projmat winsize mv clip st cb).
Proof.
  intros Hp H. unfold BLI_bvhtree_find_nearest_projected. rewrite Hp.
  match goal with
  | |- search_starts _ (fold_left ?f ?l ?a) =>
      destruct (fold_step f l (fun st' i _ => H i st') a)
        as (ev & T & _ & _ & _ & L & _)
  end.
  cbn [fst snd] in T, L.
  exists (EvFindNearest (nr_dist_sq (fst st)) :: ev).
  rewrite T, <- app_assoc. repeat split.
  simpl. destruct (dists ev); auto.
Qed.

End Searching.

(** *** snapMesh *)

Section SnapMeshSearch.

Context {X : Externals}.

Lemma at_Forall {A : Type} (P : A -> Prop) (d : A) (l : list A) (i : Z) :
  P d -> Forall P l -> P (at_ d l i).
Proof.
  intros Hd Hl. unfold at_. destruct (i <? 0); auto.
  destruct (nth_in_or_default (Z.to_nat i) l d) as [H | ->]; auto.
  rewrite Forall_forall in Hl. auto.
Qed.

Lemma snap_tree_step (sctx : SnapObjectContext)
  (nd : Nearest2dUserData_Mesh) (t : option BVHTree)
  (cb : ProjectedCallback) (st : SearchState) :
  let precalc :=
    dist_squared_to_projected_aabb_precalc (pmat_local (nd_base nd))
      (win_size (runtime sctx)) (mval (runtime sctx)) in
  (forall b i st', t = Some b -> In i (leaves b) ->
     search_step nd precalc (clip_planes (nd_base nd)) real_elem st'
       (cb i precalc (clip_planes (nd_base nd)) st')) ->
  search_step nd precalc (clip_planes (nd_base nd)) real_elem st
    (snap_tree sctx nd t cb st).
Proof.
  intros precalc H. unfold snap_tree. destruct t as [b |].
  - apply find_nearest_step; auto. intros i st' Hin. eapply H; eauto.
  - apply search_step_refl.
Qed.

Lemma snapMesh_search_step (sctx : SnapObjectContext)
  (nd : Nearest2dUserData_Mesh) (treedata : BVHTreeFromMesh)
  (bvhtree0 bvhtree1 : option BVHTree) (st : SearchState) :
  Forall (fun e => 0 <= fst e /\ 0 <= snd e) (edges nd) ->
  Forall (fun v => 0 <= v) (corner_verts nd) ->
  (forall b, In (Some b) [bvhtree0; bvhtree1; tree treedata] ->
     Forall (fun i => 0 <= i) (leaves b)) ->
  search_step nd
    (dist_squared_to_projected_aabb_precalc (pmat_local (nd_base nd))
       (win_size (runtime sctx)) (mval (runtime sctx)))
    (clip_planes (nd_base nd)) real_elem st
    (fst (snapMesh_search sctx nd treedata bvhtree0 bvhtree1 st)) /\
  (snd (snapMesh_search sctx nd treedata bvhtree0 bvhtree1 st)
     = SCE_SNAP_TO_VERTEX \/
   snd (snapMesh_search sctx nd treedata bvhtree0 bvhtree1 st)
     = SCE_SNAP_TO_EDGE).
Proof.
  intros He Hv Ht.
  set (pc := dist_squared_to_projected_aabb_precalc (pmat_local (nd_base nd))
               (win_size (runtime sctx)) (mval (runtime sctx))).
  set (cl := clip_planes (nd_base nd)).
  assert (Hleaf : forall b i, In (Some b) [bvhtree0; bvhtree1; tree treedata] ->
            In i (leaves b) -> 0 <= i).
  { intros b i Hin Hi. specialize (Ht b Hin).
    rewrite Forall_forall in Ht. auto. }
  assert (Hvert : forall b i st',
            In (Some b) [bvhtree0; bvhtree1; tree treedata] ->
            In i (leaves b) ->
            search_step nd pc cl real_elem st' (cb_snap_vert nd i pc cl st')).
  { intros b i st' Hin Hi. apply cb_snap_vert_step.
    unfold real_elem; simpl. specialize (Hleaf b i Hin Hi). lia. }
  assert (Hedge : forall b i st',
            In (Some b) [bvhtree0; bvhtree1; tree treedata] ->
            In i (leaves b) ->
            search_step nd pc cl real_elem st' (cb_snap_edge nd i pc cl st')).
  { intros b i st' Hin Hi. apply cb_snap_edge_step.
    unfold real_elem; simpl. specialize (Hleaf b i Hin Hi). lia. }
  assert (Hev : forall i st',
            search_step nd pc cl real_elem st'
              (cb_snap_edge_verts nd i pc cl st')).
  { intros i st'.
    assert (H : 0 <= fst (get_edge_verts_index nd i)
                /\ 0 <= snd (get_edge_verts_index nd i)).
    { unfold get_edge_verts_index.
      apply (at_Forall (fun e => 0 <= fst e /\ 0 <= snd e)); simpl; auto; lia. }
    apply cb_snap_edge_verts_step; unfold real_elem; simpl; lia. }
  assert (Htv : forall i st',
            search_step nd pc cl real_elem st'
              (cb_snap_tri_verts nd i pc cl st')).
  { intros i st'. apply cb_snap_tri_verts_step.
    intros j Hj. unfold real_elem, get_tri_verts_index; simpl.
    assert (H : forall c, 0 <= at_ 0 (corner_verts nd) c).
    { intros c. apply (at_Forall (fun v => 0 <= v)); auto; lia. }
    destruct Hj as [<- | [<- | [<- | []]]]; simpl;
      match goal with |- at_ 0 _ ?c <> _ => specialize (H c); lia end. }
  assert (Hte : forall i st',
            search_step nd pc cl real_elem st'
              (cb_snap_tri_edges nd i pc cl st')).
  { intros i st'. apply cb_snap_tri_edges_step. intros j _ Hne. exact Hne. }
  unfold snapMesh_search.
  destruct (has (snap_to_flag (runtime sctx)) SCE_SNAP_TO_EDGE);
    cbv zeta; cbn [fst snd].
  - split.
    + eapply search_step_trans;
        [| apply snap_tree_step; intros b i st' E Hi; apply Hte].
      eapply search_step_trans;
        [| apply snap_tree_step; intros b i st' -> Hi;
           apply (Hedge b); simpl; auto].
      apply snap_tree_step. intros b i st' -> Hi.
      apply (Hvert b); simpl; auto.
    + match goal with |- context [if ?c then _ else _] => destruct c end; auto.
  - split; auto.
    eapply search_step_trans;
      [| apply snap_tree_step; intros b i st' E Hi; apply Htv].
    eapply search_step_trans;
      [| apply snap_tree_step; intros b i st' E Hi; apply Hev].
    apply snap_tree_step. intros b i st' -> Hi.
    apply (Hvert b); simpl; auto.
Qed.

Lemma snapMesh_search_quiet (sctx : SnapObjectContext)
  (nd : Nearest2dUserData_Mesh) (treedata : BVHTreeFromMesh)
  (bvhtree0 bvhtree1 : option BVHTree) (st : SearchState) :
  (exists ev,
     snd (fst (snapMesh_search sctx nd treedata bvhtree0 bvhtree1 st))
       = snd st ++ ev /\ entered ev = []) /\
  search_starts st
    (fst (snapMesh_search sctx nd treedata bvhtree0 bvhtree1 st)) /\
  (snd (snapMesh_search sctx nd treedata bvhtree0 bvhtree1 st)
     = SCE_SNAP_TO_VERTEX \/
   snd (snapMesh_search sctx nd treedata bvhtree0 bvhtree1 st)
     = SCE_SNAP_TO_EDGE).
Proof.
  set (pc := dist_squared_to_projected_aabb_precalc (pmat_local (nd_base nd))
               (win_size (runtime sctx)) (mval (runtime sctx))).
  set (cl := clip_planes (nd_base nd)).
  set (Q := fun _ : Elem => True).
  assert (H : forall t cb st',
            (forall i st'', search_step nd pc cl Q st'' (cb i pc cl st'')) ->
            search_step nd pc cl Q st' (snap_tree sctx nd t cb st')).
  { intros t cb st' Hcb. unfold snap_tree. destruct t as [b |].
    - apply find_nearest_step; auto.
    - apply search_step_refl. }
  assert (Hs : search_step nd pc cl Q st
                 (fst (snapMesh_search sctx nd treedata bvhtree0 bvhtree1 st))).
  { unfold snapMesh_search.
    destruct (has (snap_to_flag (runtime sctx)) SCE_SNAP_TO_EDGE);
      cbv zeta; cbn [fst snd].
    - eapply search_step_trans; [eapply search_step_trans |]; apply H; intros.
      + now apply cb_snap_vert_step.
      + now apply cb_snap_edge_step.
      + apply cb_snap_tri_edges_step. now intros.
    - eapply search_step_trans; [eapply search_step_trans |]; apply H; intros.
      + now apply cb_snap_vert_step.
      + now apply cb_snap_edge_verts_step.
      + apply cb_snap_tri_verts_step. now intros. }
  assert (H' : forall t cb st',
            (forall i st'', search_step nd pc cl Q st'' (cb i pc cl st'')) ->
            search_starts st' (snap_tree sctx nd t cb st')).
  { intros t cb st' Hcb. unfold snap_tree. destruct t as [b |].
    - eapply find_nearest_starts; eauto.
    - apply search_starts_refl. }
  split; [| split].
  - destruct Hs as (ev & T & En & _). eauto.
  - unfold snapMesh_search.
    destruct (has (snap_to_flag (runtime sctx)) SCE_SNAP_TO_EDGE);
      cbv zeta; cbn [fst snd].
    + eapply search_starts_trans; [eapply search_starts_trans |];
        apply H'; intros.
      * now apply cb_snap_vert_step.
      * now apply cb_snap_edge_step.
      * apply cb_snap_tri_edges_step. now intros.
    + eapply search_starts_trans; [eapply search_starts_trans |];
        apply H'; intros.
      * now apply cb_snap_vert_step.
      * now apply cb_snap_edge_verts_step.
      * apply cb_snap_tri_verts_step. now intros.
  - unfold snapMesh_search.
    destruct (has (snap_to_flag (runtime sctx)) SCE_SNAP_TO_EDGE);
      cbv zeta; cbn [snd]; auto.
    match goal with |- context [if ?c then _ else _] => destruct c end; auto.
Qed.

(** C1.  On a mesh and trees whose indices are not negative, [snapMesh]
    starts its search from the threshold [sctx->ret.dist_px_sq] (the first
    distance the search records is the threshold); [nearest.dist_sq] never
    goes up while the elements are tested; the function returns a mode
    other than [SCE_SNAP_TO_NONE] exactly when some tested vertex or edge
    is strictly inside the threshold; and the element then stored in
    [nearest2d.nearest_point] is a tested element, with its own squared
    distance, than which no tested element is strictly closer. *)
Theorem snapMesh_keeps_closest_tested_element
  (sctx : SnapObjectContext) (tr : Trace) (ob_eval : Object) (me_eval : Mesh)
  (obmat : float4x4) (use_hide : bool) :
  mesh_indices_ok me_eval ->
  trees_ok me_eval ->
  match snapMesh sctx tr ob_eval me_eval obmat use_hide with
  | (r, _, tr', nearest2d) =>
      exists ev,
        tr' = tr ++ ev /\
        hd (dist_px_sq (ret sctx)) (dists ev) = dist_px_sq (ret sctx) /\
        never_increases (dist_px_sq (ret sctx)) (dists ev) /\
        (r <> SCE_SNAP_TO_NONE <->
         exists nd e d,
           nearest2d = Some nd /\ In e (tested ev) /\
           snap_dist sctx nd e = Some d /\
           F32.ltb d (dist_px_sq (ret sctx)) = true) /\
        (r <> SCE_SNAP_TO_NONE ->
         exists nd,
           nearest2d = Some nd /\
           nr_index (nearest_point (nd_base nd)) <> -1 /\
           F32.ltb (nr_dist_sq (nearest_point (nd_base nd)))
             (dist_px_sq (ret sctx)) = true /\
           (exists e,
              In e (tested ev) /\
              elem_index e = nr_index (nearest_point (nd_base nd)) /\
              snap_dist sctx nd e
                = Some (nr_dist_sq (nearest_point (nd_base nd)))) /\
           (forall e d,
              In e (tested ev) -> snap_dist sctx nd e = Some d ->
              F32.ltb d (nr_dist_sq (nearest_point (nd_base nd))) = false))
  end.
Proof.
  intros [Hme Hmv] Ht. unfold snapMesh.
  assert (Early : forall nd,
    exists ev, tr ++ [EvEnter FnSnapMesh] = tr ++ ev /\
      hd (dist_px_sq (ret sctx)) (dists ev) = dist_px_sq (ret sctx) /\
      never_increases (dist_px_sq (ret sctx)) (dists ev) /\
      (SCE_SNAP_TO_NONE <> SCE_SNAP_TO_NONE <->
       exists nd' e d, nd = Some nd' /\ In e (tested ev) /\
         snap_dist sctx nd' e = Some d /\
         F32.ltb d (dist_px_sq (ret sctx)) = true) /\
      (SCE_SNAP_TO_NONE <> SCE_SNAP_TO_NONE ->
       exists nd', nd = Some nd' /\
         nr_index (nearest_point (nd_base nd')) <> -1 /\
         F32.ltb (nr_dist_sq (nearest_point (nd_base nd')))
           (dist_px_sq (ret sctx)) = true /\
         (exists e, In e (tested ev) /\
            elem_index e = nr_index (nearest_point (nd_base nd')) /\
            snap_dist sctx nd' e
              = Some (nr_dist_sq (nearest_point (nd_base nd')))) /\
         (forall e d, In e (tested ev) -> snap_dist sctx nd' e = Some d ->
            F32.ltb d (nr_dist_sq (nearest_point (nd_base nd'))) = false))).
  { intros nd. exists [EvEnter FnSnapMesh]. simpl.
    repeat split; auto; try tauto.
    intros (nd' & e & d & _ & [] & _). }
  destruct (totvert me_eval =? 0); [apply Early |].
  destruct (_ && _); [apply Early |].
  destruct (_ && _); [apply Early |].
  unfold snap_object_data_mesh_get. cbv zeta.
  set (treedata := BKE_bvhtree_from_mesh_get me_eval _ 4).
  set (b0 := tree (BKE_bvhtree_from_mesh_get me_eval BVHTREE_FROM_LOOSEEDGES 2)).
  set (nd := set_base _ _).
  set (n0 := {| nr_index := -1; nr_co := zero_v3; nr_no := zero_v3;
                nr_dist_sq := dist_px_sq (ret sctx) |}).
  assert (Main : forall b1 pre,
    (forall b, b1 = Some b -> Forall (fun i => 0 <= i) (leaves b)) ->
    tested pre = [] -> dists pre = [] ->
    match
      (let '(nearest, tr0, elem) :=
         snapMesh_search sctx nd treedata b0 b1 (n0, tr ++ pre) in
       if negb (nr_index nearest =? -1)
       then
         (elem,
          Nearest2dUserData_release
            (nd_base (set_base nd (set_nearest_point (nd_base nd) nearest)))
            sctx, tr0,
          Some (set_base nd (set_nearest_point (nd_base nd) nearest)))
       else
         (SCE_SNAP_TO_NONE, Nearest2dUserData_release (nd_base nd) sctx,
          tr0, Some nd))
    with
    | (r, _, tr', nearest2d) =>
        exists ev,
          tr' = tr ++ ev /\
          hd (dist_px_sq (ret sctx)) (dists ev) = dist_px_sq (ret sctx) /\
          never_increases (dist_px_sq (ret sctx)) (dists ev) /\
          (r <> SCE_SNAP_TO_NONE <->
           exists nd e d,
             nearest2d = Some nd /\ In e (tested ev) /\
             snap_dist sctx nd e = Some d /\
             F32.ltb d (dist_px_sq (ret sctx)) = true) /\
          (r <> SCE_SNAP_TO_NONE ->
           exists nd,
             nearest2d = Some nd /\
             nr_index (nearest_point (nd_base nd)) <> -1 /\
             F32.ltb (nr_dist_sq (nearest_point (nd_base nd)))
               (dist_px_sq (ret sctx)) = true /\
             (exists e,
                In e (tested ev) /\
                elem_index e = nr_index (nearest_point (nd_base nd)) /\
                snap_dist sctx nd e
                  = Some (nr_dist_sq (nearest_point (nd_base nd)))) /\
             (forall e d,
                In e (tested ev) -> snap_dist sctx nd e = Some d ->
                F32.ltb d (nr_dist_sq (nearest_point (nd_base nd))) = false))
    end).
  { intros b1 pre Hb1 Hpt Hpd.
    destruct (snapMesh_search_step sctx nd treedata b0 b1 (n0, tr ++ pre))
      as [Hs Hel]; auto.
    { intros b [E | [E | [E | []]]].
      - apply (Ht BVHTREE_FROM_LOOSEEDGES 2). exact E.
      - apply Hb1. exact E.
      - unfold treedata in E. eapply Ht. exact E. }
    destruct (snapMesh_search_quiet sctx nd treedata b0 b1 (n0, tr ++ pre))
      as (_ & (ev' & T' & Hhd & _) & _).
    destruct (snapMesh_search sctx nd treedata b0 b1 (n0, tr ++ pre))
      as [[n' tr'] elem].
    destruct Hs as (ev & T & En & Qv & Nv & Lv & Mv & Pv).
    cbn [fst snd] in *.
    assert (ev' = ev) as -> by (apply (app_inv_head (tr ++ pre)); congruence).
    assert (Hidx : nr_index n' <> -1 ->
              exists e, In e (tested ev) /\ elem_index e = nr_index n' /\
                snap_dist sctx nd e = Some (nr_dist_sq n') /\
                F32.ltb (nr_dist_sq n') (dist_px_sq (ret sctx)) = true).
    { intros Hne. destruct Pv as [-> | Pv]; [now destruct Hne | exact Pv]. }
    destruct (nr_index n' =? -1) eqn:Ei; cbn [negb].
    - apply Z.eqb_eq in Ei.
      exists (pre ++ ev). rewrite T, app_assoc, tested_app, dists_app, Hpt, Hpd.
      cbn [app]. repeat split; auto; try tauto.
      intros (nd' & e & d & [= <-] & Hin & Hd & Hl). exfalso.
      specialize (Mv e d Hin Hd).
      destruct Pv as [-> | (e' & Hin' & Hi' & _)].
      + simpl in Mv. congruence.
      + rewrite Forall_forall in Qv. apply (Qv e' Hin'). congruence.
    - apply Z.eqb_neq in Ei. destruct (Hidx Ei) as (e & Hin & Hi & Hd & Hl).
      exists (pre ++ ev). rewrite T, app_assoc, tested_app, dists_app, Hpt, Hpd.
      cbn [app]. split; [reflexivity |]. split; [exact Hhd |].
      split; [exact Nv |].
      assert (Hr : elem <> SCE_SNAP_TO_NONE).
      { cbn [snd] in Hel. destruct Hel as [-> | ->]; discriminate. }
      split; [split; [intros _ | intros _; exact Hr] | intros _].
      + eexists _, e, _. repeat split; eauto.
      + eexists. split; [reflexivity |]. cbn.
        repeat split; eauto. }
  destruct (has (snap_to_flag (runtime sctx)) SCE_SNAP_TO_VERTEX).
  - specialize (Main (tree (BKE_bvhtree_from_mesh_get me_eval
                              BVHTREE_FROM_LOOSEVERTS 2))
                  ([EvEnter FnSnapMesh] ++ [EvTreeGet
                      (if use_hide then BVHTREE_FROM_LOOPTRI_NO_HIDDEN
                       else BVHTREE_FROM_LOOPTRI)] ++
                   [EvTreeGet BVHTREE_FROM_LOOSEEDGES] ++
                   [EvTreeGet BVHTREE_FROM_LOOSEVERTS])).
    rewrite !app_assoc in Main. rewrite <- !app_assoc in Main.
    rewrite <- !app_assoc.
    apply Main; auto.
    intros b E. apply (Ht BVHTREE_FROM_LOOSEVERTS 2). exact E.
  - specialize (Main None
                  ([EvEnter FnSnapMesh] ++ [EvTreeGet
                      (if use_hide then BVHTREE_FROM_LOOPTRI_NO_HIDDEN
                       else BVHTREE_FROM_LOOPTRI)] ++
                   [EvTreeGet BVHTREE_FROM_LOOSEEDGES])).
    rewrite <- !app_assoc. apply Main; auto.
    intros b E. discriminate.
Qed.

End SnapMeshSearch.

(** *** Ray casts *)

Section RayCast.

Context {X : Externals}.

(** C2.  In single-hit mode [raycastMesh] returns [true] exactly when the
    ray cast on the tree finds a triangle whose distance, brought back to
    world units ([(hit.dist + len_diff) / local_scale]), is at most
    [sctx->ret.ray_depth_max].  Then [loc] and [no] are the hit point and
    the hit normal taken to world space, [index] is
    [looptri_polys[hit.index]], and [ray_depth_max] becomes that distance,
    which is not above the former one.  Otherwise the context is left as it
    was. *)
Theorem raycastMesh_single_hit
  (sctx : SnapObjectContext) (tr : Trace) (ob_eval : Object) (me_eval : Mesh)
  (obmat : float4x4) (ob_index : Z) (use_hide : bool) :
  hit_list (ret sctx) = None ->
  match raycastMesh sctx tr ob_eval me_eval obmat ob_index use_hide with
  | (r, sctx', _) =>
      (r = true <->
       exists hit d,
         raycast_found sctx ob_eval me_eval obmat use_hide = Some (hit, d) /\
         F32.leb d (ray_depth_max (ret sctx)) = true) /\
      (r = true ->
       exists hit d start dir local_scale local_depth len_diff,
         raycast_found sctx ob_eval me_eval obmat use_hide = Some (hit, d) /\
         raycast_local_ray sctx ob_eval me_eval obmat
           = Some (start, dir, local_scale, local_depth, len_diff) /\
         d = fdiv (fadd (hit_dist hit) len_diff) local_scale /\
         loc (ret sctx') = mul_m4_v3 obmat (hit_co hit) /\
         no (ret sctx')
           = snd (normalize_v3
                    (mul_transposed_mat3_m4_v3 (invert_m4_m4 obmat)
                       (hit_no hit))) /\
         index (ret sctx') = at_ 0 (me_looptri_polys me_eval) (hit_index hit) /\
         ray_depth_max (ret sctx') = d /\
         F32.leb (ray_depth_max (ret sctx')) (ray_depth_max (ret sctx)) = true /\
         dist_px_sq (ret sctx') = dist_px_sq (ret sctx) /\
         hit_list (ret sctx') = None /\
         runtime sctx' = runtime sctx) /\
      (r = false -> sctx' = sctx)
  end.
Proof.
  intros Hl. unfold raycastMesh, raycast_found.
  destruct (totpoly me_eval =? 0).
  { split; [split; [discriminate | intros (? & ? & ? & _); discriminate] |].
    split; [discriminate | reflexivity]. }
  destruct (raycast_local_ray sctx ob_eval me_eval obmat)
    as [[[[[start dir] local_scale] local_depth] len_diff] |].
  2: { split; [split; [discriminate | intros (? & ? & ? & _); discriminate] |].
       split; [discriminate | reflexivity]. }
  unfold snap_object_data_mesh_get. cbn [fst].
  set (treedata := BKE_bvhtree_from_mesh_get me_eval _ 4).
  destruct (tree treedata) as [t |].
  2: { split; [split; [discriminate | intros (? & ? & ? & _); discriminate] |].
       split; [discriminate | reflexivity]. }
  rewrite Hl.
  destruct (BLI_bvhtree_ray_cast t start dir F32.zero _ _) as [found hit].
  destruct (found =? -1); cbn [negb].
  { split; [split; [discriminate | intros (? & ? & ? & _); discriminate] |].
    split; [discriminate | reflexivity]. }
  destruct (F32.leb (world_depth hit len_diff local_scale)
              (ray_depth_max (ret sctx))) eqn:E.
  - split; [split; [intros _; eauto | reflexivity] |].
    split; [| discriminate]. intros _.
    exists hit, (world_depth hit len_diff local_scale), start, dir,
      local_scale, local_depth, len_diff.
    cbn. rewrite Hl. repeat split; auto.
  - split; [split; [discriminate |] |].
    + intros (h & d & [= <- <-] & H). congruence.
    + split; [discriminate | reflexivity].
Qed.

(** C7.  [nearest_world_mesh] returns [false], leaving the context as it
    was, when the tree of the triangles is null, and otherwise returns
    what [nearest_world_tree] returns for that tree; [raycastMesh] returns
    [false] when that tree is null, without casting a ray and leaving the
    context as it was. *)
Theorem null_tree_gives_no_surface_snap
  (sctx : SnapObjectContext) (tr : Trace) (ob_eval : Object) (me_eval : Mesh)
  (obmat : float4x4) (ob_index : Z) (use_hide : bool) :
  let treedata := fst (snap_object_data_mesh_get me_eval use_hide []) in
  (tree treedata = None ->
   fst (nearest_world_mesh sctx tr me_eval obmat use_hide) = (false, sctx)) /\
  (forall t, tree treedata = Some t ->
   fst (nearest_world_mesh sctx tr me_eval obmat use_hide)
     = nearest_world_tree sctx t (nearest_callback treedata) treedata obmat) /\
  (tree treedata = None ->
   match raycastMesh sctx tr ob_eval me_eval obmat ob_index use_hide with
   | (r, sctx', tr') =>
       r = false /\ sctx' = sctx /\
       exists ev, tr' = tr ++ ev /\
         ~ In EvRayCast ev /\ ~ In EvRayCastAll ev
   end).
Proof.
  unfold nearest_world_mesh, raycastMesh, snap_object_data_mesh_get.
  cbn [fst]. set (treedata := BKE_bvhtree_from_mesh_get me_eval _ 4).
  repeat split.
  - intros ->. reflexivity.
  - intros t ->. now destruct (nearest_world_tree _ _ _ _ _).
  - intros Hn.
    destruct (totpoly me_eval =? 0).
    { repeat split; auto. eexists; split; [reflexivity |].
      split; simpl; intros [H | []]; discriminate. }
    destruct (raycast_local_ray sctx ob_eval me_eval obmat)
      as [[[[[start dir] local_scale] local_depth] len_diff] |].
    + rewrite Hn. repeat split; auto.
      rewrite <- app_assoc. eexists; split; [reflexivity |].
      split; simpl; intros [H | [H | []]]; discriminate.
    + repeat split; auto. eexists; split; [reflexivity |].
      split; simpl; intros [H | []]; discriminate.
Qed.

End RayCast.

(** *** The stages of snap_object_mesh *)

Section Stages.

Context {X : Externals}.

Lemma snapMesh_events
  (sctx : SnapObjectContext) (tr : Trace) (ob_eval : Object) (me_eval : Mesh)
  (obmat : float4x4) (use_hide : bool) :
  match snapMesh sctx tr ob_eval me_eval obmat use_hide with
  | (r, _, tr', _) =>
      (exists ev, tr' = tr ++ EvEnter FnSnapMesh :: ev /\ entered ev = []) /\
      (r = SCE_SNAP_TO_NONE \/ r = SCE_SNAP_TO_VERTEX \/ r = SCE_SNAP_TO_EDGE)
  end.
Proof.
  unfold snapMesh.
  destruct (totvert me_eval =? 0); [split; [exists []; auto | auto] |].
  destruct (_ && _); [split; [exists []; auto | auto] |].
  destruct (_ && _); [split; [exists []; auto | auto] |].
  unfold snap_object_data_mesh_get. cbv zeta.
  destruct (has (snap_to_flag (runtime sctx)) SCE_SNAP_TO_VERTEX);
    match goal with
    | |- context [snapMesh_search ?a ?b ?c ?d ?e ?f] =>
        destruct (snapMesh_search_quiet a b c d e f)
          as [(ev & T & En) [_ Hel]];
        destruct (snapMesh_search a b c d e f) as [[n' tr'] elem]
    end;
    cbn [fst snd] in *; rewrite T, <- !app_assoc; cbn [app];
    destruct (negb _);
    (split; [eexists; split; [reflexivity | simpl; exact En] | tauto]).
Qed.

Lemma raycastMesh_events
  (sctx : SnapObjectContext) (tr : Trace) (ob_eval : Object) (me_eval : Mesh)
  (obmat : float4x4) (ob_index : Z) (use_hide : bool) :
  exists ev,
    snd (raycastMesh sctx tr ob_eval me_eval obmat ob_index use_hide)
      = tr ++ EvEnter FnRaycastMesh :: ev /\ entered ev = [].
Proof.
  unfold raycastMesh.
  destruct (totpoly me_eval =? 0); [exists []; auto |].
  destruct (raycast_local_ray sctx ob_eval me_eval obmat)
    as [[[[[start dir] local_scale] local_depth] len_diff] |];
    [| exists []; auto].
  unfold snap_object_data_mesh_get. cbv zeta.
  destruct (tree _); [| rewrite <- app_assoc; eexists; split; [reflexivity | auto]].
  destruct (hit_list (ret sctx)).
  - cbn [snd]. rewrite <- !app_assoc. eexists; split; [reflexivity | auto].
  - destruct (BLI_bvhtree_ray_cast _ _ _ _ _ _) as [found hit].
    destruct (negb _); [destruct (F32.leb _ _) |]; cbn [snd];
      rewrite <- !app_assoc; eexists; split; reflexivity || auto.
Qed.

Lemma nearest_world_mesh_events
  (sctx : SnapObjectContext) (tr : Trace) (me_eval : Mesh)
  (obmat : float4x4) (use_hide : bool) :
  exists ev,
    snd (nearest_world_mesh sctx tr me_eval obmat use_hide)
      = tr ++ EvEnter FnNearestWorldMesh :: ev /\ entered ev = [].
Proof.
  unfold nearest_world_mesh, snap_object_data_mesh_get. cbv zeta.
  destruct (tree _).
  - destruct (nearest_world_tree _ _ _ _ _). cbn [snd].
    rewrite <- !app_assoc. eexists; split; [reflexivity | auto].
  - cbn [snd]. rewrite <- !app_assoc. eexists; split; [reflexivity | auto].
Qed.

Lemma snap_object_mesh_unfold
  (sctx : SnapObjectContext) (tr : Trace) (ob_eval : Object) (me_eval : Mesh)
  (obmat : float4x4) (flag : eSnapMode) (use_hide : bool) :
  let used := Z.land flag (mesh_snap_mode_supported me_eval) in
  let s1 := stage_snap sctx tr ob_eval me_eval obmat used use_hide in
  let s2 := stage_ray s1 ob_eval me_eval obmat used use_hide in
  let s3 := stage_near s2 me_eval obmat used use_hide in
  snap_object_mesh sctx tr ob_eval me_eval obmat flag use_hide =
    if negb (fst (fst s1) =? 0) then s1
    else if fst (fst s2) then (SCE_SNAP_TO_FACE, snd (fst s2), snd s2)
    else if fst (fst s3) then (SCE_SNAP_INDIVIDUAL_NEAREST, snd (fst s3), snd s3)
    else (SCE_SNAP_TO_NONE, snd (fst s3), snd s3).
Proof.
  unfold snap_object_mesh, snap_object_mesh_faces, stage_near, stage_ray,
    stage_snap.
  cbv zeta.
  destruct (has _ edge_or_vertex_modes).
  - destruct (snapMesh _ _ _ _ _ _) as [[[e s] t] nd]. cbn [fst snd].
    destruct (negb (e =? 0)); auto.
    destruct (has _ SCE_SNAP_TO_FACE).
    + destruct (raycastMesh _ _ _ _ _ _ _) as [[r2 s2] t2]. cbn [fst snd].
      destruct r2; auto.
      destruct (has _ SCE_SNAP_INDIVIDUAL_NEAREST); cbn [fst snd]; auto.
      destruct (nearest_world_mesh _ _ _ _ _) as [[r3 s3] t3]. cbn [fst snd].
      now destruct r3.
    + cbn [fst snd].
      destruct (has _ SCE_SNAP_INDIVIDUAL_NEAREST); cbn [fst snd]; auto.
      destruct (nearest_world_mesh _ _ _ _ _) as [[r3 s3] t3]. cbn [fst snd].
      now destruct r3.
  - cbn [fst snd]. change (negb (SCE_SNAP_TO_NONE =? 0)) with false.
    cbv iota.
    destruct (has _ SCE_SNAP_TO_FACE).
    + destruct (raycastMesh _ _ _ _ _ _ _) as [[r2 s2] t2]. cbn [fst snd].
      destruct r2; auto.
      destruct (has _ SCE_SNAP_INDIVIDUAL_NEAREST); cbn [fst snd]; auto.
      destruct (nearest_world_mesh _ _ _ _ _) as [[r3 s3] t3]. cbn [fst snd].
      now destruct r3.
    + cbn [fst snd].
      destruct (has _ SCE_SNAP_INDIVIDUAL_NEAREST); cbn [fst snd]; auto.
      destruct (nearest_world_mesh _ _ _ _ _) as [[r3 s3] t3]. cbn [fst snd].
      now destruct r3.
Qed.

Lemma stage_snap_events
  (sctx : SnapObjectContext) (tr : Trace) (ob_eval : Object) (me_eval : Mesh)
  (obmat : float4x4) (used : eSnapMode) (use_hide : bool) :
  let s1 := stage_snap sctx tr ob_eval me_eval obmat used use_hide in
  (exists ev, snd s1 = tr ++ ev /\
     entered ev = if has used edge_or_vertex_modes then [FnSnapMesh] else []) /\
  (fst (fst s1) = SCE_SNAP_TO_NONE \/ fst (fst s1) = SCE_SNAP_TO_VERTEX \/
   fst (fst s1) = SCE_SNAP_TO_EDGE).
Proof.
  unfold stage_snap. destruct (has used edge_or_vertex_modes).
  - pose proof (snapMesh_events sctx tr ob_eval me_eval obmat use_hide) as H.
    destruct (snapMesh _ _ _ _ _ _) as [[[e s] t] nd]. cbn [fst snd].
    destruct H as [(ev & -> & En) Hr]. split; auto.
    exists (EvEnter FnSnapMesh :: ev). simpl. now rewrite En.
  - cbn [fst snd]. split; auto. exists []. now rewrite app_nil_r.
Qed.

Lemma stage_ray_events (s1 : eSnapMode * SnapObjectContext * Trace)
  (ob_eval : Object) (me_eval : Mesh) (obmat : float4x4) (used : eSnapMode)
  (use_hide : bool) :
  exists ev,
    snd (stage_ray s1 ob_eval me_eval obmat used use_hide) = snd s1 ++ ev /\
    entered ev = if has used SCE_SNAP_TO_FACE then [FnRaycastMesh] else [].
Proof.
  unfold stage_ray. destruct (has used SCE_SNAP_TO_FACE).
  - destruct (raycastMesh_events (bump_object_index (snd (fst s1))) (snd s1)
                ob_eval me_eval obmat (object_index (runtime (snd (fst s1))))
                use_hide) as (ev & -> & En).
    exists (EvEnter FnRaycastMesh :: ev). simpl. now rewrite En.
  - exists []. now rewrite app_nil_r.
Qed.

Lemma stage_near_events (s2 : bool * SnapObjectContext * Trace)
  (me_eval : Mesh) (obmat : float4x4) (used : eSnapMode) (use_hide : bool) :
  exists ev,
    snd (stage_near s2 me_eval obmat used use_hide) = snd s2 ++ ev /\
    entered ev =
      if has used SCE_SNAP_INDIVIDUAL_NEAREST then [FnNearestWorldMesh] else [].
Proof.
  unfold stage_near. destruct (has used SCE_SNAP_INDIVIDUAL_NEAREST).
  - destruct (nearest_world_mesh_events (snd (fst s2)) (snd s2) me_eval obmat
                use_hide) as (ev & -> & En).
    exists (EvEnter FnNearestWorldMesh :: ev). simpl. now rewrite En.
  - exists []. now rewrite app_nil_r.
Qed.

(** The stages entered by [snap_object_mesh]: a stage is entered when its
    mode is used and every stage before it failed. *)
Lemma snap_object_mesh_stages
  (sctx : SnapObjectContext) (tr : Trace) (ob_eval : Object) (me_eval : Mesh)
  (obmat : float4x4) (flag : eSnapMode) (use_hide : bool) :
  let used := Z.land flag (mesh_snap_mode_supported me_eval) in
  let s1 := stage_snap sctx tr ob_eval me_eval obmat used use_hide in
  let s2 := stage_ray s1 ob_eval me_eval obmat used use_hide in
  exists ev,
    snd (snap_object_mesh sctx tr ob_eval me_eval obmat flag use_hide)
      = tr ++ ev /\
    entered ev =
      stages (has used edge_or_vertex_modes)
        ((fst (fst s1) =? 0) && has used SCE_SNAP_TO_FACE)
        ((fst (fst s1) =? 0) && negb (fst (fst s2))
         && has used SCE_SNAP_INDIVIDUAL_NEAREST).
Proof.
  intros used s1 s2.
  rewrite snap_object_mesh_unfold. fold used. fold s1. fold s2.
  set (s3 := stage_near s2 me_eval obmat used use_hide).
  destruct (stage_snap_events sctx tr ob_eval me_eval obmat used use_hide)
    as [(ev1 & T1 & E1) _].
  destruct (stage_ray_events s1 ob_eval me_eval obmat used use_hide)
    as (ev2 & T2 & E2).
  destruct (stage_near_events s2 me_eval obmat used use_hide)
    as (ev3 & T3 & E3).
  fold s1 in T1, T2. fold s2 in T2, T3. fold s3 in T3.
  unfold stages.
  destruct (fst (fst s1) =? 0); cbn [negb andb].
  - destruct (fst (fst s2)); cbn [negb andb snd].
    + exists (ev1 ++ ev2). rewrite T2, T1, entered_app, E1, E2, app_assoc.
      now rewrite app_nil_r.
    + assert (snd (if fst (fst s3)
                   then (SCE_SNAP_INDIVIDUAL_NEAREST, snd (fst s3), snd s3)
                   else (SCE_SNAP_TO_NONE, snd (fst s3), snd s3)) = snd s3)
        as -> by now destruct (fst (fst s3)).
      exists (ev1 ++ ev2 ++ ev3).
      rewrite T3, T2, T1, !entered_app, E1, E2, E3, !app_assoc. auto.
  - exists ev1. rewrite T1, E1. now rewrite !app_nil_r.
Qed.

(** C3.  [snap_object_mesh] tries vertex and edge snapping ([snapMesh]),
    then the ray cast on the faces ([raycastMesh]), then the nearest point
    of the surface ([nearest_world_mesh]), in that order; the first stage
    that succeeds gives the result and no later stage is entered; and the
    value returned is one of [SCE_SNAP_TO_VERTEX], [SCE_SNAP_TO_EDGE],
    [SCE_SNAP_TO_FACE], [SCE_SNAP_INDIVIDUAL_NEAREST] and
    [SCE_SNAP_TO_NONE]. *)
Theorem snap_object_mesh_fallback_order
  (sctx : SnapObjectContext) (tr : Trace) (ob_eval : Object) (me_eval : Mesh)
  (obmat : float4x4) (flag : eSnapMode) (use_hide : bool) :
  let used := Z.land flag (mesh_snap_mode_supported me_eval) in
  let s1 := stage_snap sctx tr ob_eval me_eval obmat used use_hide in
  let s2 := stage_ray s1 ob_eval me_eval obmat used use_hide in
  let s3 := stage_near s2 me_eval obmat used use_hide in
  let res := snap_object_mesh sctx tr ob_eval me_eval obmat flag use_hide in
  (fst (fst s1) <> SCE_SNAP_TO_NONE -> res = s1) /\
  (fst (fst s1) = SCE_SNAP_TO_NONE -> fst (fst s2) = true ->
   res = (SCE_SNAP_TO_FACE, snd (fst s2), snd s2)) /\
  (fst (fst s1) = SCE_SNAP_TO_NONE -> fst (fst s2) = false ->
   fst (fst s3) = true ->
   res = (SCE_SNAP_INDIVIDUAL_NEAREST, snd (fst s3), snd s3)) /\
  (fst (fst s1) = SCE_SNAP_TO_NONE -> fst (fst s2) = false ->
   fst (fst s3) = false ->
   res = (SCE_SNAP_TO_NONE, snd (fst s3), snd s3)) /\
  (exists ev,
     snd res = tr ++ ev /\
     entered ev =
       stages (has used edge_or_vertex_modes)
         ((fst (fst s1) =? 0) && has used SCE_SNAP_TO_FACE)
         ((fst (fst s1) =? 0) && negb (fst (fst s2))
          && has used SCE_SNAP_INDIVIDUAL_NEAREST)) /\
  (fst (fst res) = SCE_SNAP_TO_VERTEX \/ fst (fst res) = SCE_SNAP_TO_EDGE \/
   fst (fst res) = SCE_SNAP_TO_FACE \/
   fst (fst res) = SCE_SNAP_INDIVIDUAL_NEAREST \/
   fst (fst res) = SCE_SNAP_TO_NONE).
Proof.
  intros used s1 s2 s3 res.
  pose proof (snap_object_mesh_unfold sctx tr ob_eval me_eval obmat flag
                use_hide) as U.
  cbv zeta in U. fold used in U. fold s1 in U. fold s2 in U. fold s3 in U.
  fold res in U.
  destruct (stage_snap_events sctx tr ob_eval me_eval obmat used use_hide)
    as [_ Hr]. fold s1 in Hr.
  unfold SCE_SNAP_TO_NONE in *.
  repeat split.
  - intros H. apply Z.eqb_neq in H. now rewrite H in U.
  - intros H1 H2. now rewrite H1, H2 in U.
  - intros H1 H2 H3. now rewrite H1, H2, H3 in U.
  - intros H1 H2 H3. now rewrite H1, H2, H3 in U.
  - apply snap_object_mesh_stages.
  - rewrite U. destruct (fst (fst s1) =? 0) eqn:E; cbn [negb].
    + destruct (fst (fst s2)); cbn [fst]; auto.
      destruct (fst (fst s3)); cbn [fst]; auto.
    + apply Z.eqb_neq in E. intuition.
Qed.

Lemma in_stages (f : Fn) (b1 b2 b3 : bool) :
  In f (stages b1 b2 b3) ->
  match f with
  | FnSnapMesh => b1 = true
  | FnRaycastMesh => b2 = true
  | FnNearestWorldMesh => b3 = true
  end.
Proof.
  unfold stages. destruct f, b1, b2, b3; simpl; intuition discriminate.
Qed.

(** C4, as the code has it.  For a mesh (whose counts are not negative)
    [mesh_snap_mode_supported] includes the face modes exactly when
    [totpoly > 0], the edge modes exactly when [totedge > 0] and
    [SCE_SNAP_TO_VERTEX] exactly when [totvert > 0].  [snap_object_mesh]
    enters [snapMesh] only when one of the vertex and edge modes is in the
    intersection of [snap_to_flag] with the supported modes, [raycastMesh]
    only when [SCE_SNAP_TO_FACE] is, [nearest_world_mesh] only when
    [SCE_SNAP_INDIVIDUAL_NEAREST] is; it returns [SCE_SNAP_TO_FACE] or
    [SCE_SNAP_INDIVIDUAL_NEAREST] only when that mode is in the
    intersection, and [SCE_SNAP_TO_VERTEX] or [SCE_SNAP_TO_EDGE] only when
    one of the vertex and edge modes is; and it returns
    [SCE_SNAP_TO_NONE], changing nothing, when the intersection is empty.
    Which of vertices and edges [snapMesh] tests is not part of the
    statement: it follows [sctx->runtime.snap_to_flag]. *)
Theorem snap_modes_supported_and_used
  (sctx : SnapObjectContext) (tr : Trace) (ob_eval : Object) (me_eval : Mesh)
  (obmat : float4x4) (flag : eSnapMode) (use_hide : bool) :
  mesh_counts_ok me_eval ->
  let supported := mesh_snap_mode_supported me_eval in
  let used := Z.land flag supported in
  let res := snap_object_mesh sctx tr ob_eval me_eval obmat flag use_hide in
  (includes supported SCE_SNAP_TO_FACE <-> totpoly me_eval > 0) /\
  (includes supported SCE_SNAP_INDIVIDUAL_NEAREST <-> totpoly me_eval > 0) /\
  (includes supported SCE_SNAP_TO_EDGE <-> totedge me_eval > 0) /\
  (includes supported SCE_SNAP_TO_EDGE_MIDPOINT <-> totedge me_eval > 0) /\
  (includes supported SCE_SNAP_TO_EDGE_PERPENDICULAR <->
   totedge me_eval > 0) /\
  (includes supported SCE_SNAP_TO_VERTEX <-> totvert me_eval > 0) /\
  (exists ev,
     snd res = tr ++ ev /\
     (In FnSnapMesh (entered ev) -> has used edge_or_vertex_modes = true) /\
     (In FnRaycastMesh (entered ev) -> has used SCE_SNAP_TO_FACE = true) /\
     (In FnNearestWorldMesh (entered ev) ->
      has used SCE_SNAP_INDIVIDUAL_NEAREST = true)) /\
  (used = SCE_SNAP_TO_NONE -> res = (SCE_SNAP_TO_NONE, sctx, tr)) /\
  (fst (fst res) = SCE_SNAP_TO_FACE -> has used SCE_SNAP_TO_FACE = true) /\
  (fst (fst res) = SCE_SNAP_INDIVIDUAL_NEAREST ->
   has used SCE_SNAP_INDIVIDUAL_NEAREST = true) /\
  (fst (fst res) = SCE_SNAP_TO_VERTEX \/ fst (fst res) = SCE_SNAP_TO_EDGE ->
   has used edge_or_vertex_modes = true).
Proof.
  intros (Hv & He & Hp) supported used res.
  assert (Hsup :
    (includes supported SCE_SNAP_TO_FACE <-> totpoly me_eval > 0) /\
    (includes supported SCE_SNAP_INDIVIDUAL_NEAREST <-> totpoly me_eval > 0) /\
    (includes supported SCE_SNAP_TO_EDGE <-> totedge me_eval > 0) /\
    (includes supported SCE_SNAP_TO_EDGE_MIDPOINT <-> totedge me_eval > 0) /\
    (includes supported SCE_SNAP_TO_EDGE_PERPENDICULAR <->
     totedge me_eval > 0) /\
    (includes supported SCE_SNAP_TO_VERTEX <-> totvert me_eval > 0)).
  { unfold supported, mesh_snap_mode_supported, includes.
    destruct (Z.eqb_spec (totpoly me_eval) 0),
             (Z.eqb_spec (totedge me_eval) 0),
             (Z.eqb_spec (totvert me_eval) 0);
      cbv zeta; cbn [negb];
      repeat split; intros H; try lia; try reflexivity;
      vm_compute in H; discriminate. }
  destruct Hsup as (H1 & H2 & H3 & H4 & H5 & H6).
  repeat (split; [assumption |]).
  pose proof (snap_object_mesh_unfold sctx tr ob_eval me_eval obmat flag
                use_hide) as U.
  cbv zeta in U. fold supported in U. fold used in U. fold res in U.
  set (s1 := stage_snap sctx tr ob_eval me_eval obmat used use_hide) in U.
  set (s2 := stage_ray s1 ob_eval me_eval obmat used use_hide) in U.
  set (s3 := stage_near s2 me_eval obmat used use_hide) in U.
  destruct (stage_snap_events sctx tr ob_eval me_eval obmat used use_hide)
    as [_ Hr]. fold s1 in Hr.
  assert (G1 : fst (fst s1) <> SCE_SNAP_TO_NONE ->
               has used edge_or_vertex_modes = true).
  { unfold s1, stage_snap. destruct (has used edge_or_vertex_modes);
      [reflexivity | intros H; now destruct H]. }
  assert (G2 : fst (fst s2) = true -> has used SCE_SNAP_TO_FACE = true).
  { unfold s2, stage_ray. now destruct (has used SCE_SNAP_TO_FACE). }
  assert (G3 : fst (fst s3) = true ->
               has used SCE_SNAP_INDIVIDUAL_NEAREST = true).
  { unfold s3, stage_near.
    now destruct (has used SCE_SNAP_INDIVIDUAL_NEAREST). }
  assert (Cases :
    (fst (fst s1) <> SCE_SNAP_TO_NONE /\ fst (fst res) = fst (fst s1)) \/
    (fst (fst s2) = true /\ fst (fst res) = SCE_SNAP_TO_FACE) \/
    (fst (fst s3) = true /\ fst (fst res) = SCE_SNAP_INDIVIDUAL_NEAREST) \/
    fst (fst res) = SCE_SNAP_TO_NONE).
  { rewrite U. unfold SCE_SNAP_TO_NONE.
    destruct (Z.eqb_spec (fst (fst s1)) 0) as [E1 | E1]; cbn [negb].
    - destruct (fst (fst s2)) eqn:E2.
      + right; left. split; reflexivity.
      + destruct (fst (fst s3)) eqn:E3.
        * right; right; left. split; reflexivity.
        * right; right; right. reflexivity.
    - left. split; [exact E1 | reflexivity]. }
  split; [| split; [| split; [| split]]].
  - destruct (snap_object_mesh_stages sctx tr ob_eval me_eval obmat flag
                use_hide) as (ev & T & E).
    exists ev. split; [exact T |]. fold supported in E. fold used in E.
    rewrite E. repeat split; intros H; apply in_stages in H.
    + exact H.
    + apply andb_true_iff in H. tauto.
    + apply andb_true_iff in H. tauto.
  - intros H. unfold res. rewrite snap_object_mesh_unfold.
    fold supported. fold used. rewrite H. reflexivity.
  - intros R.
    destruct Cases as [[N E] | [[E2 _] | [[_ E] | E]]]; auto.
    + rewrite E in R. destruct Hr as [K | [K | K]]; rewrite K in R;
        discriminate.
    + rewrite E in R. discriminate.
    + rewrite E in R. discriminate.
  - intros R.
    destruct Cases as [[N E] | [[_ E] | [[E3 _] | E]]]; auto.
    + rewrite E in R. destruct Hr as [K | [K | K]]; rewrite K in R;
        discriminate.
    + rewrite E in R. discriminate.
    + rewrite E in R. discriminate.
  - intros R.
    destruct Cases as [[N E] | [[_ E] | [[_ E] | E]]]; auto;
      rewrite E in R; destruct R; discriminate.
Qed.

(** C8.  On empty geometry the two functions return at once and leave the
    context as it was: [raycastMesh] returns [false] when [totpoly == 0];
    [snapMesh] returns [SCE_SNAP_TO_NONE] when [totvert == 0], and when
    [totedge == 0] and [SCE_SNAP_TO_VERTEX] is not among the requested
    flags.  Nothing but the entry is in the trace. *)
Theorem empty_geometry_fails_at_once
  (sctx : SnapObjectContext) (tr : Trace) (ob_eval : Object) (me_eval : Mesh)
  (obmat : float4x4) (ob_index : Z) (use_hide : bool) :
  (totpoly me_eval = 0 ->
   raycastMesh sctx tr ob_eval me_eval obmat ob_index use_hide
     = (false, sctx, tr ++ [EvEnter FnRaycastMesh])) /\
  (totvert me_eval = 0 ->
   snapMesh sctx tr ob_eval me_eval obmat use_hide
     = (SCE_SNAP_TO_NONE, sctx, tr ++ [EvEnter FnSnapMesh], None)) /\
  (totedge me_eval = 0 ->
   has (snap_to_flag (runtime sctx)) SCE_SNAP_TO_VERTEX = false ->
   snapMesh sctx tr ob_eval me_eval obmat use_hide
     = (SCE_SNAP_TO_NONE, sctx, tr ++ [EvEnter FnSnapMesh], None)).
Proof.
  unfold raycastMesh, snapMesh. repeat split.
  - intros ->. reflexivity.
  - intros ->. reflexivity.
  - intros -> ->. cbn. now destruct (totvert me_eval =? 0).
Qed.

End Stages.

(** *** Triangles: real edges and back faces *)

Section Triangles.

Context {X : Externals}.

Lemma get3_tri_edges_index (data : Nearest2dUserData_Mesh) (index j : Z) :
  In j [0; 1; 2] ->
  get3 (get_tri_edges_index data index) j
    = tri_side_edge data (at_ (0, 0, 0) (looptris data) index) j
        (next_corner j).
Proof.
  unfold get_tri_edges_index, tri_sides.
  intros [<- | [<- | [<- | []]]]; reflexivity.
Qed.

Lemma tri_side_edge_within (data : Nearest2dUserData_Mesh) (lt : MLoopTri)
  (j : Z) :
  (side_within_ends data lt j ->
   tri_side_edge data lt j (next_corner j) = side_edge data lt j) /\
  (~ side_within_ends data lt j ->
   tri_side_edge data lt j (next_corner j) = -1) /\
  (tri_side_edge data lt j (next_corner j) <> -1 ->
   tri_side_edge data lt j (next_corner j) = side_edge data lt j /\
   side_within_ends data lt j) /\
  (fst (side_edge_verts data lt j) <> snd (side_edge_verts data lt j) ->
   (side_within_ends data lt j <-> side_is_mesh_edge data lt j)).
Proof.
  unfold side_within_ends, side_is_mesh_edge, tri_side_edge, side_edge_verts,
    side_edge, ELEM.
  destruct (at_ (0, 0) (edges data) (at_ 0 (corner_edges data) (tri lt j)))
    as [a b].
  cbn [fst snd].
  destruct (Z.eqb_spec a (at_ 0 (corner_verts data) (tri lt j))),
           (Z.eqb_spec a (at_ 0 (corner_verts data) (tri lt (next_corner j)))),
           (Z.eqb_spec b (at_ 0 (corner_verts data) (tri lt j))),
           (Z.eqb_spec b (at_ 0 (corner_verts data) (tri lt (next_corner j))));
    cbn [orb andb]; repeat split; intros; try tauto; try lia;
    intuition congruence.
Qed.

(** C10, as the code has it.  For every triangle, [get_tri_edges_index]
    stores for side [j] the index of the mesh edge of corner [j] when each
    of the two vertices of that edge is one of the two ends of the side,
    and [-1] otherwise; for an edge with two distinct vertices that is:
    when its vertices are exactly the two ends of the side.
    [cb_snap_tri_edges] never hands [-1] to [cb_snap_edge]: every edge it
    tests is an edge that passed this test. *)
Theorem tri_edges_are_mesh_edges
  (data : Nearest2dUserData_Mesh) (index : Z)
  (precalc : DistProjectedAABBPrecalc) (clip : list float4)
  (st : SearchState) :
  let lt := at_ (0, 0, 0) (looptris data) index in
  (forall j, In j [0; 1; 2] ->
     (side_within_ends data lt j ->
      get3 (get_tri_edges_index data index) j = side_edge data lt j) /\
     (~ side_within_ends data lt j ->
      get3 (get_tri_edges_index data index) j = -1) /\
     (fst (side_edge_verts data lt j) <> snd (side_edge_verts data lt j) ->
      (side_within_ends data lt j <-> side_is_mesh_edge data lt j))) /\
  (exists ev,
     snd (cb_snap_tri_edges data index precalc clip st) = snd st ++ ev /\
     forall e, In e (tested ev) ->
       exists j, In j [0; 1; 2] /\
         e = Edge (side_edge data lt j) /\
         side_edge data lt j <> -1 /\
         side_within_ends data lt j /\
         (fst (side_edge_verts data lt j) <> snd (side_edge_verts data lt j) ->
          side_is_mesh_edge data lt j)).
Proof.
  intros lt. split.
  - intros j Hj. rewrite (get3_tri_edges_index data index j Hj). fold lt.
    destruct (tri_side_edge_within data lt j) as (H1 & H2 & _ & H4).
    auto.
  - set (Q := fun e : Elem =>
                exists j, In j [0; 1; 2] /\
                  e = Edge (side_edge data lt j) /\
                  side_edge data lt j <> -1 /\
                  side_within_ends data lt j /\
                  (fst (side_edge_verts data lt j)
                     <> snd (side_edge_verts data lt j) ->
                   side_is_mesh_edge data lt j)).
    destruct (cb_snap_tri_edges_step data precalc clip Q index st)
      as (ev & T & _ & HQ & _).
    + intros j Hj Hne. rewrite (get3_tri_edges_index data index j Hj) in *.
      fold lt in Hne |- *.
      destruct (tri_side_edge_within data lt j) as (_ & _ & H3 & H4).
      destruct (H3 Hne) as [E Hs]. exists j. rewrite E in *.
      repeat split; auto. intros Hd. now apply H4.
    + exists ev. split; [exact T |]. now apply Forall_forall.
Qed.

Lemma fold_left_invariant {A B : Type} (P : A -> Prop) (f : A -> B -> A)
  (l : list B) (a : A) :
  P a -> (forall a' b, P a' -> P (f a' b)) -> P (fold_left f l a).
Proof.
  revert a. induction l as [| b l IH]; intros a Ha Hf; simpl; auto.
Qed.

(** The ray-cast callback with culling changes the hit only to a triangle
    that passes the culling test. *)
Lemma culling_cb_records_passing (data : BVHTreeFromMesh) (index : Z)
  (ray : BVHTreeRay) (hit : BVHTreeRayHit) :
  mesh_looptri_raycast_backface_culling_cb data index ray hit = hit \/
  (hit_index (mesh_looptri_raycast_backface_culling_cb data index ray hit)
     = index /\
   let '(v0, v1, v2) := vtri_co data index in
   fst (raycast_tri_backface_culling_test (ray_direction ray) v0 v1 v2)
     = true).
Proof.
  unfold mesh_looptri_raycast_backface_culling_cb.
  destruct (vtri_co data index) as [[v0 v1] v2].
  destruct (_ && _); auto.
  destruct (raycast_tri_backface_culling_test _ _ _ _) as [ok n].
  destruct ok; auto.
Qed.

(** C9, as the code has it.  With [use_backface_culling] enabled, the
    callback of the single-hit ray cast only records a hit when
    [raycast_tri_backface_culling_test] passes for the triangle, so the
    triangle found by the single-hit ray cast of [raycastMesh] passes it;
    [cb_snap_tri_verts] and [cb_snap_tri_edges] return without testing any
    element when the culling test holds for the triangle and
    [precalc->ray_direction]; and the ray cast that keeps every hit does
    not look at [use_backface_culling]. *)
Theorem backface_culling_where_applied :
  (forall data index ray hit,
     mesh_looptri_raycast_backface_culling_cb data index ray hit <> hit ->
     let '(v0, v1, v2) := vtri_co data index in
     fst (raycast_tri_backface_culling_test (ray_direction ray) v0 v1 v2)
       = true) /\
  (forall sctx ob_eval me_eval obmat use_hide hit d,
     use_backface_culling (params (runtime sctx)) = true ->
     raycast_found sctx ob_eval me_eval obmat use_hide = Some (hit, d) ->
     exists start dir local_scale local_depth len_diff,
       raycast_local_ray sctx ob_eval me_eval obmat
         = Some (start, dir, local_scale, local_depth, len_diff) /\
       let '(v0, v1, v2) :=
         vtri_co (fst (snap_object_data_mesh_get me_eval use_hide []))
           (hit_index hit) in
       fst (raycast_tri_backface_culling_test dir v0 v1 v2) = true) /\
  (forall data index precalc clip st,
     nd_use_backface_culling (nd_base data) = true ->
     (let '(i0, i1, i2) := get_tri_verts_index data index in
      fst (raycast_tri_backface_culling_test (pc_ray_direction precalc)
             (get_vert_co data i0) (get_vert_co data i1)
             (get_vert_co data i2)) = true) ->
     cb_snap_tri_verts data index precalc clip st = st /\
     cb_snap_tri_edges data index precalc clip st = st) /\
  (forall sctx tr ob_eval me_eval obmat ob_index use_hide hl,
     hit_list (ret sctx) = Some hl ->
     match
       raycastMesh (with_culling sctx true) tr ob_eval me_eval obmat
         ob_index use_hide,
       raycastMesh (with_culling sctx false) tr ob_eval me_eval obmat
         ob_index use_hide
     with
     | (r1, s1, t1), (r2, s2, t2) => r1 = r2 /\ ret s1 = ret s2 /\ t1 = t2
     end).
Proof.
  split; [| split; [| split]].
  - intros data index ray hit H.
    destruct (culling_cb_records_passing data index ray hit) as [E | [_ E]];
      [contradiction | exact E].
  - intros sctx ob_eval me_eval obmat use_hide hit d Hc.
    unfold raycast_found, raycast_single_cb. rewrite Hc.
    destruct (totpoly me_eval =? 0); [discriminate |].
    destruct (raycast_local_ray sctx ob_eval me_eval obmat)
      as [[[[[start dir] local_scale] local_depth] len_diff] |];
      [| discriminate].
    set (treedata := fst (snap_object_data_mesh_get me_eval use_hide [])).
    destruct (tree treedata) as [t |]; [| discriminate].
    unfold BLI_bvhtree_ray_cast.
    set (ray := {| ray_origin := start; ray_direction := dir |}).
    set (P := fun h : BVHTreeRayHit =>
                hit_index h = -1 \/
                let '(v0, v1, v2) := vtri_co treedata (hit_index h) in
                fst (raycast_tri_backface_culling_test dir v0 v1 v2) = true).
    match goal with
    | |- context [fold_left ?f ?l ?a] => set (h := fold_left f l a)
    end.
    assert (HP : P h).
    { apply fold_left_invariant.
      - left. reflexivity.
      - intros h' i Hh.
        destruct (culling_cb_records_passing treedata i ray h')
          as [-> | [E Ht]]; auto.
        right. rewrite E. exact Ht. }
    destruct (Z.eqb_spec (hit_index h) (-1)) as [E | E]; [discriminate |].
    intros [= <- _].
    exists start, dir, local_scale, local_depth, len_diff.
    split; [reflexivity |]. destruct HP as [HP | HP]; [contradiction | exact HP].
  - intros data index precalc clip st H H0.
    unfold cb_snap_tri_verts, cb_snap_tri_edges, tri_culled. rewrite H.
    destruct (get_tri_verts_index data index) as [[i0 i1] i2].
    now rewrite H0.
  - intros sctx tr ob_eval me_eval obmat ob_index use_hide hl Hl.
    unfold raycastMesh.
    change (raycast_local_ray (with_culling sctx true) ob_eval me_eval obmat)
      with (raycast_local_ray sctx ob_eval me_eval obmat).
    change (raycast_local_ray (with_culling sctx false) ob_eval me_eval obmat)
      with (raycast_local_ray sctx ob_eval me_eval obmat).
    change (ret (with_culling sctx true)) with (ret sctx).
    change (ret (with_culling sctx false)) with (ret sctx).
    destruct (totpoly me_eval =? 0); auto.
    destruct (raycast_local_ray sctx ob_eval me_eval obmat)
      as [[[[[start dir] local_scale] local_depth] len_diff] |]; auto.
    unfold snap_object_data_mesh_get. cbv zeta.
    destruct (tree _); auto.
    rewrite Hl. auto.
Qed.

End Triangles.

End SnapMeshFacts.

(* ------------------------------------------------------------------ *)
(** ** Properties of the "Shader Test" node *)

Module ShaderTestFacts.

Import ShaderTest.

Lemma land_lor_same (a b : Z) : Z.land (Z.lor a b) b = b.
Proof.
  apply Z.bits_inj'. intros n Hn.
  rewrite Z.land_spec, Z.lor_spec. now destruct (Z.testbit a n), (Z.testbit b n).
Qed.

Lemma set_link_other (i k : nat) (l : option GPUNodeLink)
  (stack : list GPUNodeStack) :
  i <> k -> nth i (set_link k l stack) no_stack = nth i stack no_stack.
Proof.
  revert i k. induction stack as [| s stack IH]; intros i k H; simpl.
  - reflexivity.
  - destruct k as [| k], i as [| i]; simpl; auto; congruence.
Qed.

Lemma set_link_same (k : nat) (l : option GPUNodeLink)
  (stack : list GPUNodeStack) :
  (k < List.length stack)%nat ->
  nth k (set_link k l stack) no_stack
    = {| link := l; vec := vec (nth k stack no_stack) |}.
Proof.
  revert k. induction stack as [| s stack IH]; intros k H; simpl in *.
  - lia.
  - destruct k as [| k]; simpl; auto. apply IH. lia.
Qed.

(** C5.  [register_node_type_sh_test] registers a node type named
    "Shader Test" whose declaration has exactly four inputs, in this
    order: Color with default value (0.8, 0.8, 0.8, 1.0); Roughness with
    default 0.0, minimum 0.0, maximum 1.0 and the factor subtype; Normal
    with its value hidden; Weight marked unavailable; and exactly one
    output, a Shader socket named BSDF.  The value written [0.8f] is the
    binary32 value nearest to 8/10. *)
Theorem shader_test_node_declaration {G : GPUExternals}
  (registry : list bNodeType) :
  exists ntype,
    register_node_type_sh_test registry = registry ++ [ntype] /\
    ui_name ntype = "Shader Test"%string /\
    inputs (declaration_of ntype) =
      [ {| socket_type := Color; name := "Color";
           default_value_ := Some (ColorValue f0_8 f0_8 f0_8 f1_0);
           min_ := None; max_ := None; subtype_ := None;
           hide_value_ := false; unavailable_ := false |};
        {| socket_type := Float; name := "Roughness";
           default_value_ := Some (FloatValue f0_0);
           min_ := Some f0_0; max_ := Some f1_0;
           subtype_ := Some PROP_FACTOR;
           hide_value_ := false; unavailable_ := false |};
        {| socket_type := Vector; name := "Normal";
           default_value_ := None; min_ := None; max_ := None;
           subtype_ := None; hide_value_ := true; unavailable_ := false |};
        {| socket_type := Float; name := "Weight";
           default_value_ := None; min_ := None; max_ := None;
           subtype_ := None; hide_value_ := false; unavailable_ := true |} ] /\
    outputs (declaration_of ntype) =
      [ {| socket_type := Shader; name := "BSDF";
           default_value_ := None; min_ := None; max_ := None;
           subtype_ := None; hide_value_ := false; unavailable_ := false |} ] /\
    f0_0 = F32.Fin 0 /\
    f1_0 = F32.Fin (2 ^ 149) /\
    f0_8 = F32.Fin (13421773 * 2 ^ 125) /\
    2 * Z.abs (10 * 13421773 - 8 * 2 ^ 24) <= 10.
Proof.
  eexists. split; [reflexivity |].
  repeat split. vm_compute. discriminate.
Qed.

(** C6.  When the Normal input ([in[2]]) has no link,
    [node_shader_gpu_shader_test] gives it the link that
    [GPU_link(mat, "world_normals_get", ...)] makes and changes no other
    input; when it has a link the inputs are left as they are.  Either
    way [GPU_MATFLAG_DIFFUSE] is set in the material, and the function
    returns what [GPU_stack_link] returns for "node_shader_test". *)
Theorem gpu_shader_test_links_normal {G : GPUExternals}
  (mat : GPUMaterial) (node : bNode) (in_ out : list GPUNodeStack) :
  (link (nth 2 in_ no_stack) = None ->
   let made := GPU_link mat "world_normals_get" in
   let in' := set_link 2 (snd made) in_ in
   node_shader_gpu_shader_test mat node in_ out =
     GPU_stack_link (GPU_material_flag_set (fst made) GPU_MATFLAG_DIFFUSE)
       node "node_shader_test" in' out /\
   (forall i, i <> 2%nat -> nth i in' no_stack = nth i in_ no_stack) /\
   ((2 < List.length in_)%nat ->
    nth 2 in' no_stack
      = {| link := snd made; vec := vec (nth 2 in_ no_stack) |})) /\
  (link (nth 2 in_ no_stack) <> None ->
   node_shader_gpu_shader_test mat node in_ out =
     GPU_stack_link (GPU_material_flag_set mat GPU_MATFLAG_DIFFUSE)
       node "node_shader_test" in_ out) /\
  (forall m,
     Z.land (flag (GPU_material_flag_set m GPU_MATFLAG_DIFFUSE))
       GPU_MATFLAG_DIFFUSE = GPU_MATFLAG_DIFFUSE).
Proof.
  unfold node_shader_gpu_shader_test, link_normal. repeat split.
  - rewrite H. now destruct (GPU_link mat "world_normals_get").
  - intros i Hi. now apply set_link_other.
  - intros Hlen. now apply set_link_same.
  - intros H. destruct (link (nth 2 in_ no_stack)); [reflexivity | congruence].
  - intros m. apply land_lor_same.
Qed.

End ShaderTestFacts.

(* ------------------------------------------------------------------ *)
(** ** The theorems at work in the small world *)

Module Examples.

Import SnapMesh SnapMesh.Demo SnapMeshFacts.

Lemma quad_indices_ok : mesh_indices_ok quad.
Proof.
  split; repeat constructor; simpl; lia.
Defined.

Lemma quad_trees_ok : trees_ok (X := world) quad.
Proof.
  intros t n b H. destruct t; vm_compute in H; inversion H;
    repeat constructor; discriminate.
Defined.

Lemma snapMesh_keeps_closest_tested_element_witness :
  mesh_indices_ok quad /\ trees_ok (X := world) quad /\
  exists ev,
    snd (fst (snapMesh (X := world) above [] ob quad [] false)) = [] ++ ev /\
    never_increases (dist_px_sq (ret above)) (dists ev).
Proof.
  split; [exact quad_indices_ok |]. split; [exact quad_trees_ok |].
  pose proof (snapMesh_keeps_closest_tested_element (X := world) above []
                ob quad [] false quad_indices_ok quad_trees_ok) as T.
  destruct (snapMesh (X := world) above [] ob quad [] false)
    as [[[r s] t] nd].
  destruct T as (ev & T1 & _ & T2 & _). exists ev. split; assumption.
Defined.

Lemma raycastMesh_single_hit_witness :
  hit_list (ret above) = None /\
  match raycastMesh (X := world) above [] ob quad [] 0 false with
  | (r, sctx', _) =>
      r = true ->
      F32.leb (ray_depth_max (ret sctx')) (ray_depth_max (ret above)) = true
  end.
Proof.
  split; [reflexivity |].
  pose proof (raycastMesh_single_hit (X := world) above [] ob quad [] 0 false
                eq_refl) as T.
  destruct (raycastMesh (X := world) above [] ob quad [] 0 false)
    as [[r s] t].
  destruct T as (_ & T & _). intros H.
  destruct (T H) as (hit & d & a & b & c & e & f & T').
  apply T'.
Defined.

Lemma snap_object_mesh_fallback_order_witness :
  snap_object_mesh (X := world) above [] ob quad []
    (Z.lor SCE_SNAP_TO_VERTEX SCE_SNAP_TO_EDGE) false
  = stage_snap (X := world) above [] ob quad []
      (Z.land (Z.lor SCE_SNAP_TO_VERTEX SCE_SNAP_TO_EDGE)
         (mesh_snap_mode_supported quad)) false.
Proof.
  apply (proj1 (snap_object_mesh_fallback_order (X := world) above [] ob quad
                  [] (Z.lor SCE_SNAP_TO_VERTEX SCE_SNAP_TO_EDGE) false)).
  vm_compute. discriminate.
Defined.

Lemma snap_modes_supported_and_used_witness :
  mesh_counts_ok quad /\
  (includes (mesh_snap_mode_supported quad) SCE_SNAP_TO_FACE <->
   totpoly quad > 0).
Proof.
  assert (H : mesh_counts_ok quad) by (repeat split; discriminate).
  split; [exact H |].
  apply (snap_modes_supported_and_used (X := world) above [] ob quad []
           SCE_SNAP_TO_FACE false H).
Defined.

Lemma null_tree_gives_no_surface_snap_witness :
  fst (nearest_world_mesh (X := world) above [] empty_mesh [] false)
  = (false, above).
Proof.
  apply (proj1 (null_tree_gives_no_surface_snap (X := world) above [] ob
                  empty_mesh [] 0 false)).
  reflexivity.
Defined.

Lemma empty_geometry_fails_at_once_witness :
  raycastMesh (X := world) above [] ob empty_mesh [] 0 false
  = (false, above, [EvEnter FnRaycastMesh]).
Proof.
  apply (proj1 (empty_geometry_fails_at_once (X := world) above [] ob
                  empty_mesh [] 0 false)).
  reflexivity.
Defined.

Lemma backface_culling_where_applied_witness :
  cb_snap_tri_verts (X := world) quad_data 0 looking_down [] start_of_search
  = start_of_search.
Proof.
  apply (proj1 (proj2 (proj2 (backface_culling_where_applied (X := world)))))
    ; reflexivity.
Defined.

Lemma tri_edges_are_mesh_edges_witness :
  get3 (get_tri_edges_index quad_data 0) 0 = 0 /\
  get3 (get_tri_edges_index quad_data 0) 2 = -1.
Proof.
  destruct (tri_edges_are_mesh_edges (X := world) quad_data 0 looking_down []
              start_of_search) as [T _].
  split.
  - apply (T 0); [simpl; auto |]. vm_compute.
    split; [left | right]; reflexivity.
  - apply (T 2); [simpl; auto |]. vm_compute.
    intros [_ [E | E]]; discriminate.
Defined.

(** C10 as stated fails: on the square with its third edge pinched onto
    vertex 2, side 2 of triangle 0 runs from vertex 2 to vertex 0, the edge
    of that corner has its two vertices on vertex 2, and
    [get_tri_edges_index] reports that edge for the side. *)
Lemma pinched_edge_is_reported :
  at_ (0, 0, 0) (looptris pinched) 0 = (0, 1, 2) /\
  side_edge_verts pinched (0, 1, 2) 2 = (2, 2) /\
  at_ 0 (corner_verts pinched) (tri (0, 1, 2) 2) = 2 /\
  at_ 0 (corner_verts pinched) (tri (0, 1, 2) (next_corner 2)) = 0 /\
  ~ side_is_mesh_edge pinched (0, 1, 2) 2 /\
  get3 (get_tri_edges_index pinched 0) 2 = 2.
Proof.
  repeat split; try (vm_compute; reflexivity).
  vm_compute. intros [[_ E] | [E _]]; discriminate.
Qed.

(** C4 as stated fails: what [snapMesh] tests and returns follows
    [sctx->runtime.snap_to_flag], not the intersection of the argument
    [snap_to_flag] with the supported modes.  With the argument
    [SCE_SNAP_TO_VERTEX] and [SCE_SNAP_TO_VERTEX | SCE_SNAP_TO_EDGE] in the
    context, an edge is tested and [SCE_SNAP_TO_EDGE] returned; every
    [BLI_assert] of [snapMesh] holds on that run.  With only
    [SCE_SNAP_TO_EDGE_MIDPOINT] on both sides, a vertex is tested and
    [SCE_SNAP_TO_VERTEX] returned; that run is the one of a build without
    assertions, the [BLI_assert] of the vertex branch being false on it. *)
Lemma snapMesh_goes_beyond_used_modes :
  (snap_to_flag (runtime above) = Z.lor SCE_SNAP_TO_VERTEX SCE_SNAP_TO_EDGE /\
   Z.land SCE_SNAP_TO_VERTEX (mesh_snap_mode_supported quad)
     = SCE_SNAP_TO_VERTEX /\
   fst (fst (snap_object_mesh (X := world) above [] ob quad []
               SCE_SNAP_TO_VERTEX false)) = SCE_SNAP_TO_EDGE /\
   In (Edge 1)
     (tested (snd (snap_object_mesh (X := world) above [] ob quad []
                     SCE_SNAP_TO_VERTEX false)))) /\
  (snap_to_flag (runtime midpoint_only) = SCE_SNAP_TO_EDGE_MIDPOINT /\
   Z.land SCE_SNAP_TO_EDGE_MIDPOINT (mesh_snap_mode_supported quad)
     = SCE_SNAP_TO_EDGE_MIDPOINT /\
   fst (fst (snap_object_mesh (X := world) midpoint_only [] ob quad []
               SCE_SNAP_TO_EDGE_MIDPOINT false)) = SCE_SNAP_TO_VERTEX /\
   In (Vert 1)
     (tested (snd (snap_object_mesh (X := world) midpoint_only [] ob quad []
                     SCE_SNAP_TO_EDGE_MIDPOINT false)))).
Proof.
  split; (split; [vm_compute; reflexivity |]);
    (split; [vm_compute; reflexivity |]);
    (split; [vm_compute; reflexivity |]); vm_compute; tauto.
Qed.

(** C9 as stated fails: with [use_backface_culling] enabled, the ray cast
    that keeps every hit records both triangles of the square seen from
    below, although the culling test fails for them, and
    [snap_object_mesh] returns [SCE_SNAP_TO_FACE]. *)
Lemma raycast_all_keeps_back_faces :
  use_backface_culling (params (runtime below_all)) = true /\
  (forall i, In i [0; 1] ->
     let '(v0, v1, v2) :=
       vtri_co (BKE_bvhtree_from_mesh_get (Externals := world) quad
                  BVHTREE_FROM_LOOPTRI 4) i in
     fst (raycast_tri_backface_culling_test (Externals := world)
            (ray_dir (runtime below_all)) v0 v1 v2) = false) /\
  fst (fst (raycastMesh (X := world) below_all [] ob quad [] 0 false))
    = true /\
  option_map (map hd_index)
    (hit_list
       (ret (snd (fst (raycastMesh (X := world) below_all [] ob quad [] 0
                         false)))))
    = Some [0; 1] /\
  fst (fst (snap_object_mesh (X := world) below_all [] ob quad []
              SCE_SNAP_TO_FACE false))
    = SCE_SNAP_TO_FACE.
Proof.
  split; [vm_compute; reflexivity |].
  split; [intros i [<- | [<- | []]]; vm_compute; reflexivity |].
  split; [vm_compute; reflexivity |].
  split; vm_compute; reflexivity.
Qed.

End Examples.

Module ShaderExamples.

Import ShaderTest ShaderTestFacts.

Lemma gpu_shader_test_links_normal_witness :
  link (nth 2 four_inputs no_stack) = None /\
  nth 2
    (set_link 2
       (snd (GPU_link (GPUExternals := demo_gpu) empty_material
               "world_normals_get"))
       four_inputs) no_stack
  = {| link := Some {| link_id := 0 |}; vec := [] |}.
Proof.
  split; [reflexivity |].
  destruct (proj1 (gpu_shader_test_links_normal (G := demo_gpu)
                     empty_material {| node_identifier := 1 |} four_inputs
                     [no_stack]) eq_refl) as (_ & _ & T).
  rewrite T; [reflexivity | simpl; lia].
Defined.

End ShaderExamples.

(* ------------------------------------------------------------------ *)
(** ** Further properties of mesh snapping *)

Module SnapMeshExtras.

Import SnapMesh SnapMeshFacts.

Lemma tree_gets_app (t u : Trace) :
  tree_gets (t ++ u) = tree_gets t ++ tree_gets u.
Proof.
  induction t as [| [] t IH]; simpl; auto. now rewrite IH.
Qed.

(** *** snap_polygon_mesh *)

Section Polygon.

Context {X : Externals}.

Lemma cb_snap_vert_trace (data : Nearest2dUserData_Mesh) (i : Z)
  (precalc : DistProjectedAABBPrecalc) (clip : list float4)
  (st : SearchState) :
  exists d,
    snd (cb_snap_vert data i precalc clip st) = snd st ++ [EvTest (Vert i) d].
Proof.
  destruct st as [n tr]. unfold cb_snap_vert.
  destruct (test_projected_vert_dist _ _ _ _ _ _) as [[ok d] rco].
  exists d. now destruct ok.
Qed.

Lemma cb_snap_edge_trace (data : Nearest2dUserData_Mesh) (i : Z)
  (precalc : DistProjectedAABBPrecalc) (clip : list float4)
  (st : SearchState) :
  exists d,
    snd (cb_snap_edge data i precalc clip st) = snd st ++ [EvTest (Edge i) d].
Proof.
  destruct st as [n tr]. unfold cb_snap_edge.
  destruct (test_projected_edge_dist _ _ _ _ _ _ _) as [[ok d] rco].
  exists d. now destruct ok.
Qed.

Lemma snap_poly_corners_trace (cb : ProjectedCallback) (K : Z -> Elem)
  (precalc : DistProjectedAABBPrecalc) (clip : list float4) :
  (forall i st, exists d,
     snd (cb i precalc clip st) = snd st ++ [EvTest (K i) d]) ->
  forall corners st,
  exists ev,
    snd (snap_poly_corners cb corners precalc clip st) = snd st ++ ev /\
    tested ev = map K (rev corners) /\
    entered ev = [] /\ tree_gets ev = [].
Proof.
  intros Hcb corners. unfold snap_poly_corners.
  induction (rev corners) as [| i l IH]; intros st; simpl.
  - exists []. now rewrite app_nil_r.
  - destruct (Hcb i st) as [d Hd].
    destruct (IH (cb i precalc clip st)) as (ev & T & Ht & He & Hg).
    exists (EvTest (K i) d :: ev). rewrite T, Hd, <- app_assoc. simpl.
    now rewrite Ht, He, Hg.
Qed.

Lemma poly_corners_length (arr : list Z) (poly : Z * Z) :
  List.length (poly_corners arr poly) = Z.to_nat (snd poly).
Proof.
  unfold poly_corners. now rewrite length_map, length_seq.
Qed.

Lemma poly_corners_nonneg (arr : list Z) (poly : Z * Z) :
  Forall (fun v => 0 <= v) arr ->
  Forall (fun v => 0 <= v) (poly_corners arr poly).
Proof.
  intros H. unfold poly_corners. apply Forall_forall.
  intros v Hv. apply in_map_iff in Hv as (i & <- & _).
  apply (at_Forall (fun v => 0 <= v)); auto. lia.
Qed.

(** X1.  [snap_polygon_mesh] hands every corner of the polygon to the
    callback exactly once, the last corner first: the corner edges when
    [SCE_SNAP_TO_EDGE] is in [snap_to_flag], the corner vertices otherwise.
    It skips none of them, enters no other function of this file and
    fetches no tree, and it returns the mode of the elements it tested or
    [SCE_SNAP_TO_NONE]. *)
Theorem snap_polygon_mesh_tests_every_corner
  (sctx : SnapObjectContext) (tr : Trace) (ob_eval : Object) (me_eval : Mesh)
  (polys : Z -> Z * Z) (obmat : float4x4) (flag : eSnapMode) (polygon : Z) :
  match
    snap_polygon_mesh sctx tr ob_eval me_eval polys obmat flag polygon
  with
  | (r, _, tr', _) =>
      exists ev,
        tr' = tr ++ ev /\
        tested ev =
          (if has flag SCE_SNAP_TO_EDGE
           then map Edge
                  (rev (poly_corners (me_corner_edges me_eval) (polys polygon)))
           else map Vert
                  (rev (poly_corners (me_corner_verts me_eval) (polys polygon)))) /\
        List.length (tested ev) = Z.to_nat (snd (polys polygon)) /\
        entered ev = [] /\ tree_gets ev = [] /\
        (r = SCE_SNAP_TO_NONE \/
         r = (if has flag SCE_SNAP_TO_EDGE
              then SCE_SNAP_TO_EDGE else SCE_SNAP_TO_VERTEX))
  end.
Proof.
  unfold snap_polygon_mesh. cbv zeta.
  set (nd := set_base _ _).
  set (n0 := {| nr_index := -1; nr_co := zero_v3; nr_no := zero_v3;
                nr_dist_sq := dist_px_sq (ret sctx) |}).
  destruct (has flag SCE_SNAP_TO_EDGE).
  - destruct (snap_poly_corners_trace (cb_snap_edge nd) Edge
                (nearest_precalc (nd_base nd)) (clip_planes (nd_base nd))
                (fun i st => cb_snap_edge_trace nd i _ _ st)
                (poly_corners (corner_edges nd) (polys polygon)) (n0, tr))
      as (ev & T & Ht & He & Hg).
    destruct (snap_poly_corners _ _ _ _ _) as [n' tr'].
    cbn [snd] in T. subst tr'.
    destruct (negb _); exists ev;
      rewrite Ht, length_map, length_rev, poly_corners_length; auto 10.
  - destruct (snap_poly_corners_trace (cb_snap_vert nd) Vert
                (nearest_precalc (nd_base nd)) (clip_planes (nd_base nd))
                (fun i st => cb_snap_vert_trace nd i _ _ st)
                (poly_corners (corner_verts nd) (polys polygon)) (n0, tr))
      as (ev & T & Ht & He & Hg).
    destruct (snap_poly_corners _ _ _ _ _) as [n' tr'].
    cbn [snd] in T. subst tr'.
    destruct (negb _); exists ev;
      rewrite Ht, length_map, length_rev, poly_corners_length; auto 10.
Qed.

(** X2.  On a mesh whose corner arrays hold no negative index,
    [snap_polygon_mesh] starts from the threshold [sctx->ret.dist_px_sq],
    never lets [nearest.dist_sq] go up, returns a mode other than
    [SCE_SNAP_TO_NONE] exactly when a tested corner is strictly inside the
    threshold, and then stores in [nearest2d.nearest_point] a tested
    corner than which no tested corner is strictly closer. *)
Theorem snap_polygon_mesh_keeps_closest_corner
  (sctx : SnapObjectContext) (tr : Trace) (ob_eval : Object) (me_eval : Mesh)
  (polys : Z -> Z * Z) (obmat : float4x4) (flag : eSnapMode) (polygon : Z) :
  mesh_corners_ok me_eval ->
  match
    snap_polygon_mesh sctx tr ob_eval me_eval polys obmat flag polygon
  with
  | (r, _, tr', nearest2d) =>
      exists ev nd,
        tr' = tr ++ ev /\ nearest2d = Some nd /\
        never_increases (dist_px_sq (ret sctx)) (dists ev) /\
        (r <> SCE_SNAP_TO_NONE <->
         exists e d,
           In e (tested ev) /\ poly_dist nd e = Some d /\
           F32.ltb d (dist_px_sq (ret sctx)) = true) /\
        (r <> SCE_SNAP_TO_NONE ->
         nr_index (nearest_point (nd_base nd)) <> -1 /\
         F32.ltb (nr_dist_sq (nearest_point (nd_base nd)))
           (dist_px_sq (ret sctx)) = true /\
         (exists e,
            In e (tested ev) /\
            elem_index e = nr_index (nearest_point (nd_base nd)) /\
            poly_dist nd e = Some (nr_dist_sq (nearest_point (nd_base nd)))) /\
         (forall e d,
            In e (tested ev) -> poly_dist nd e = Some d ->
            F32.ltb d (nr_dist_sq (nearest_point (nd_base nd))) = false))
  end.
Proof.
  intros [Hv He]. unfold snap_polygon_mesh. cbv zeta.
  set (nd := set_base _ _).
  set (n0 := {| nr_index := -1; nr_co := zero_v3; nr_no := zero_v3;
                nr_dist_sq := dist_px_sq (ret sctx) |}).
  set (pc := nearest_precalc (nd_base nd)).
  set (cl := clip_planes (nd_base nd)).
  assert (Hstep : forall elem st',
            (if has flag SCE_SNAP_TO_EDGE
             then (SCE_SNAP_TO_EDGE,
                   snap_poly_corners (cb_snap_edge nd)
                     (poly_corners (corner_edges nd) (polys polygon)) pc cl
                     (n0, tr))
             else (SCE_SNAP_TO_VERTEX,
                   snap_poly_corners (cb_snap_vert nd)
                     (poly_corners (corner_verts nd) (polys polygon)) pc cl
                     (n0, tr))) = (elem, st') ->
            search_step nd pc cl real_elem (n0, tr) st' /\
            elem <> SCE_SNAP_TO_NONE).
  { intros elem st' E.
    destruct (has flag SCE_SNAP_TO_EDGE); injection E as <- <-;
      (split; [| discriminate]); unfold snap_poly_corners;
      apply fold_step; intros st a Hin; apply in_rev in Hin.
    - apply cb_snap_edge_step. unfold real_elem. simpl.
      pose proof (poly_corners_nonneg _ (polys polygon) He) as F.
      rewrite Forall_forall in F. specialize (F a Hin). lia.
    - apply cb_snap_vert_step. unfold real_elem. simpl.
      pose proof (poly_corners_nonneg _ (polys polygon) Hv) as F.
      rewrite Forall_forall in F. specialize (F a Hin). lia. }
  destruct (if has flag SCE_SNAP_TO_EDGE then _ else _) as [elem [n' tr']].
  destruct (Hstep elem (n', tr') eq_refl)
    as [(ev & T & En & Qv & Nv & Lv & Mv & Pv) Hel].
  cbn [fst snd] in *. subst tr'.
  destruct (nr_index n' =? -1) eqn:Ei; cbn [negb].
  - apply Z.eqb_eq in Ei. exists ev, nd.
    repeat split; auto; try tauto.
    intros (e & d & Hin & Hd & Hl). exfalso.
    specialize (Mv e d Hin Hd).
    destruct Pv as [-> | (e' & Hin' & Hi' & _)].
    + simpl in Mv. congruence.
    + rewrite Forall_forall in Qv. apply (Qv e' Hin'). congruence.
  - apply Z.eqb_neq in Ei.
    destruct Pv as [-> | (e & Hin & Hi & Hd & Hl)]; [now destruct Ei |].
    eexists ev, _. split; [reflexivity |]. split; [reflexivity |].
    split; [exact Nv |].
    split; [split; [intros _ | intros _; exact Hel] | intros _].
    + exists e, (nr_dist_sq n'). auto.
    + cbn. repeat split; eauto.
Qed.

End Polygon.

(** *** snapMesh: kinds, trees and the bounding box *)

Section SnapMeshMore.

Context {X : Externals}.

(** [snapMesh] by cases: the two early returns, then the searches. *)
Lemma snapMesh_cases
  (sctx : SnapObjectContext) (tr : Trace) (ob_eval : Object) (me_eval : Mesh)
  (obmat : float4x4) (use_hide : bool) :
  let nd0 := Nearest2dUserData_Mesh_new sctx ob_eval me_eval obmat in
  let nd := snapMesh_data sctx ob_eval me_eval obmat in
  let res := snapMesh_run sctx tr ob_eval me_eval obmat use_hide in
  snapMesh sctx tr ob_eval me_eval obmat use_hide =
    if snapMesh_empty sctx me_eval then
      (SCE_SNAP_TO_NONE, sctx, tr ++ [EvEnter FnSnapMesh], None)
    else if snapMesh_outside sctx ob_eval me_eval obmat then
      (SCE_SNAP_TO_NONE, Nearest2dUserData_release (nd_base nd0) sctx,
       tr ++ [EvEnter FnSnapMesh], Some nd0)
    else if negb (nr_index (fst (fst res)) =? -1) then
      (snd res,
       Nearest2dUserData_release
         (nd_base (set_base nd (set_nearest_point (nd_base nd) (fst (fst res)))))
         sctx,
       snd (fst res),
       Some (set_base nd (set_nearest_point (nd_base nd) (fst (fst res)))))
    else
      (SCE_SNAP_TO_NONE, Nearest2dUserData_release (nd_base nd) sctx,
       snd (fst res), Some nd).
Proof.
  unfold snapMesh, snapMesh_empty, snapMesh_outside, snapMesh_run,
    snapMesh_data, snapMesh_prelude, snap_object_data_mesh_get,
    looptri_tree_type.
  cbv zeta.
  destruct (totvert me_eval =? 0); cbn [orb]; auto.
  destruct (_ && _); auto.
  destruct (_ && _); auto.
  destruct (has (snap_to_flag (runtime sctx)) SCE_SNAP_TO_VERTEX);
    rewrite <- !app_assoc; cbn [app];
    match goal with
    | |- context [snapMesh_search ?a ?b ?c ?d ?e ?f] =>
        destruct (snapMesh_search a b c d e f) as [[n' tr'] elem]
    end; reflexivity.
Qed.

Lemma fetches_no_tree_refl (st : SearchState) : fetches_no_tree st st.
Proof. exists []. now rewrite app_nil_r. Qed.

Lemma fetches_no_tree_trans (st1 st2 st3 : SearchState) :
  fetches_no_tree st1 st2 -> fetches_no_tree st2 st3 ->
  fetches_no_tree st1 st3.
Proof.
  intros (ev1 & T1 & H1) (ev2 & T2 & H2). exists (ev1 ++ ev2).
  now rewrite T2, T1, app_assoc, tree_gets_app, H1, H2.
Qed.

Lemma fetches_no_tree_fold {A : Type} (f : SearchState -> A -> SearchState)
  (l : list A) :
  (forall st a, fetches_no_tree st (f st a)) ->
  forall st, fetches_no_tree st (fold_left f l st).
Proof.
  intros H. induction l as [| a l IH]; intros st; simpl.
  - apply fetches_no_tree_refl.
  - eapply fetches_no_tree_trans; [apply H | apply IH].
Qed.

Lemma cb_snap_vert_no_tree data i precalc clip st :
  fetches_no_tree st (cb_snap_vert data i precalc clip st).
Proof.
  destruct (cb_snap_vert_trace data i precalc clip st) as [d H].
  now exists [EvTest (Vert i) d].
Qed.

Lemma cb_snap_edge_no_tree data i precalc clip st :
  fetches_no_tree st (cb_snap_edge data i precalc clip st).
Proof.
  destruct (cb_snap_edge_trace data i precalc clip st) as [d H].
  now exists [EvTest (Edge i) d].
Qed.

Lemma snap_each_no_tree data idx precalc clip st :
  fetches_no_tree st (snap_each (cb_snap_vert data) idx precalc clip st).
Proof.
  unfold snap_each. apply fetches_no_tree_fold. intros st' i.
  destruct (i =? nr_index (fst st'));
    [apply fetches_no_tree_refl | apply cb_snap_vert_no_tree].
Qed.

Lemma cb_snap_edge_verts_no_tree data i precalc clip st :
  fetches_no_tree st (cb_snap_edge_verts data i precalc clip st).
Proof. apply snap_each_no_tree. Qed.

Lemma cb_snap_tri_verts_no_tree data i precalc clip st :
  fetches_no_tree st (cb_snap_tri_verts data i precalc clip st).
Proof.
  unfold cb_snap_tri_verts.
  destruct (get_tri_verts_index data i) as [[v0 v1] v2].
  destruct (tri_culled data i precalc);
    [apply fetches_no_tree_refl | apply snap_each_no_tree].
Qed.

Lemma cb_snap_tri_edges_no_tree data i precalc clip st :
  fetches_no_tree st (cb_snap_tri_edges data i precalc clip st).
Proof.
  unfold cb_snap_tri_edges.
  destruct (tri_culled data i precalc); [apply fetches_no_tree_refl |].
  destruct (get_tri_edges_index data i) as [[e0 e1] e2].
  apply fetches_no_tree_fold. intros st' e.
  destruct (negb (e =? -1)); [| apply fetches_no_tree_refl].
  destruct (e =? nr_index (fst st'));
    [apply fetches_no_tree_refl | apply cb_snap_edge_no_tree].
Qed.

Lemma snap_tree_no_tree sctx nd t (cb : ProjectedCallback) st :
  (forall i precalc clip st', fetches_no_tree st' (cb i precalc clip st')) ->
  fetches_no_tree st (snap_tree sctx nd t cb st).
Proof.
  intros H. unfold snap_tree. destruct t as [b |];
    [| apply fetches_no_tree_refl].
  unfold BLI_bvhtree_find_nearest_projected.
  eapply fetches_no_tree_trans.
  2: { apply fetches_no_tree_fold. intros st' i. apply H. }
  now exists [EvFindNearest (nr_dist_sq (fst st))].
Qed.

Lemma snapMesh_search_no_tree sctx nd treedata b0 b1 st :
  fetches_no_tree st (fst (snapMesh_search sctx nd treedata b0 b1 st)).
Proof.
  unfold snapMesh_search.
  destruct (has (snap_to_flag (runtime sctx)) SCE_SNAP_TO_EDGE);
    cbv zeta; cbn [fst];
    (eapply fetches_no_tree_trans; [eapply fetches_no_tree_trans |]);
    apply snap_tree_no_tree; intros;
    auto using cb_snap_vert_no_tree, cb_snap_edge_no_tree,
      cb_snap_edge_verts_no_tree, cb_snap_tri_verts_no_tree,
      cb_snap_tri_edges_no_tree.
Qed.

(** X3.  Which trees are fetched.  [snapMesh] fetches none when it returns
    early (empty geometry, or the cursor outside the bounding box);
    otherwise it fetches the tree of the triangles, the tree of the loose
    edges and, only when [SCE_SNAP_TO_VERTEX] is requested, the tree of
    the loose vertices.  [raycastMesh] fetches at most the tree of the
    triangles, and none when [totpoly == 0] or the ray misses the
    bounding box; [nearest_world_mesh] fetches exactly that tree.
    [use_hide] selects the tree of the triangles
    ([BVHTREE_FROM_LOOPTRI_NO_HIDDEN] or [BVHTREE_FROM_LOOPTRI]) and has no
    effect on the trees of the loose elements. *)
Theorem trees_fetched
  (sctx : SnapObjectContext) (tr : Trace) (ob_eval : Object) (me_eval : Mesh)
  (obmat : float4x4) (ob_index : Z) (use_hide : bool) :
  (exists ev,
     snd (fst (snapMesh sctx tr ob_eval me_eval obmat use_hide)) = tr ++ ev /\
     tree_gets ev =
       if snapMesh_empty sctx me_eval
          || snapMesh_outside sctx ob_eval me_eval obmat
       then []
       else [looptri_tree_type use_hide; BVHTREE_FROM_LOOSEEDGES] ++
            (if has (snap_to_flag (runtime sctx)) SCE_SNAP_TO_VERTEX
             then [BVHTREE_FROM_LOOSEVERTS] else [])) /\
  (exists ev,
     snd (raycastMesh sctx tr ob_eval me_eval obmat ob_index use_hide)
       = tr ++ ev /\
     tree_gets ev =
       if totpoly me_eval =? 0 then []
       else match raycast_local_ray sctx ob_eval me_eval obmat with
            | None => []
            | Some _ => [looptri_tree_type use_hide]
            end) /\
  (exists ev,
     snd (nearest_world_mesh sctx tr me_eval obmat use_hide) = tr ++ ev /\
     tree_gets ev = [looptri_tree_type use_hide]).
Proof.
  split; [| split].
  - rewrite snapMesh_cases. cbv zeta.
    destruct (snapMesh_empty sctx me_eval); cbn [orb fst snd].
    { now exists [EvEnter FnSnapMesh]. }
    destruct (snapMesh_outside sctx ob_eval me_eval obmat); cbn [fst snd].
    { now exists [EvEnter FnSnapMesh]. }
    assert (H : exists ev,
              snd (fst (snapMesh_run sctx tr ob_eval me_eval obmat use_hide))
                = tr ++ ev /\
              tree_gets ev =
                [looptri_tree_type use_hide; BVHTREE_FROM_LOOSEEDGES] ++
                (if has (snap_to_flag (runtime sctx)) SCE_SNAP_TO_VERTEX
                 then [BVHTREE_FROM_LOOSEVERTS] else [])).
    { unfold snapMesh_run.
      match goal with
      | |- context [snapMesh_search ?a ?b ?c ?d ?e ?f] =>
          destruct (snapMesh_search_no_tree a b c d e f) as (ev & T & G)
      end.
      cbn [snd] in T.
      exists (snapMesh_prelude sctx use_hide ++ ev).
      rewrite T, app_assoc, tree_gets_app, G, app_nil_r.
      split; [reflexivity |]. unfold snapMesh_prelude.
      now destruct (has (snap_to_flag (runtime sctx)) SCE_SNAP_TO_VERTEX). }
    now destruct (negb _).
  - unfold raycastMesh.
    destruct (totpoly me_eval =? 0); [now exists [EvEnter FnRaycastMesh] |].
    destruct (raycast_local_ray sctx ob_eval me_eval obmat)
      as [[[[[start dir] local_scale] local_depth] len_diff] |];
      [| now exists [EvEnter FnRaycastMesh]].
    unfold snap_object_data_mesh_get, looptri_tree_type. cbv zeta.
    destruct (tree _);
      [| rewrite <- app_assoc; eexists; split; [reflexivity | reflexivity]].
    destruct (hit_list (ret sctx)).
    + cbn [snd]. rewrite <- !app_assoc. eexists; split; reflexivity.
    + destruct (BLI_bvhtree_ray_cast _ _ _ _ _ _) as [found hit].
      destruct (negb _); [destruct (F32.leb _ _) |]; cbn [snd];
        rewrite <- !app_assoc; eexists; split; reflexivity.
  - unfold nearest_world_mesh, snap_object_data_mesh_get, looptri_tree_type.
    cbv zeta. destruct (tree _).
    + destruct (nearest_world_tree _ _ _ _ _). cbn [snd].
      rewrite <- !app_assoc. eexists; split; reflexivity.
    + cbn [snd]. rewrite <- !app_assoc. eexists; split; reflexivity.
Qed.

Lemma snap_tree_step_any (sctx : SnapObjectContext)
  (nd : Nearest2dUserData_Mesh) (Q : Elem -> Prop) (t : option BVHTree)
  (cb : ProjectedCallback) (st : SearchState) :
  let precalc :=
    dist_squared_to_projected_aabb_precalc (pmat_local (nd_base nd))
      (win_size (runtime sctx)) (mval (runtime sctx)) in
  (forall i st',
     search_step nd precalc (clip_planes (nd_base nd)) Q st'
       (cb i precalc (clip_planes (nd_base nd)) st')) ->
  search_step nd precalc (clip_planes (nd_base nd)) Q st
    (snap_tree sctx nd t cb st).
Proof.
  intros precalc H. unfold snap_tree. destruct t as [b |].
  - apply find_nearest_step; auto.
  - apply search_step_refl.
Qed.

(** The element kept by a search that moved [nearest->index] is one of the
    elements it tested. *)
Lemma moved_index_is_tested (nd : Nearest2dUserData_Mesh)
  (precalc : DistProjectedAABBPrecalc) (clip : list float4)
  (Q : Elem -> Prop) (st st' : SearchState) :
  search_step nd precalc clip Q st st' ->
  nr_index (fst st') <> nr_index (fst st) ->
  exists ev e,
    snd st' = snd st ++ ev /\ In e (tested ev) /\ Q e /\
    elem_index e = nr_index (fst st') /\
    elem_dist nd precalc clip e = Some (nr_dist_sq (fst st')).
Proof.
  intros (ev & T & _ & HQ & _ & _ & _ & P) Hne.
  destruct P as [P | (e & Hin & Hi & Hd & _)]; [now rewrite P in Hne |].
  exists ev, e. rewrite Forall_forall in HQ. auto.
Qed.

(** The kinds of the searches of [snapMesh]. *)
Lemma snapMesh_search_kind (sctx : SnapObjectContext)
  (nd : Nearest2dUserData_Mesh) (treedata : BVHTreeFromMesh)
  (b0 b1 : option BVHTree) (st : SearchState) :
  let pc :=
    dist_squared_to_projected_aabb_precalc (pmat_local (nd_base nd))
      (win_size (runtime sctx)) (mval (runtime sctx)) in
  let res := snapMesh_search sctx nd treedata b0 b1 st in
  exists ev,
    snd (fst res) = snd st ++ ev /\
    (snd res = SCE_SNAP_TO_EDGE ->
     has (snap_to_flag (runtime sctx)) SCE_SNAP_TO_EDGE = true /\
     exists i,
       In (Edge i) (tested ev) /\ nr_index (fst (fst res)) = i /\
       elem_dist nd pc (clip_planes (nd_base nd)) (Edge i)
         = Some (nr_dist_sq (fst (fst res)))) /\
    (has (snap_to_flag (runtime sctx)) SCE_SNAP_TO_EDGE = false ->
     snd res = SCE_SNAP_TO_VERTEX /\ Forall is_vert (tested ev)) /\
    (b1 = None ->
     has (snap_to_flag (runtime sctx)) SCE_SNAP_TO_EDGE = true ->
     Forall is_edge (tested ev) /\
     (nr_index (fst (fst res)) <> nr_index (fst st) ->
      snd res = SCE_SNAP_TO_EDGE)).
Proof.
  intros pc res. subst res.
  set (cl := clip_planes (nd_base nd)).
  assert (V1 : forall st', search_step nd pc cl is_vert st'
                 (snap_tree sctx nd b1 (cb_snap_vert nd) st')).
  { intros st'. apply snap_tree_step_any. intros.
    now apply cb_snap_vert_step. }
  unfold snapMesh_search.
  destruct (has (snap_to_flag (runtime sctx)) SCE_SNAP_TO_EDGE) eqn:Ef;
    cbv zeta; cbn [fst snd].
  - set (st1 := snap_tree sctx nd b1 (cb_snap_vert nd) st).
    assert (L : match b1 with
                | Some _ => nr_index (fst st1)
                | None => nr_index (fst st)
                end = nr_index (fst st1)).
    { unfold st1. now destruct b1. }
    rewrite L.
    set (st3 := snap_tree sctx nd (tree treedata) (cb_snap_tri_edges nd)
                  (snap_tree sctx nd b0 (cb_snap_edge nd) st1)).
    assert (E13 : search_step nd pc cl is_edge st1 st3).
    { unfold st3. eapply search_step_trans; apply snap_tree_step_any; intros.
      - now apply cb_snap_edge_step.
      - apply cb_snap_tri_edges_step. now intros. }
    destruct (V1 st) as (ev1 & T1 & _ & Q1 & _). fold st1 in T1.
    destruct E13 as (ev2 & T2 & E2 & Q2 & N2 & L2 & M2 & P2).
    exists (ev1 ++ ev2). rewrite T2, T1, app_assoc, tested_app.
    split; [reflexivity |]. split; [| split].
    + intros Hr. split; [reflexivity |].
      destruct (nr_index (fst st1) =? nr_index (fst st3)) eqn:Ei;
        cbn [negb] in Hr; [discriminate |].
      apply Z.eqb_neq in Ei.
      destruct P2 as [P2 | (e & Hin & Hi & Hd & _)];
        [now rewrite P2 in Ei |].
      rewrite Forall_forall in Q2. pose proof (Q2 e Hin) as Qe.
      destruct e as [i | i]; [destruct Qe |].
      exists i. rewrite in_app_iff. simpl in Hi. auto.
    + discriminate.
    + intros -> _. unfold st1 in *. cbn [snap_tree] in *.
      assert (ev1 = []) as ->.
      { apply (app_inv_head (snd st)). now rewrite app_nil_r. }
      cbn [tested app]. split; [exact Q2 |].
      intros Hne.
      match goal with
      | |- (if negb (?a =? ?b) then _ else _) = _ =>
          destruct (Z.eqb_spec a b) as [E | E];
            [exfalso; apply Hne; symmetry; exact E | reflexivity]
      end.
  - assert (S : search_step nd pc cl is_vert st
                  (snap_tree sctx nd (tree treedata) (cb_snap_tri_verts nd)
                     (snap_tree sctx nd b0 (cb_snap_edge_verts nd)
                        (snap_tree sctx nd b1 (cb_snap_vert nd) st)))).
    { eapply search_step_trans; [eapply search_step_trans |];
        [apply V1 | |]; apply snap_tree_step_any; intros.
      - now apply cb_snap_edge_verts_step.
      - apply cb_snap_tri_verts_step. now intros. }
    destruct S as (ev & T & _ & Q & _).
    exists ev. split; [exact T |].
    split; [discriminate |]. split; [auto | discriminate].
Qed.

(** The kinds of [snapMesh], shared by the statements below. *)
Lemma snapMesh_kind_facts
  (sctx : SnapObjectContext) (tr : Trace) (ob_eval : Object) (me_eval : Mesh)
  (obmat : float4x4) (use_hide : bool) :
  match snapMesh sctx tr ob_eval me_eval obmat use_hide with
  | (r, _, tr', nearest2d) =>
      exists ev,
        tr' = tr ++ ev /\
        (r = SCE_SNAP_TO_EDGE ->
         has (snap_to_flag (runtime sctx)) SCE_SNAP_TO_EDGE = true /\
         exists nd i,
           nearest2d = Some nd /\ In (Edge i) (tested ev) /\
           nr_index (nearest_point (nd_base nd)) = i /\
           snap_dist sctx nd (Edge i)
             = Some (nr_dist_sq (nearest_point (nd_base nd)))) /\
        (has (snap_to_flag (runtime sctx)) SCE_SNAP_TO_EDGE = false ->
         r <> SCE_SNAP_TO_EDGE /\ Forall is_vert (tested ev)) /\
        (has (snap_to_flag (runtime sctx)) SCE_SNAP_TO_EDGE = true ->
         has (snap_to_flag (runtime sctx)) SCE_SNAP_TO_VERTEX = false ->
         r <> SCE_SNAP_TO_VERTEX /\ Forall is_edge (tested ev))
  end.
Proof.
  rewrite snapMesh_cases. cbv zeta.
  assert (Early : exists ev,
            tr ++ [EvEnter FnSnapMesh] = tr ++ ev /\
            (SCE_SNAP_TO_NONE = SCE_SNAP_TO_EDGE ->
             has (snap_to_flag (runtime sctx)) SCE_SNAP_TO_EDGE = true /\
             exists nd i,
               (None : option Nearest2dUserData_Mesh) = Some nd /\
               In (Edge i) (tested ev) /\
               nr_index (nearest_point (nd_base nd)) = i /\
               snap_dist sctx nd (Edge i)
                 = Some (nr_dist_sq (nearest_point (nd_base nd)))) /\
            (has (snap_to_flag (runtime sctx)) SCE_SNAP_TO_EDGE = false ->
             SCE_SNAP_TO_NONE <> SCE_SNAP_TO_EDGE /\
             Forall is_vert (tested ev)) /\
            (has (snap_to_flag (runtime sctx)) SCE_SNAP_TO_EDGE = true ->
             has (snap_to_flag (runtime sctx)) SCE_SNAP_TO_VERTEX = false ->
             SCE_SNAP_TO_NONE <> SCE_SNAP_TO_VERTEX /\
             Forall is_edge (tested ev))).
  { exists [EvEnter FnSnapMesh]. simpl.
    repeat split; try discriminate; constructor. }
  destruct (snapMesh_empty sctx me_eval); [exact Early |].
  destruct (snapMesh_outside sctx ob_eval me_eval obmat).
  { exists [EvEnter FnSnapMesh]. simpl.
    repeat split; try discriminate; constructor. }
  unfold snapMesh_run.
  match goal with
  | |- context [snapMesh_search ?a ?b ?c ?d ?e ?f] =>
      destruct (snapMesh_search_kind a b c d e f) as (ev & T & K1 & K2 & K3);
      set (res := snapMesh_search a b c d e f) in *
  end.
  cbn [fst snd] in T, K3.
  assert (Hp : tested (snapMesh_prelude sctx use_hide) = []).
  { unfold snapMesh_prelude.
    now destruct (has (snap_to_flag (runtime sctx)) SCE_SNAP_TO_VERTEX). }
  destruct (nr_index (fst (fst res)) =? -1) eqn:Ei; cbn [negb].
  - exists (snapMesh_prelude sctx use_hide ++ ev).
    rewrite T, app_assoc, tested_app, Hp. cbn [app].
    split; [reflexivity |]. split; [discriminate |]. split.
    + intros Hf. split; [discriminate | now apply K2].
    + intros He Hv. split; [discriminate |].
      rewrite Hv in K3. now apply K3.
  - apply Z.eqb_neq in Ei.
    exists (snapMesh_prelude sctx use_hide ++ ev).
    rewrite T, app_assoc, tested_app, Hp. cbn [app].
    split; [reflexivity |]. split; [| split].
    + intros Hr. destruct (K1 Hr) as (He & i & Hin & Hi & Hd).
      split; [exact He |]. eexists _, i. split; [reflexivity |].
      cbn. auto.
    + intros Hf. destruct (K2 Hf) as [-> Hv]. split; [discriminate | auto].
    + intros He Hv. rewrite Hv in K3.
      destruct (K3 eq_refl He) as [Hedges Hk]. split; [| exact Hedges].
      rewrite (Hk Ei). discriminate.
Qed.

(** X4.  The mode [snapMesh] returns against the elements it tested.  When
    it returns [SCE_SNAP_TO_EDGE], that mode was requested and
    [nearest2d.nearest_point] holds a tested edge: its index and its own
    squared distance.  When [SCE_SNAP_TO_EDGE] is not requested it tests
    vertices only and never returns [SCE_SNAP_TO_EDGE]; when
    [SCE_SNAP_TO_EDGE] is requested and [SCE_SNAP_TO_VERTEX] is not, it
    tests edges only and never returns [SCE_SNAP_TO_VERTEX]. *)
Theorem snapMesh_result_kind
  (sctx : SnapObjectContext) (tr : Trace) (ob_eval : Object) (me_eval : Mesh)
  (obmat : float4x4) (use_hide : bool) :
  match snapMesh sctx tr ob_eval me_eval obmat use_hide with
  | (r, _, tr', nearest2d) =>
      exists ev,
        tr' = tr ++ ev /\
        (r = SCE_SNAP_TO_EDGE ->
         has (snap_to_flag (runtime sctx)) SCE_SNAP_TO_EDGE = true /\
         exists nd i,
           nearest2d = Some nd /\ In (Edge i) (tested ev) /\
           nr_index (nearest_point (nd_base nd)) = i /\
           snap_dist sctx nd (Edge i)
             = Some (nr_dist_sq (nearest_point (nd_base nd)))) /\
        (has (snap_to_flag (runtime sctx)) SCE_SNAP_TO_EDGE = false ->
         r <> SCE_SNAP_TO_EDGE /\ Forall is_vert (tested ev)) /\
        (has (snap_to_flag (runtime sctx)) SCE_SNAP_TO_EDGE = true ->
         has (snap_to_flag (runtime sctx)) SCE_SNAP_TO_VERTEX = false ->
         r <> SCE_SNAP_TO_VERTEX /\ Forall is_edge (tested ev))
  end.
Proof.
  exact (snapMesh_kind_facts sctx tr ob_eval me_eval obmat use_hide).
Qed.

(** X5.  Rejection by the bounding box.  The ray of [raycastMesh] is
    rejected exactly when the mesh is the object's own data, the object
    has a bounding box and the local ray misses it; [raycastMesh] then
    returns [false] with the context as it was, before any tree is fetched
    or ray cast.  [snapMesh], past its tests of empty geometry, returns
    [SCE_SNAP_TO_NONE] when the mesh is the object's own data and
    [snap_boundbox] fails, having fetched no tree and tested no
    element. *)
Theorem bounding_box_rejection
  (sctx : SnapObjectContext) (tr : Trace) (ob_eval : Object) (me_eval : Mesh)
  (obmat : float4x4) (ob_index : Z) (use_hide : bool) :
  let imat := invert_m4_m4 obmat in
  let start := mul_m4_v3 imat (ray_start (runtime sctx)) in
  let dir :=
    snd (normalize_v3 (mul_mat3_m4_v3 imat (ray_dir (runtime sctx)))) in
  (raycast_local_ray sctx ob_eval me_eval obmat = None <->
   ob_data ob_eval = me_id me_eval /\
   exists bb,
     BKE_object_boundbox_get ob_eval = Some bb /\
     isect_ray_aabb_v3_simple start dir (at_ zero_v3 (bb_vec bb) 0)
       (at_ zero_v3 (bb_vec bb) 6) = None) /\
  (raycast_local_ray sctx ob_eval me_eval obmat = None ->
   raycastMesh sctx tr ob_eval me_eval obmat ob_index use_hide
     = (false, sctx, tr ++ [EvEnter FnRaycastMesh])) /\
  (snapMesh_empty sctx me_eval = false ->
   snapMesh_outside sctx ob_eval me_eval obmat = true ->
   snapMesh sctx tr ob_eval me_eval obmat use_hide
     = (SCE_SNAP_TO_NONE,
        Nearest2dUserData_release
          (nd_base (Nearest2dUserData_Mesh_new sctx ob_eval me_eval obmat))
          sctx,
        tr ++ [EvEnter FnSnapMesh],
        Some (Nearest2dUserData_Mesh_new sctx ob_eval me_eval obmat))).
Proof.
  intros imat start dir. split; [| split].
  - unfold raycast_local_ray, raycast_boundbox. fold imat. fold start.
    unfold dir.
    destruct (normalize_v3 (mul_mat3_m4_v3 imat (ray_dir (runtime sctx))))
      as [local_scale normal]. cbn [snd].
    destruct (Z.eqb_spec (ob_data ob_eval) (me_id me_eval)) as [E | E].
    + destruct (BKE_object_boundbox_get ob_eval) as [bb |].
      * destruct (isect_ray_aabb_v3_simple start normal _ _) as [t |] eqn:I.
        -- split.
           ++ destruct (F32.ltb _ t); discriminate.
           ++ intros (_ & bb' & [= <-] & H). congruence.
        -- split; [eauto | reflexivity].
      * split.
        -- destruct (F32.ltb _ F32.zero); discriminate.
        -- intros (_ & bb' & H & _). discriminate.
    + split.
      * destruct (F32.ltb _ F32.zero); discriminate.
      * intros (H & _). contradiction.
  - intros H. unfold raycastMesh. rewrite H.
    now destruct (totpoly me_eval =? 0).
  - intros H1 H2. rewrite snapMesh_cases. cbv zeta. now rewrite H1, H2.
Qed.

End SnapMeshMore.

(** *** The ray-cast callback and snap_object_mesh *)

Section RayAndStages.

Context {X : Externals}.

Lemma culling_cb_shortens (data : BVHTreeFromMesh) (index : Z)
  (ray : BVHTreeRay) (hit : BVHTreeRayHit) :
  let hit' := mesh_looptri_raycast_backface_culling_cb data index ray hit in
  hit' = hit \/
  (hit_index hit' = index /\
   F32.ltb (hit_dist hit') (hit_dist hit) = true /\
   F32.leb F32.zero (hit_dist hit') = true).
Proof.
  unfold mesh_looptri_raycast_backface_culling_cb.
  destruct (vtri_co data index) as [[v0 v1] v2].
  destruct (F32.leb F32.zero _ && F32.ltb _ (hit_dist hit)) eqn:E; auto.
  destruct (raycast_tri_backface_culling_test _ _ _ _) as [ok n].
  destruct ok; auto. right. apply andb_true_iff in E. cbn. tauto.
Qed.

Lemma fold_left_invariant_in {A B : Type} (P : A -> Prop) (f : A -> B -> A)
  (l : list B) (a : A) :
  P a -> (forall a' b, In b l -> P a' -> P (f a' b)) -> P (fold_left f l a).
Proof.
  revert a. induction l as [| b l IH]; intros a Ha Hf; simpl; auto.
  apply IH.
  - apply Hf; simpl; auto.
  - intros a' b' Hin. apply Hf. simpl. auto.
Qed.

(** X6.  The ray-cast callback with back-face culling never lengthens the
    hit: it leaves the hit as it is, or records its own triangle at a
    distance that is not negative and strictly below the former one.  So
    a ray cast with that callback ends on the hit it started with or on a
    leaf of the tree, strictly closer than the initial distance. *)
Theorem culling_ray_cast_only_shortens
  (data : BVHTreeFromMesh) (t : BVHTree) (co dir : float3) (radius : float)
  (hit0 : BVHTreeRayHit) :
  (forall index ray hit,
     let hit' := mesh_looptri_raycast_backface_culling_cb data index ray hit in
     hit' = hit \/
     (hit_index hit' = index /\
      F32.ltb (hit_dist hit') (hit_dist hit) = true /\
      F32.leb F32.zero (hit_dist hit') = true)) /\
  (let '(found, hit') :=
     BLI_bvhtree_ray_cast t co dir radius hit0
       (mesh_looptri_raycast_backface_culling_cb data) in
   found = hit_index hit' /\
   (hit' = hit0 \/
    (In (hit_index hit') (leaves t) /\
     F32.ltb (hit_dist hit') (hit_dist hit0) = true /\
     F32.leb F32.zero (hit_dist hit') = true))).
Proof.
  split; [intros; apply culling_cb_shortens |].
  unfold BLI_bvhtree_ray_cast. split; [reflexivity |].
  apply (fold_left_invariant_in
           (fun h => h = hit0 \/
              (In (hit_index h) (leaves t) /\
               F32.ltb (hit_dist h) (hit_dist hit0) = true /\
               F32.leb F32.zero (hit_dist h) = true))); auto.
  intros h i Hin Hh.
  destruct (culling_cb_shortens data i
              {| ray_origin := co; ray_direction := dir |} h)
    as [-> | (Hi & Hl & Hz)]; auto.
  right. rewrite Hi. repeat split; auto.
  destruct Hh as [-> | (_ & Hl' & _)]; auto.
  eapply F32Facts.ltb_trans; eauto.
Qed.

(** X7.  In every mode [raycastMesh] leaves [sctx->runtime] and
    [sctx->ret.dist_px_sq] as they were.  When it keeps every hit
    ([hit_list] not null) it changes nothing but the list: [loc], [no],
    [index] and [ray_depth_max] stay, so the depth limit is not tightened
    from one object to the next; in single-hit mode [hit_list] stays
    null. *)
Theorem raycastMesh_frame
  (sctx : SnapObjectContext) (tr : Trace) (ob_eval : Object) (me_eval : Mesh)
  (obmat : float4x4) (ob_index : Z) (use_hide : bool) :
  match raycastMesh sctx tr ob_eval me_eval obmat ob_index use_hide with
  | (_, sctx', _) =>
      runtime sctx' = runtime sctx /\
      dist_px_sq (ret sctx') = dist_px_sq (ret sctx) /\
      (hit_list (ret sctx) = None <-> hit_list (ret sctx') = None) /\
      (hit_list (ret sctx) <> None ->
       loc (ret sctx') = loc (ret sctx) /\
       no (ret sctx') = no (ret sctx) /\
       index (ret sctx') = index (ret sctx) /\
       ray_depth_max (ret sctx') = ray_depth_max (ret sctx))
  end.
Proof.
  unfold raycastMesh.
  destruct (totpoly me_eval =? 0); [repeat split; tauto |].
  destruct (raycast_local_ray sctx ob_eval me_eval obmat)
    as [[[[[start dir] local_scale] local_depth] len_diff] |];
    [| repeat split; tauto].
  unfold snap_object_data_mesh_get. cbv zeta.
  destruct (tree _); [| repeat split; tauto].
  destruct (hit_list (ret sctx)) as [hl |] eqn:E.
  - cbn. repeat split; try discriminate; auto.
  - destruct (BLI_bvhtree_ray_cast _ _ _ _ _ _) as [found hit].
    destruct (negb _); [destruct (F32.leb _ _) |]; cbn; rewrite ?E;
      repeat split; auto; try contradiction; try congruence.
Qed.

Lemma has_land (a b m : Z) :
  has (Z.land a b) m = true -> has a m = true /\ has b m = true.
Proof.
  unfold has. rewrite !negb_true_iff, !Z.eqb_neq. intros H. split; intros E.
  - apply H. rewrite <- Z.land_assoc, (Z.land_comm b m), Z.land_assoc, E.
    apply Z.land_0_l.
  - apply H. rewrite <- Z.land_assoc, E. apply Z.land_0_r.
Qed.

Lemma supported_needs_geometry (me : Mesh) :
  (has (mesh_snap_mode_supported me) SCE_SNAP_TO_FACE = true ->
   totpoly me <> 0) /\
  (has (mesh_snap_mode_supported me) SCE_SNAP_INDIVIDUAL_NEAREST = true ->
   totpoly me <> 0).
Proof.
  unfold mesh_snap_mode_supported.
  destruct (Z.eqb_spec (totpoly me) 0), (Z.eqb_spec (totedge me) 0),
           (Z.eqb_spec (totvert me) 0);
    cbv zeta; cbn [negb]; split; intros H; auto; vm_compute in H;
    discriminate.
Qed.

(** X8.  What [snap_object_mesh] returns was asked for and can be found
    on the mesh: it returns [SCE_SNAP_TO_FACE] (or
    [SCE_SNAP_INDIVIDUAL_NEAREST]) only when that mode is in
    [snap_to_flag] and the mesh has polygons; it returns
    [SCE_SNAP_TO_VERTEX] or [SCE_SNAP_TO_EDGE] only when one of the vertex
    and edge modes is in [snap_to_flag] and the mesh has vertices, and
    [SCE_SNAP_TO_EDGE] only when [sctx->runtime.snap_to_flag] holds it; on
    a mesh without vertices, edges and polygons it returns
    [SCE_SNAP_TO_NONE] and changes nothing. *)
Theorem snap_object_mesh_result_is_requested
  (sctx : SnapObjectContext) (tr : Trace) (ob_eval : Object) (me_eval : Mesh)
  (obmat : float4x4) (flag : eSnapMode) (use_hide : bool) :
  let res := snap_object_mesh sctx tr ob_eval me_eval obmat flag use_hide in
  (fst (fst res) = SCE_SNAP_TO_FACE ->
   has flag SCE_SNAP_TO_FACE = true /\ totpoly me_eval <> 0) /\
  (fst (fst res) = SCE_SNAP_INDIVIDUAL_NEAREST ->
   has flag SCE_SNAP_INDIVIDUAL_NEAREST = true /\ totpoly me_eval <> 0) /\
  (fst (fst res) = SCE_SNAP_TO_VERTEX \/ fst (fst res) = SCE_SNAP_TO_EDGE ->
   has flag edge_or_vertex_modes = true /\ totvert me_eval <> 0) /\
  (fst (fst res) = SCE_SNAP_TO_EDGE ->
   has (snap_to_flag (runtime sctx)) SCE_SNAP_TO_EDGE = true) /\
  (totvert me_eval = 0 -> totedge me_eval = 0 -> totpoly me_eval = 0 ->
   res = (SCE_SNAP_TO_NONE, sctx, tr)).
Proof.
  intros res. unfold res. rewrite snap_object_mesh_unfold. cbv zeta.
  set (used := Z.land flag (mesh_snap_mode_supported me_eval)).
  set (s1 := stage_snap sctx tr ob_eval me_eval obmat used use_hide).
  set (s2 := stage_ray s1 ob_eval me_eval obmat used use_hide).
  set (s3 := stage_near s2 me_eval obmat used use_hide).
  destruct (stage_snap_events sctx tr ob_eval me_eval obmat used use_hide)
    as [_ Hr]. fold s1 in Hr.
  assert (H2 : fst (fst s2) = true -> has used SCE_SNAP_TO_FACE = true).
  { unfold s2, stage_ray. now destruct (has used SCE_SNAP_TO_FACE). }
  assert (H3 : fst (fst s3) = true ->
               has used SCE_SNAP_INDIVIDUAL_NEAREST = true).
  { unfold s3, stage_near.
    now destruct (has used SCE_SNAP_INDIVIDUAL_NEAREST). }
  assert (H1 : fst (fst s1) <> SCE_SNAP_TO_NONE ->
               has used edge_or_vertex_modes = true /\
               totvert me_eval <> 0 /\
               (fst (fst s1) = SCE_SNAP_TO_EDGE ->
                has (snap_to_flag (runtime sctx)) SCE_SNAP_TO_EDGE = true)).
  { unfold s1, stage_snap.
    destruct (has used edge_or_vertex_modes); [| intros H; now destruct H].
    intros H. split; [reflexivity |].
    pose proof (snapMesh_kind_facts sctx tr ob_eval me_eval obmat use_hide)
      as K.
    pose proof (snapMesh_cases sctx tr ob_eval me_eval obmat use_hide) as C.
    cbv zeta in C.
    destruct (snapMesh sctx tr ob_eval me_eval obmat use_hide)
      as [[[r s] t] nd].
    cbn [fst] in *. split.
    - intros E. unfold snapMesh_empty in C. rewrite E in C. cbn in C.
      injection C as -> _ _ _. now apply H.
    - intros E. destruct K as (ev & _ & K & _). now apply K. }
  destruct (supported_needs_geometry me_eval) as [G1 G2].
  set (whole :=
         if negb (fst (fst s1) =? 0) then s1
         else if fst (fst s2) then (SCE_SNAP_TO_FACE, snd (fst s2), snd s2)
         else if fst (fst s3)
              then (SCE_SNAP_INDIVIDUAL_NEAREST, snd (fst s3), snd s3)
              else (SCE_SNAP_TO_NONE, snd (fst s3), snd s3)).
  assert (Cases :
    (fst (fst s1) <> SCE_SNAP_TO_NONE /\ whole = s1) \/
    (fst (fst s2) = true /\ fst (fst whole) = SCE_SNAP_TO_FACE) \/
    (fst (fst s3) = true /\ fst (fst whole) = SCE_SNAP_INDIVIDUAL_NEAREST) \/
    (fst (fst s1) = SCE_SNAP_TO_NONE /\ fst (fst s2) = false /\
     fst (fst s3) = false /\ whole = (SCE_SNAP_TO_NONE, snd (fst s3), snd s3))).
  { unfold whole, SCE_SNAP_TO_NONE.
    destruct (Z.eqb_spec (fst (fst s1)) 0) as [E1 | E1]; cbn [negb].
    - destruct (fst (fst s2)) eqn:E2.
      + right; left. split; reflexivity.
      + destruct (fst (fst s3)) eqn:E3.
        * right; right; left. split; reflexivity.
        * right; right; right. repeat split; assumption || reflexivity.
    - left. split; [exact E1 | reflexivity]. }
  assert (Kind : fst (fst s1) <> SCE_SNAP_TO_NONE ->
                 fst (fst s1) = SCE_SNAP_TO_VERTEX \/
                 fst (fst s1) = SCE_SNAP_TO_EDGE) by tauto.
  split; [| split; [| split; [| split]]].
  - intros R.
    destruct Cases as [[N E] | [[E2 _] | [[_ E] | (_ & _ & _ & E)]]].
    + rewrite E in R. destruct (Kind N) as [K | K]; rewrite K in R;
        discriminate.
    + destruct (has_land flag _ _ (H2 E2)). auto.
    + rewrite E in R. discriminate.
    + rewrite E in R. discriminate.
  - intros R.
    destruct Cases as [[N E] | [[_ E] | [[E3 _] | (_ & _ & _ & E)]]].
    + rewrite E in R. destruct (Kind N) as [K | K]; rewrite K in R;
        discriminate.
    + rewrite E in R. discriminate.
    + destruct (has_land flag _ _ (H3 E3)). auto.
    + rewrite E in R. discriminate.
  - intros R.
    destruct Cases as [[N E] | [[_ E] | [[_ E] | (_ & _ & _ & E)]]].
    + destruct (H1 N) as (Hu & Hv & _).
      destruct (has_land flag _ _ Hu). auto.
    + rewrite E in R. destruct R; discriminate.
    + rewrite E in R. destruct R; discriminate.
    + rewrite E in R. destruct R; discriminate.
  - intros R.
    destruct Cases as [[N E] | [[_ E] | [[_ E] | (_ & _ & _ & E)]]].
    + destruct (H1 N) as (_ & _ & He). apply He. now rewrite <- E.
    + rewrite E in R. discriminate.
    + rewrite E in R. discriminate.
    + rewrite E in R. discriminate.
  - intros Hv He Hp.
    assert (U : used = 0).
    { unfold used, mesh_snap_mode_supported.
      rewrite Hv, He, Hp. cbn. apply Z.land_0_r. }
    unfold whole, s3, stage_near, s2, stage_ray, s1, stage_snap.
    rewrite U. reflexivity.
Qed.

Lemma snap_each_tests_some (data : Nearest2dUserData_Mesh)
  (precalc : DistProjectedAABBPrecalc) (clip : list float4) (l : list Z) :
  forall st,
  exists ev tested_idx,
    fold_left
      (fun st i =>
         if i =? nr_index (fst st) then st
         else cb_snap_vert data i precalc clip st) l st
    = (fst (fold_left
              (fun st i =>
                 if i =? nr_index (fst st) then st
                 else cb_snap_vert data i precalc clip st) l st),
       snd st ++ ev) /\
    tested ev = map Vert tested_idx /\
    incl tested_idx l /\
    (List.length tested_idx <= List.length l)%nat.
Proof.
  induction l as [| i l IH]; intros st; simpl.
  - exists [], []. rewrite app_nil_r. destruct st.
    repeat split; auto. apply incl_refl.
  - destruct (i =? nr_index (fst st)).
    + destruct (IH st) as (ev & idx & E & T & I & L).
      exists ev, idx. repeat split; auto; try (now apply incl_tl); lia.
    + destruct (cb_snap_vert_trace data i precalc clip st) as [d Hd].
      destruct (IH (cb_snap_vert data i precalc clip st))
        as (ev & idx & E & T & I & L).
      exists (EvTest (Vert i) d :: ev), (i :: idx).
      rewrite E at 1. rewrite Hd, <- app_assoc. simpl.
      rewrite T. repeat split; auto;
        try (apply incl_cons; [now left | now apply incl_tl]); lia.
Qed.

(** X9.  The vertices the callbacks on vertices test.  [cb_snap_tri_verts]
    tests nothing but corner vertices of its triangle, at most three of
    them, and none when the triangle is culled; [cb_snap_edge_verts] tests
    nothing but the two ends of its edge, at most two of them. *)
Theorem vertex_callbacks_test_own_vertices
  (data : Nearest2dUserData_Mesh) (index : Z)
  (precalc : DistProjectedAABBPrecalc) (clip : list float4)
  (st : SearchState) :
  (exists ev tested_idx,
     snd (cb_snap_tri_verts data index precalc clip st) = snd st ++ ev /\
     tested ev = map Vert tested_idx /\
     (forall v, In v tested_idx ->
        exists j, In j [0; 1; 2] /\
          v = at_ 0 (corner_verts data)
                (tri (at_ (0, 0, 0) (looptris data) index) j)) /\
     (List.length tested_idx <= 3)%nat /\
     (tri_culled data index precalc = true -> tested_idx = [])) /\
  (exists ev tested_idx,
     snd (cb_snap_edge_verts data index precalc clip st) = snd st ++ ev /\
     tested ev = map Vert tested_idx /\
     (forall v, In v tested_idx ->
        v = fst (at_ (0, 0) (edges data) index) \/
        v = snd (at_ (0, 0) (edges data) index)) /\
     (List.length tested_idx <= 2)%nat).
Proof.
  split.
  - unfold cb_snap_tri_verts, get_tri_verts_index.
    destruct (tri_culled data index precalc).
    + exists [], []. rewrite app_nil_r. repeat split; auto.
      intros v [].
    + unfold snap_each.
      match goal with
      | |- context [fold_left _ (rev ?l) st] =>
          destruct (snap_each_tests_some data precalc clip (rev l) st)
            as (ev & idx & E & T & I & L)
      end.
      exists ev, idx. rewrite E. cbn [snd].
      split; [reflexivity |]. split; [exact T |]. split; [| split].
      * intros v Hv. apply I in Hv. simpl in Hv.
        destruct Hv as [<- | [<- | [<- | []]]];
          [exists 2 | exists 1 | exists 0]; simpl; auto.
      * simpl in L. exact L.
      * discriminate.
  - unfold cb_snap_edge_verts, get_edge_verts_index, snap_each.
    match goal with
    | |- context [fold_left _ (rev ?l) st] =>
        destruct (snap_each_tests_some data precalc clip (rev l) st)
          as (ev & idx & E & T & I & L)
    end.
    exists ev, idx. rewrite E. cbn [snd].
    split; [reflexivity |]. split; [exact T |]. split.
    + intros v Hv. apply I in Hv. simpl in Hv.
      destruct Hv as [<- | [<- | []]]; auto.
    + simpl in L. exact L.
Qed.

Lemma raycastMesh_runtime
  (sctx : SnapObjectContext) (tr : Trace) (ob_eval : Object) (me_eval : Mesh)
  (obmat : float4x4) (ob_index : Z) (use_hide : bool) :
  runtime (snd (fst (raycastMesh sctx tr ob_eval me_eval obmat ob_index
                       use_hide)))
  = runtime sctx.
Proof.
  unfold raycastMesh.
  destruct (totpoly me_eval =? 0); auto.
  destruct (raycast_local_ray sctx ob_eval me_eval obmat)
    as [[[[[start dir] local_scale] local_depth] len_diff] |]; auto.
  unfold snap_object_data_mesh_get. cbv zeta.
  destruct (tree _); auto.
  destruct (hit_list (ret sctx)); auto.
  destruct (BLI_bvhtree_ray_cast _ _ _ _ _ _) as [found hit].
  destruct (negb _); [destruct (F32.leb _ _) |]; auto.
Qed.

(** X10.  The object index.  The ray-cast stage of [snap_object_mesh]
    advances [sctx->runtime.object_index] by one (modulo [2^32]) exactly
    when [SCE_SNAP_TO_FACE] is requested and supported, that is whenever
    [raycastMesh] is called, also when [raycastMesh] returns before it
    casts a ray or the ray misses; the stage changes nothing else of
    [sctx->runtime].  So when no vertex, edge or nearest-surface mode is
    used, [snap_object_mesh] as a whole enters [raycastMesh] and advances
    the index by one when [SCE_SNAP_TO_FACE] is used, and enters nothing
    and leaves the index otherwise. *)
Theorem object_index_counts_ray_casts
  (sctx : SnapObjectContext) (tr : Trace) (ob_eval : Object) (me_eval : Mesh)
  (obmat : float4x4) (flag : eSnapMode) (use_hide : bool) :
  let used := Z.land flag (mesh_snap_mode_supported me_eval) in
  (forall s1,
     runtime (snd (fst (stage_ray s1 ob_eval me_eval obmat used use_hide)))
     = if has used SCE_SNAP_TO_FACE
       then runtime (bump_object_index (snd (fst s1)))
       else runtime (snd (fst s1))) /\
  (has used edge_or_vertex_modes = false ->
   has used SCE_SNAP_INDIVIDUAL_NEAREST = false ->
   object_index
     (runtime
        (snd (fst (snap_object_mesh sctx tr ob_eval me_eval obmat flag
                     use_hide))))
   = (if has used SCE_SNAP_TO_FACE
      then (object_index (runtime sctx) + 1) mod 2 ^ 32
      else object_index (runtime sctx)) /\
   exists ev,
     snd (snap_object_mesh sctx tr ob_eval me_eval obmat flag use_hide)
       = tr ++ ev /\
     entered ev =
       if has used SCE_SNAP_TO_FACE then [FnRaycastMesh] else []).
Proof.
  intros used.
  assert (S : forall s1,
            runtime (snd (fst (stage_ray s1 ob_eval me_eval obmat used
                                 use_hide)))
            = if has used SCE_SNAP_TO_FACE
              then runtime (bump_object_index (snd (fst s1)))
              else runtime (snd (fst s1))).
  { intros s1. unfold stage_ray. destruct (has used SCE_SNAP_TO_FACE); auto.
    apply raycastMesh_runtime. }
  split; [exact S |].
  intros Hv Hn. split.
  - rewrite snap_object_mesh_unfold. cbv zeta. fold used.
    unfold stage_snap. rewrite Hv. cbn [fst snd].
    change (negb (SCE_SNAP_TO_NONE =? 0)) with false. cbv iota.
    unfold stage_near. rewrite Hn. cbn [fst snd].
    specialize (S (SCE_SNAP_TO_NONE, sctx, tr)). cbn [fst snd] in S.
    set (s2 := stage_ray (SCE_SNAP_TO_NONE, sctx, tr) ob_eval me_eval obmat
                 used use_hide) in *.
    assert (R : runtime
                  (snd (fst (if fst (fst s2)
                             then (SCE_SNAP_TO_FACE, snd (fst s2), snd s2)
                             else (SCE_SNAP_TO_NONE, snd (fst s2), snd s2))))
                = runtime (snd (fst s2))) by now destruct (fst (fst s2)).
    rewrite R, S.
    now destruct (has used SCE_SNAP_TO_FACE).
  - destruct (snap_object_mesh_stages sctx tr ob_eval me_eval obmat flag
                use_hide) as (ev & T & E).
    exists ev. split; [exact T |]. cbv zeta in E. fold used in E.
    rewrite E, Hv, Hn. unfold stage_snap. rewrite Hv. cbn [fst].
    change (SCE_SNAP_TO_NONE =? 0) with true. cbn [andb].
    rewrite andb_false_r. unfold stages.
    now destruct (has used SCE_SNAP_TO_FACE).
Qed.

(** X11.  Triangle sides against the polygon.  Take a corner of a
    triangle whose mesh edge joins the vertex of that corner to the
    vertex of the corner [succ] that follows it around the polygon, a
    different vertex.  Then [get_tri_edges_index] reports that edge for
    the side exactly when the side ends on the vertex of the following
    corner, and [-1] exactly when it ends elsewhere: a side that cuts
    through the polygon is never taken for an edge. *)
Theorem tri_side_is_edge_iff_next_corner
  (data : Nearest2dUserData_Mesh) (index : Z) (succ : Z -> Z) (j : Z) :
  let lt := at_ (0, 0, 0) (looptris data) index in
  let v := at_ 0 (corner_verts data) (tri lt j) in
  let s := at_ 0 (corner_verts data) (succ (tri lt j)) in
  let w := at_ 0 (corner_verts data) (tri lt (next_corner j)) in
  In j [0; 1; 2] ->
  side_edge_verts data lt j = (v, s) \/ side_edge_verts data lt j = (s, v) ->
  s <> v ->
  side_edge data lt j <> -1 ->
  (get3 (get_tri_edges_index data index) j = side_edge data lt j <-> w = s) /\
  (get3 (get_tri_edges_index data index) j = -1 <-> w <> s).
Proof.
  intros lt v s w Hj He Hsv Hne.
  rewrite (get3_tri_edges_index data index j Hj). fold lt.
  unfold tri_side_edge, ELEM.
  unfold side_edge_verts, side_edge in He, Hne.
  fold v. fold w.
  destruct He as [-> | ->]; cbn [fst snd];
    destruct (Z.eqb_spec v v), (Z.eqb_spec v w), (Z.eqb_spec s v),
             (Z.eqb_spec s w);
    cbn [orb andb]; unfold side_edge; repeat split; intros; try tauto;
    try congruence.
Qed.

End RayAndStages.

End SnapMeshExtras.

Module ExtraExamples.

Import SnapMesh SnapMesh.Demo SnapMeshFacts SnapMeshExtras.

Lemma quad_corners_ok : mesh_corners_ok quad.
Proof.
  split; repeat constructor; discriminate.
Defined.

Lemma snap_polygon_mesh_keeps_closest_corner_witness :
  mesh_corners_ok quad /\
  exists ev,
    snd (fst (snap_polygon_mesh (X := world) above [] ob quad quad_polys []
                SCE_SNAP_TO_EDGE 0)) = [] ++ ev /\
    never_increases (dist_px_sq (ret above)) (dists ev).
Proof.
  split; [exact quad_corners_ok |].
  pose proof (snap_polygon_mesh_keeps_closest_corner (X := world) above []
                ob quad quad_polys [] SCE_SNAP_TO_EDGE 0 quad_corners_ok) as T.
  destruct (snap_polygon_mesh (X := world) above [] ob quad quad_polys []
              SCE_SNAP_TO_EDGE 0) as [[[r s] t] nd].
  destruct T as (ev & nd' & T1 & _ & T2 & _). exists ev. split; assumption.
Defined.

Lemma snapMesh_result_kind_witness :
  fst (fst (fst (snapMesh (X := world) above [] ob quad [] false)))
    = SCE_SNAP_TO_EDGE /\
  has (snap_to_flag (runtime above)) SCE_SNAP_TO_EDGE = true.
Proof.
  pose proof (snapMesh_result_kind (X := world) above [] ob quad [] false)
    as T.
  assert (R : fst (fst (fst (snapMesh (X := world) above [] ob quad [] false)))
              = SCE_SNAP_TO_EDGE) by (vm_compute; reflexivity).
  split; [exact R |].
  destruct (snapMesh (X := world) above [] ob quad [] false)
    as [[[r s] t] nd].
  destruct T as (ev & _ & K & _). apply K. exact R.
Defined.

Lemma bounding_box_rejection_witness :
  raycastMesh (X := world_outside) above [] ob quad [] 0 false
  = (false, above, [EvEnter FnRaycastMesh]).
Proof.
  apply (proj1 (proj2 (bounding_box_rejection (X := world_outside) above []
                         ob quad [] 0 false))).
  vm_compute. reflexivity.
Defined.

Lemma snap_object_mesh_result_is_requested_witness :
  has SCE_SNAP_TO_FACE SCE_SNAP_TO_FACE = true /\ totpoly quad <> 0.
Proof.
  apply (proj1 (snap_object_mesh_result_is_requested (X := world) above []
                  ob quad [] SCE_SNAP_TO_FACE false)).
  vm_compute. reflexivity.
Defined.

Lemma object_index_counts_ray_casts_witness :
  object_index
    (runtime
       (snd (fst (snap_object_mesh (X := world) above [] ob quad []
                    SCE_SNAP_TO_FACE false))))
  = (object_index (runtime above) + 1) mod 2 ^ 32.
Proof.
  apply (proj2 (object_index_counts_ray_casts (X := world) above [] ob quad
                  [] SCE_SNAP_TO_FACE false)); reflexivity.
Defined.

Lemma tri_side_is_edge_iff_next_corner_witness :
  get3 (get_tri_edges_index quad_data 1) 0 = -1.
Proof.
  apply (tri_side_is_edge_iff_next_corner quad_data 1 quad_succ 0).
  - simpl. auto.
  - left. vm_compute. reflexivity.
  - vm_compute. discriminate.
  - vm_compute. discriminate.
  - vm_compute. discriminate.
Defined.

End ExtraExamples.
